(** * runtime/art_method.cc: invocation, code lookup, catch blocks, Xposed hooks

    A shallow embedding of [ArtMethod]'s operations from
    [runtime/art_method.cc].  The runtime is a record [World] holding the
    linear-alloc'd [ArtMethod]s, the hook records, the threads and a trace
    of the calls made to collaborators; every operation is a function in
    the state-and-fault monad [M].  A failed [CHECK] aborts the process
    ([Abort]); an exception thrown to managed code is the thread's pending
    exception. *)

From Stdlib Require Import ZArith List Bool Lia Ascii String.
From stdpp Require Import base option list gmap strings.

Local Open Scope Z_scope.

(** ** Machine data *)

(** Addresses ([void*], [ArtMethod*], [Thread*], ...); [nullptr] is 0. *)
Abbreviation ptr := Z.
Definition nullptr : ptr := 0.

(** [~x] on a [uint32_t]. *)
Definition uint32_not (x : Z) : Z := Z.land (Z.lnot x) (Z.ones 32).

(** The access-flag constants of [modifiers.h], which is not part of the
    sources at hand: they are parameters of the development. *)
Class Modifiers := {
  kAccStatic : Z;
  kAccSynchronized : Z;
  kAccNative : Z;
  kAccAbstract : Z;
  kAccConstructor : Z;
  kAccFastNative : Z;
  kAccDefault : Z;
  kAccDefaultConflict : Z;
  kAccXposedOriginalMethod : Z;
  kAccXposedHookedMethod : Z
}.

(** What the proofs need of them: the native flag is one bit of a
    [uint32_t], and the hooked-method flag is a non-zero mask that shares no
    bit with the fast-native flag, with the backup flag, nor with the flags
    [EnableXposedHook] removes. *)
Record ModifiersOk `{Modifiers} : Prop := {
  native_one_bit : exists n, 0 <= n < 32 /\ kAccNative = 2 ^ n;
  hooked_nonzero : kAccXposedHookedMethod <> 0;
  hooked_not_fast_native : Z.land kAccXposedHookedMethod kAccFastNative = 0;
  hooked_not_original : Z.land kAccXposedHookedMethod kAccXposedOriginalMethod = 0;
  hooked_not_native : Z.land kAccXposedHookedMethod kAccNative = 0;
  hooked_not_synchronized : Z.land kAccXposedHookedMethod kAccSynchronized = 0;
  hooked_not_abstract : Z.land kAccXposedHookedMethod kAccAbstract = 0;
  hooked_not_default : Z.land kAccXposedHookedMethod kAccDefault = 0;
  hooked_not_conflict : Z.land kAccXposedHookedMethod kAccDefaultConflict = 0
}.

(** The well-known entry points ([runtime_asm_entrypoints.h]) and the class
    linker's stub tests, parameters as well. *)
Class EntryPoints := {
  GetQuickProxyInvokeHandler : ptr;
  GetQuickToInterpreterBridge : ptr;
  GetJniDlsymLookupStub : ptr;
  GetQuickInstrumentationEntryPoint : ptr;
  GetQuickInstrumentationExitPc : ptr;
  IsQuickGenericJniStub : ptr -> bool;
  IsQuickResolutionStub : ptr -> bool;
  IsQuickToInterpreterBridge : ptr -> bool
}.

(** [kIsDebugBuild]: whether [DCHECK]s are compiled in. *)
Class Build := { kIsDebugBuild : bool }.

(** Modelled from the spec: a code item, with its instructions (16-bit code
    units) and its exception-handler table: each try range lists its
    handlers in table order as (type index, handler address), a catch-all
    handler carrying the type index [kDexNoIndex16] ([dex_file.h] is not at
    hand). *)
Record TryItem := mkTryItem {
  start_addr_ : Z;
  insn_count_ : Z;
  handlers_ : list (Z * Z)
}.

Record CodeItem := mkCodeItem {
  insns_ : list Z;
  tries_ : list TryItem
}.

(** The constants of the dex format and the code items of the dex file, by
    code-item offset (none at offset 0). *)
Class DexFiles := {
  kDexNoIndex : Z;
  kDexNoIndex16 : Z;
  MOVE_EXCEPTION : Z;
  GetCodeItemAt : Z -> option CodeItem
}.

(** ** The data model *)

(** Modelled from the spec: the fields of [ArtMethod] ([art_method.h] is
    not at hand): declaring class, access flags, code-item offset, method
    index, hotness counter, the ignore-AOT mark, profiling info and the two
    entry points. *)
Record ArtMethod := mkArtMethod {
  declaring_class_ : ptr;
  access_flags_ : Z;
  dex_code_item_offset_ : Z;
  dex_method_index_ : Z;
  hotness_count_ : Z;
  ignore_aot_code_ : bool;
  profiling_info_ : ptr;
  entry_point_from_jni_ : ptr;
  entry_point_from_quick_compiled_code_ : ptr
}.

(** [struct XposedHookInfo]: the hook record stored in place of the native
    entry point. *)
Record XposedHookInfo := mkXposedHookInfo {
  reflected_method : Z;
  additional_info : Z;
  original_method : ptr
}.

(** Modelled from the spec: a code region [[start, start+size)] with its
    header ([oat_quick_method_header.h] is not at hand). *)
Record OatQuickMethodHeader := mkHeader {
  code_ : ptr;
  code_size_ : Z
}.

Inductive Throwable :=
| StackOverflowError
| IllegalArgumentException (msg : string)
| NoClassDefFoundError (type_idx : Z)
| DeoptimizationException
| JavaThrowable (obj : ptr).

Inductive ThreadState := kRunnable | kSuspended | kNative.

(** A thread: its pending exception, the end of its native stack, its
    managed stack (a list of fragments, each a list of frames, a frame
    being the [ArtMethod*] it runs) and its long-jump context. *)
Record Thread := mkThread {
  state_ : ThreadState;
  exception_ : option Throwable;
  stack_end_ : Z;
  managed_stack_ : list (list ptr);
  long_jump_context_ : option ptr
}.

(** The JIT: whether it compiles, and the code cache as the list of its
    regions, each tagged with the method that owns it. *)
Record Jit := mkJit {
  use_jit_compilation_ : bool;
  code_cache_ : list (ptr * OatQuickMethodHeader)
}.

(** [mirror::Method] / [mirror::Constructor] objects made for a backup. *)
Record AbstractMethod := mkAbstractMethod {
  is_constructor_object : bool;
  art_method_ : ptr;
  accessible_ : bool
}.

(** Calls made to collaborators, in the order they happen. *)
Inductive Event :=
| EvLogInfo (msg : string)
| EvLogWarning (msg : string) (type_idx : Z)
| EvThreadSuspension (self : ptr)
| EvThreadResumption (self : ptr)
| EvJitSuspend
| EvJitResume
| EvGcCriticalSectionEnter
| EvGcCriticalSectionExit
| EvSuspendAll
| EvResumeAll
| EvLockThreadList
| EvUnlockThreadList
| EvInvalidateCallersForMethod (m : ptr)
| EvMoveObsoleteMethod (old_method new_method : ptr)
| EvInvalidateCompiledCodeFor (m : ptr)
| EvInstrumentThreadStack (thread : ptr) (stack : list (list ptr)).

Record World := mkWorld {
  methods : gmap Z ArtMethod;
  hook_infos : gmap Z XposedHookInfo;
  mirror_objects : gmap Z AbstractMethod;
  global_refs : list ptr;
  threads : gmap Z Thread;
  thread_list_ : list ptr;
  started_ : bool;
  jit_ : option Jit;
  oat_methods : gmap Z ptr;
  trace : list Event
}.

(** ** The monad of runtime operations *)

Inductive Fault :=
| CheckFailed (what : string)
| BadPointer (p : ptr)
| RedirectionLimit.

Inductive Outcome (A : Type) :=
| Ok (a : A) (w : World)
| Abort (f : Fault) (w : World).
Arguments Ok {A} a w.
Arguments Abort {A} f w.

Definition M (A : Type) : Type := World -> Outcome A.

#[global] Instance M_ret : MRet M := fun A a w => Ok a w.
#[global] Instance M_bind : MBind M := fun A B f c w =>
  match c w with
  | Ok a w' => f a w'
  | Abort e w' => Abort e w'
  end.

Definition abort {A} (e : Fault) : M A := fun w => Abort e w.
Definition gets {A} (f : World -> A) : M A := fun w => Ok (f w) w.
Definition modify (f : World -> World) : M unit := fun w => Ok tt (f w).

Definition CHECK (b : bool) (what : string) : M unit :=
  if b then mret tt else abort (CheckFailed what).

Definition DCHECK `{Build} (b : bool) (what : string) : M unit :=
  if kIsDebugBuild then CHECK b what else mret tt.

(** ** State access *)

Definition set_methods (v : gmap Z ArtMethod) (w : World) : World :=
  mkWorld v (hook_infos w) (mirror_objects w) (global_refs w) (threads w)
          (thread_list_ w) (started_ w) (jit_ w) (oat_methods w) (trace w).
Definition set_hook_infos (v : gmap Z XposedHookInfo) (w : World) : World :=
  mkWorld (methods w) v (mirror_objects w) (global_refs w) (threads w)
          (thread_list_ w) (started_ w) (jit_ w) (oat_methods w) (trace w).
Definition set_mirror_objects (v : gmap Z AbstractMethod) (w : World) : World :=
  mkWorld (methods w) (hook_infos w) v (global_refs w) (threads w)
          (thread_list_ w) (started_ w) (jit_ w) (oat_methods w) (trace w).
Definition set_global_refs (v : list ptr) (w : World) : World :=
  mkWorld (methods w) (hook_infos w) (mirror_objects w) v (threads w)
          (thread_list_ w) (started_ w) (jit_ w) (oat_methods w) (trace w).
Definition set_threads (v : gmap Z Thread) (w : World) : World :=
  mkWorld (methods w) (hook_infos w) (mirror_objects w) (global_refs w) v
          (thread_list_ w) (started_ w) (jit_ w) (oat_methods w) (trace w).
Definition set_jit (v : option Jit) (w : World) : World :=
  mkWorld (methods w) (hook_infos w) (mirror_objects w) (global_refs w) (threads w)
          (thread_list_ w) (started_ w) v (oat_methods w) (trace w).
Definition set_trace (v : list Event) (w : World) : World :=
  mkWorld (methods w) (hook_infos w) (mirror_objects w) (global_refs w) (threads w)
          (thread_list_ w) (started_ w) (jit_ w) (oat_methods w) v.

(** Dereferencing: a pointer to nothing is a fault of the model. *)
Definition load_method (p : ptr) : M ArtMethod := fun w =>
  match methods w !! p with
  | Some m => Ok m w
  | None => Abort (BadPointer p) w
  end.
Definition update_method (p : ptr) (f : ArtMethod -> ArtMethod) : M unit :=
  m ← load_method p; modify (fun w => set_methods (<[p := f m]> (methods w)) w).

Definition load_thread (p : ptr) : M Thread := fun w =>
  match threads w !! p with
  | Some t => Ok t w
  | None => Abort (BadPointer p) w
  end.
Definition update_thread (p : ptr) (f : Thread -> Thread) : M unit :=
  t ← load_thread p; modify (fun w => set_threads (<[p := f t]> (threads w)) w).

Definition load_hook_info (p : ptr) : M XposedHookInfo := fun w =>
  match hook_infos w !! p with
  | Some h => Ok h w
  | None => Abort (BadPointer p) w
  end.

Definition emit (e : Event) : M unit :=
  modify (fun w => set_trace (trace w ++ [e]) w).

(** A linear allocator hands out an address that is not in use (and not
    null): one past the largest address of the heap. *)
Definition fresh_addr {V} (heap : gmap Z V) : ptr :=
  1 + map_fold (fun k _ acc => Z.max k acc) 0 heap.

(** Field setters of [ArtMethod]. *)
Definition set_declaring_class (v : ptr) (m : ArtMethod) : ArtMethod :=
  mkArtMethod v (access_flags_ m) (dex_code_item_offset_ m) (dex_method_index_ m)
    (hotness_count_ m) (ignore_aot_code_ m) (profiling_info_ m)
    (entry_point_from_jni_ m) (entry_point_from_quick_compiled_code_ m).
Definition set_access_flags (v : Z) (m : ArtMethod) : ArtMethod :=
  mkArtMethod (declaring_class_ m) v (dex_code_item_offset_ m) (dex_method_index_ m)
    (hotness_count_ m) (ignore_aot_code_ m) (profiling_info_ m)
    (entry_point_from_jni_ m) (entry_point_from_quick_compiled_code_ m).
Definition set_code_item_offset (v : Z) (m : ArtMethod) : ArtMethod :=
  mkArtMethod (declaring_class_ m) (access_flags_ m) v (dex_method_index_ m)
    (hotness_count_ m) (ignore_aot_code_ m) (profiling_info_ m)
    (entry_point_from_jni_ m) (entry_point_from_quick_compiled_code_ m).
Definition set_hotness_count (v : Z) (m : ArtMethod) : ArtMethod :=
  mkArtMethod (declaring_class_ m) (access_flags_ m) (dex_code_item_offset_ m)
    (dex_method_index_ m) v (ignore_aot_code_ m) (profiling_info_ m)
    (entry_point_from_jni_ m) (entry_point_from_quick_compiled_code_ m).
Definition set_ignore_aot_code (v : bool) (m : ArtMethod) : ArtMethod :=
  mkArtMethod (declaring_class_ m) (access_flags_ m) (dex_code_item_offset_ m)
    (dex_method_index_ m) (hotness_count_ m) v (profiling_info_ m)
    (entry_point_from_jni_ m) (entry_point_from_quick_compiled_code_ m).
Definition set_profiling_info (v : ptr) (m : ArtMethod) : ArtMethod :=
  mkArtMethod (declaring_class_ m) (access_flags_ m) (dex_code_item_offset_ m)
    (dex_method_index_ m) (hotness_count_ m) (ignore_aot_code_ m) v
    (entry_point_from_jni_ m) (entry_point_from_quick_compiled_code_ m).
Definition set_entry_point_from_jni (v : ptr) (m : ArtMethod) : ArtMethod :=
  mkArtMethod (declaring_class_ m) (access_flags_ m) (dex_code_item_offset_ m)
    (dex_method_index_ m) (hotness_count_ m) (ignore_aot_code_ m) (profiling_info_ m)
    v (entry_point_from_quick_compiled_code_ m).
Definition set_entry_point_from_quick_compiled_code (v : ptr) (m : ArtMethod) : ArtMethod :=
  mkArtMethod (declaring_class_ m) (access_flags_ m) (dex_code_item_offset_ m)
    (dex_method_index_ m) (hotness_count_ m) (ignore_aot_code_ m) (profiling_info_ m)
    (entry_point_from_jni_ m) v.

(** Field setters of [Thread]. *)
Definition set_state (v : ThreadState) (t : Thread) : Thread :=
  mkThread v (exception_ t) (stack_end_ t) (managed_stack_ t) (long_jump_context_ t).
Definition set_exception (v : option Throwable) (t : Thread) : Thread :=
  mkThread (state_ t) v (stack_end_ t) (managed_stack_ t) (long_jump_context_ t).
Definition set_managed_stack (v : list (list ptr)) (t : Thread) : Thread :=
  mkThread (state_ t) (exception_ t) (stack_end_ t) v (long_jump_context_ t).
Definition set_long_jump_context (v : option ptr) (t : Thread) : Thread :=
  mkThread (state_ t) (exception_ t) (stack_end_ t) (managed_stack_ t) v.

(** The collaborators the operations call into: class resolution and
    subtyping, the interpreter, the invoke stubs, the debugger and the
    instrumentation.  They are parameters; the ones that run code are
    arbitrary operations of [M].  [PrettyMethod] ([utils.h]) is the
    printed name of a method; [ThreadSuspensionIsAllowable] is what
    [Thread::AssertThreadSuspensionIsAllowable] ([thread.h]) checks of a
    thread: that it is in no region that forbids suspension, which the
    threads of the model do not count. *)
Class Collaborators := {
  PrettyMethod : ptr -> string;
  ThreadSuspensionIsAllowable : ptr -> bool;
  ResolveType : ptr -> Z -> ptr;
  IsAssignableFrom : ptr -> ptr -> bool;
  IsProxyClass : ptr -> bool;
  GetShorty : ptr -> string;
  code_size_at : ptr -> Z;
  GetImagePointerSize : Z;
  sizeof_pointer : Z;
  IsForcedInterpreterNeededForCalling : ptr -> ptr -> bool;
  IsForcedInterpretOnly : bool;
  EnterInterpreterFromInvoke :
    ptr -> ptr -> ptr -> list Z -> option Z -> M (option Z);
  art_quick_invoke_stub :
    ptr -> list Z -> Z -> ptr -> option Z -> string -> M (option Z);
  art_quick_invoke_static_stub :
    ptr -> list Z -> Z -> ptr -> option Z -> string -> M (option Z);
  DeoptimizeWithDeoptimizationException : ptr -> option Z -> M (option Z)
}.

Section ArtMethodOperations.

Context `{!Modifiers, !EntryPoints, !Build, !DexFiles, !Collaborators}.

(** ** Accessors *)

Definition has_flag (m : ArtMethod) (flag : Z) : bool :=
  negb (Z.land (access_flags_ m) flag =? 0).

(** Modelled from the spec: the flag tests of [art_method.h], which is not
    at hand, each the test of its access-flag bit; a method is fast native
    when it has both the fast-native and the native bit. *)
Definition IsStatic (m : ArtMethod) : bool := has_flag m kAccStatic.
Definition IsNative (m : ArtMethod) : bool := has_flag m kAccNative.
Definition IsSynchronized (m : ArtMethod) : bool := has_flag m kAccSynchronized.
Definition IsAbstract (m : ArtMethod) : bool := has_flag m kAccAbstract.
Definition IsDefault (m : ArtMethod) : bool := has_flag m kAccDefault.
Definition IsDefaultConflicting (m : ArtMethod) : bool := has_flag m kAccDefaultConflict.
Definition IsConstructor (m : ArtMethod) : bool := has_flag m kAccConstructor.
Definition IsFastNative (m : ArtMethod) : bool :=
  let mask := Z.lor kAccFastNative kAccNative in
  Z.land (access_flags_ m) mask =? mask.
Definition IsXposedHookedMethod (m : ArtMethod) : bool :=
  has_flag m kAccXposedHookedMethod.
Definition IsXposedOriginalMethod (m : ArtMethod) : bool :=
  has_flag m kAccXposedOriginalMethod.
Definition IsRuntimeMethod (m : ArtMethod) : bool :=
  dex_method_index_ m =? kDexNoIndex.
Definition IsRealProxyMethod (m : ArtMethod) : bool :=
  IsProxyClass (declaring_class_ m).
Definition IgnoreAotCode (m : ArtMethod) : bool := ignore_aot_code_ m.

Definition GetAccessFlags (this : ptr) : M Z :=
  m ← load_method this; mret (access_flags_ m).
Definition SetAccessFlags (this : ptr) (v : Z) : M unit :=
  update_method this (set_access_flags v).
Definition SetEntryPointFromJni (this : ptr) (v : ptr) : M unit :=
  update_method this (set_entry_point_from_jni v).
Definition SetEntryPointFromQuickCompiledCode (this : ptr) (v : ptr) : M unit :=
  update_method this (set_entry_point_from_quick_compiled_code v).
Definition SetCodeItemOffset (this : ptr) (v : Z) : M unit :=
  update_method this (set_code_item_offset v).
Definition SetProfilingInfo (this : ptr) (v : ptr) : M unit :=
  update_method this (set_profiling_info v).
Definition SetIgnoreAotCode (this : ptr) : M unit :=
  update_method this (set_ignore_aot_code true).

(** Modelled from the spec: [GetXposedHookInfo] reads the hook record out
    of the native entry point; [GetXposedOriginalMethod] is its backup. *)
Definition GetXposedHookInfo (this : ptr) : M XposedHookInfo :=
  m ← load_method this;
  DCHECK (IsXposedHookedMethod m) "IsXposedHookedMethod()";;
  load_hook_info (entry_point_from_jni_ m).
Definition GetXposedOriginalMethod (this : ptr) : M ptr :=
  info ← GetXposedHookInfo this; mret (original_method info).

(** ** Threads and exceptions *)

Definition GetException (self : ptr) : M (option Throwable) :=
  t ← load_thread self; mret (exception_ t).
Definition SetException (self : ptr) (e : Throwable) : M unit :=
  update_thread self (set_exception (Some e)).
Definition ClearException (self : ptr) : M unit :=
  update_thread self (set_exception None).
(** Modelled from the spec: throwing ([common_throws.h] is not at hand)
    raises the condition on the thread: it becomes its pending
    exception. *)
Definition ThrowStackOverflowError (self : ptr) : M unit :=
  SetException self StackOverflowError.
Definition ThrowIllegalArgumentException (self : ptr) (msg : string) : M unit :=
  SetException self (IllegalArgumentException msg).
(** The transition into managed code is a new, empty fragment on the
    thread's managed stack. *)
Definition PushManagedStackFragment (self : ptr) : M unit :=
  update_thread self (fun t => set_managed_stack ([] :: managed_stack_ t) t).
Definition PopManagedStackFragment (self : ptr) : M unit :=
  update_thread self (fun t => set_managed_stack (tail (managed_stack_ t)) t).
(** [delete self->GetLongJumpContext()]: the thread's context is taken
    from it and freed. *)
Definition DeleteLongJumpContext (self : ptr) : M unit :=
  update_thread self (set_long_jump_context None).

(** ** The JIT and the oat files *)

(** Modelled from the spec: a header contains the pcs of its range
    [[start, start+size)]; the header of an entry point starts there, with
    the size that memory holds for it. *)
Definition Contains (h : OatQuickMethodHeader) (pc : Z) : bool :=
  (code_ h <=? pc) && (pc <? code_ h + code_size_ h).
Definition FromEntryPoint (entry_point : ptr) : OatQuickMethodHeader :=
  mkHeader entry_point (code_size_at entry_point).

Definition UseJitCompilation : M bool :=
  gets (fun w => match jit_ w with
                 | Some j => use_jit_compilation_ j
                 | None => false
                 end).

(** Modelled from the spec: the code cache's lookup returns a header that
    contains [pc] and is tagged with the method, if it holds one. *)
Definition LookupMethodHeader (j : Jit) (pc : Z) (method : ptr)
  : option OatQuickMethodHeader :=
  snd <$> List.find (fun r => (fst r =? method) && Contains (snd r) pc) (code_cache_ j).
Definition ContainsPc (j : Jit) (p : ptr) : bool :=
  existsb (fun r => Contains (snd r) p) (code_cache_ j).

(** Modelled from the spec: the cache's bookkeeping for [old_method]
    becomes [new_method]'s; the machine code stays. *)
Definition MoveObsoleteMethod (old_method new_method : ptr) : M unit :=
  emit (EvMoveObsoleteMethod old_method new_method);;
  modify (fun w =>
    set_jit ((fun j => mkJit (use_jit_compilation_ j)
                 (map (fun r => if fst r =? old_method then (new_method, snd r) else r)
                      (code_cache_ j))) <$> jit_ w) w).

(** Modelled from the spec: the request to the code cache is recorded. *)
Definition InvalidateCompiledCodeFor (method : ptr) : M unit :=
  emit (EvInvalidateCompiledCodeFor method).

(** [ClassLinker::FindOatMethodFor]: the quick code of the oat method
    found for [this], if one is found. *)
Definition FindOatMethodFor (this : ptr) : M (option ptr) :=
  gets (fun w => oat_methods w !! this).
Definition GetOatMethodQuickCodeFor (this : ptr) : M ptr :=
  gets (fun w => default nullptr (oat_methods w !! this)).

(** ** [FindCatchBlock] *)

(** Modelled from the spec: [CatchHandlerIterator(code_item, dex_pc)] runs
    over the handlers of the try range that covers [dex_pc], in table
    order; there are none when no range covers it. *)
Definition CatchHandlerIterator (code_item : CodeItem) (dex_pc : Z) : list (Z * Z) :=
  match List.find (fun t => (start_addr_ t <=? dex_pc)
                            && (dex_pc <? start_addr_ t + insn_count_ t))
                  (tries_ code_item) with
  | Some t => handlers_ t
  | None => []
  end.

(** [GetClassFromTypeIndex(type_idx, true, pointer_size)]: the resolved
    class, or [nullptr] with a [NoClassDefFoundError] pending. *)
Definition GetClassFromTypeIndex (self this : ptr) (type_idx : Z) : M ptr :=
  let klass := ResolveType this type_idx in
  if klass =? nullptr
  then SetException self (NoClassDefFoundError type_idx);; mret nullptr
  else mret klass.

(** The [for] loop of [FindCatchBlock] over the handlers left to visit;
    the result is [found_dex_pc] when the loop ends. *)
Fixpoint scan_handlers (self this exception_type : ptr) (it : list (Z * Z))
    (found_dex_pc : Z) : M Z :=
  match it with
  | [] => mret found_dex_pc
  | (iter_type_idx, handler_address) :: rest =>
      if iter_type_idx =? kDexNoIndex16 then mret handler_address
      else
        iter_exception_type ← GetClassFromTypeIndex self this iter_type_idx;
        if iter_exception_type =? nullptr then
          ClearException self;;
          DeleteLongJumpContext self;;
          emit (EvLogWarning "Unresolved exception class when finding catch block: "
                             iter_type_idx);;
          scan_handlers self this exception_type rest found_dex_pc
        else if IsAssignableFrom iter_exception_type exception_type
        then mret handler_address
        else scan_handlers self this exception_type rest found_dex_pc
  end.

(** Modelled from the spec: [Instruction::Opcode()] ([dex_instruction.h]
    is not at hand) is the low byte of the instruction's first code
    unit. *)
Definition Opcode (code_unit : Z) : Z := Z.land code_unit 255.

(** [self] is [Thread::Current()]; [has_no_move_exception] is the value
    behind the out-parameter, returned with the handler address. *)
Definition FindCatchBlock (self this exception_type : ptr) (dex_pc : Z)
    (has_no_move_exception : bool) : M (Z * bool) :=
  m ← load_method this;
  match GetCodeItemAt (dex_code_item_offset_ m) with
  | None => abort (BadPointer nullptr)
  | Some code_item =>
      exception ← GetException self;
      ClearException self;;
      found_dex_pc ← scan_handlers self this exception_type
                        (CatchHandlerIterator code_item dex_pc) kDexNoIndex;
      has_no_move_exception' ←
        (if negb (found_dex_pc =? kDexNoIndex) then
           match insns_ code_item !! Z.to_nat found_dex_pc with
           | Some first_catch_instr =>
               mret (negb (Opcode first_catch_instr =? MOVE_EXCEPTION))
           | None => abort (BadPointer found_dex_pc)
           end
         else mret has_no_move_exception);
      match exception with
      | Some e => SetException self e
      | None => mret tt
      end;;
      mret (found_dex_pc, has_no_move_exception')
  end.

(** ** [Invoke] *)

(** [self->AssertThreadSuspensionIsAllowable()]: fatal when the check
    fails. *)
Definition AssertThreadSuspensionIsAllowable (self : ptr) : M unit :=
  CHECK (ThreadSuspensionIsAllowable self) "AssertThreadSuspensionIsAllowable()".

(** [frame_address] is [__builtin_frame_address(0)]; [result] is [None]
    for a null [JValue*], and the cell's contents otherwise; the cell after
    the call is returned.  [kLogInvocationStartAndReturn] is the constant
    [false], so the two log lines it guards are never written. *)
Definition Invoke (self this : ptr) (args : list Z) (args_size : Z)
    (result : option Z) (shorty : string) (frame_address : Z) : M (option Z) :=
  t ← load_thread self;
  if frame_address <? stack_end_ t then
    ThrowStackOverflowError self;; mret result
  else
    (if kIsDebugBuild then
       AssertThreadSuspensionIsAllowable self;;
       CHECK (match state_ t with kRunnable => true | _ => false end)
             "kRunnable == self->GetState()";;
       CHECK (bool_decide (GetShorty this = shorty))
             "GetInterfaceMethodIfProxy(sizeof(void*))->GetShorty() == shorty"
     else mret tt);;
    PushManagedStackFragment self;;
    m ← load_method this;
    started ← gets started_;
    let forced := IsForcedInterpreterNeededForCalling self this in
    result' ←
      (if negb started || forced then
         if IsStatic m then
           EnterInterpreterFromInvoke self this nullptr args result
         else
           match args with
           | receiver :: args_plus_1 =>
               EnterInterpreterFromInvoke self this receiver args_plus_1 result
           | [] => abort (BadPointer nullptr)
           end
       else
         DCHECK (GetImagePointerSize =? sizeof_pointer)
                "GetImagePointerSize() == sizeof(void*)";;
         let have_quick_code :=
           negb (entry_point_from_quick_compiled_code_ m =? nullptr) in
         if have_quick_code then
           (if kIsDebugBuild && IsForcedInterpretOnly then
              use_jit ← UseJitCompilation;
              CHECK (negb use_jit) "!runtime->UseJitCompilation()";;
              oat_quick_code ← GetOatMethodQuickCodeFor this;
              CHECK ((oat_quick_code =? nullptr)
                     || negb (oat_quick_code =? entry_point_from_quick_compiled_code_ m))
                    "Don't call compiled code when -Xint"
            else mret tt);;
           r ← (if negb (IsStatic m)
                then art_quick_invoke_stub this args args_size self result shorty
                else art_quick_invoke_static_stub this args args_size self result shorty);
           exception ← GetException self;
           match exception with
           | Some DeoptimizationException =>
               DeoptimizeWithDeoptimizationException self r
           | _ => mret r
           end
         else
           emit (EvLogInfo ("Not invoking '" +:+ PrettyMethod this +:+ "' code=null"));;
           mret (match result with
                 | Some _ => Some 0
                 | None => None
                 end));
    PopManagedStackFragment self;;
    mret result'.

(** ** [RegisterNative] and [UnregisterNative] *)

(** [depth] bounds the redirections from a hooked method to its backup
    that the call may follow. *)
Fixpoint RegisterNative (depth : nat) (this native_method : ptr) (is_fast : bool)
    : M unit :=
  m ← load_method this;
  if IsXposedHookedMethod m then
    original ← GetXposedOriginalMethod this;
    match depth with
    | O => abort RedirectionLimit
    | S depth' => RegisterNative depth' original native_method is_fast
    end
  else
    CHECK (IsNative m) "IsNative()";;
    CHECK (negb (IsFastNative m)) "!IsFastNative()";;
    CHECK (negb (native_method =? nullptr)) "native_method != nullptr";;
    (if is_fast then
       flags ← GetAccessFlags this;
       SetAccessFlags this (Z.lor flags kAccFastNative)
     else mret tt);;
    SetEntryPointFromJni this native_method.

Fixpoint UnregisterNative (depth : nat) (this : ptr) : M unit :=
  m ← load_method this;
  if IsXposedHookedMethod m then
    original ← GetXposedOriginalMethod this;
    match depth with
    | O => abort RedirectionLimit
    | S depth' => UnregisterNative depth' original
    end
  else
    CHECK (IsNative m && negb (IsFastNative m)) "IsNative() && !IsFastNative()";;
    RegisterNative depth this GetJniDlsymLookupStub false.

(** ** [GetOatQuickMethodHeader] *)

Definition GetOatQuickMethodHeader (this : ptr) (pc : Z)
    : M (option OatQuickMethodHeader) :=
  DCHECK (negb (pc =? GetQuickInstrumentationExitPc))
         "pc != GetQuickInstrumentationExitPc()";;
  m ← load_method this;
  if IsRuntimeMethod m then mret None
  else
    let existing_entry_point := entry_point_from_quick_compiled_code_ m in
    CHECK (negb (existing_entry_point =? nullptr)) "existing_entry_point != nullptr";;
    if IsQuickGenericJniStub existing_entry_point then mret None
    else if existing_entry_point =? GetQuickProxyInvokeHandler then
      DCHECK (IsXposedHookedMethod m || IsRealProxyMethod m && negb (IsConstructor m))
             "IsXposedHookedMethod() || IsRealProxyMethod() && !IsConstructor()";;
      mret None
    else if negb (IsQuickResolutionStub existing_entry_point)
            && negb (IsQuickToInterpreterBridge existing_entry_point)
            && Contains (FromEntryPoint existing_entry_point) pc
    then mret (Some (FromEntryPoint existing_entry_point))
    else
      jit ← gets jit_;
      match match jit with
            | Some j => LookupMethodHeader j pc this
            | None => None
            end with
      | Some method_header =>
          DCHECK (Contains method_header pc) "method_header->Contains(pc)";;
          mret (Some method_header)
      | None =>
          match jit with
          | Some j => DCHECK (negb (ContainsPc j pc)) "!code_cache->ContainsPc(pc)"
          | None => mret tt
          end;;
          oat_method ← FindOatMethodFor this;
          match oat_method with
          | None =>
              if IsQuickResolutionStub existing_entry_point then
                DCHECK (pc =? 0) "Should be a downcall";;
                DCHECK (IsNative m) "IsNative()";;
                mret None
              else if existing_entry_point =? GetQuickInstrumentationEntryPoint then
                DCHECK (pc =? 0) "Should be a downcall";;
                DCHECK (IsNative m) "IsNative()";;
                mret None
              else mret (Some (FromEntryPoint existing_entry_point))
          | Some oat_entry_point =>
              if (oat_entry_point =? nullptr) || IsQuickGenericJniStub oat_entry_point
              then
                DCHECK (IsNative m) "IsNative()";;
                mret None
              else
                let method_header := FromEntryPoint oat_entry_point in
                if pc =? 0 then
                  DCHECK (IsNative m) "IsNative()";;
                  mret (Some method_header)
                else
                  DCHECK (Contains method_header pc) "method_header->Contains(pc)";;
                  mret (Some method_header)
          end
      end.

(** ** [CopyFrom] and [InvalidateCompiledCode] *)

Definition CopyFrom (this src : ptr) : M unit :=
  src_method ← load_method src;
  update_method this (fun _ => src_method);;
  update_method this (set_declaring_class (declaring_class_ src_method));;
  jit ← gets jit_;
  use_jit ← UseJitCompilation;
  (if use_jit : bool then
     m ← load_method this;
     match jit return M unit with
     | Some j =>
         if ContainsPc j (entry_point_from_quick_compiled_code_ m)
         then SetEntryPointFromQuickCompiledCode this GetQuickToInterpreterBridge
         else mret tt
     | None => mret tt
     end
   else mret tt);;
  src_method' ← load_method src;
  (if negb (IsNative src_method') then SetProfilingInfo this nullptr else mret tt);;
  update_method this (set_hotness_count 0).

Definition InvalidateCompiledCode (this : ptr) : M unit :=
  m ← load_method this;
  CHECK (negb (IsXposedHookedMethod m)) "!IsXposedHookedMethod()";;
  (if negb (IgnoreAotCode m) then SetIgnoreAotCode this else mret tt);;
  use_jit ← UseJitCompilation;
  if use_jit : bool then InvalidateCompiledCodeFor this
  else SetEntryPointFromQuickCompiledCode this GetQuickToInterpreterBridge.

(** ** [EnableXposedHook] *)

(** [StackReplaceMethodVisitor::VisitFrame] on one frame: the method the
    frame refers to afterwards. *)
Definition VisitFrame (search_ replace_ : ptr) (frame_method : ptr) : ptr :=
  if frame_method =? search_ then replace_ else frame_method.

(** Modelled from the spec: the stack walk enumerates every frame of the
    thread, here of every fragment of its managed stack, and the visitor
    never stops it. *)
Definition WalkStack (thread : ptr) (visit : ptr -> ptr) : M unit :=
  update_thread thread
    (fun t => set_managed_stack (map (map visit) (managed_stack_ t)) t).

(** Modelled from the spec: the instrumentation is reinstalled on the
    thread's stack as it is at the call. *)
Definition InstrumentThreadStack (thread : ptr) : M unit :=
  t ← load_thread thread;
  emit (EvInstrumentThreadStack thread (managed_stack_ t)).

Definition StackReplaceMethodAndInstallInstrumentation (thread : ptr) (arg : ptr)
    : M unit :=
  let search := arg in
  replace ← GetXposedOriginalMethod search;
  WalkStack thread (VisitFrame search replace);;
  InstrumentThreadStack thread.

(** [ThreadList::ForEach(callback, context)]. *)
Fixpoint for_each (callback : ptr -> ptr -> M unit) (context : ptr)
    (list_ : list ptr) : M unit :=
  match list_ with
  | [] => mret tt
  | thread :: rest => callback thread context;; for_each callback context rest
  end.
Definition ForEach (callback : ptr -> ptr -> M unit) (context : ptr) : M unit :=
  list_ ← gets thread_list_; for_each callback context list_.

(** [ClassLinker::CreateRuntimeMethod]: a new [ArtMethod] from the linear
    allocator, a runtime method. *)
Definition CreateRuntimeMethod : M ptr := fun w =>
  let method := fresh_addr (methods w) in
  Ok method
     (set_methods (<[method := mkArtMethod 0 0 0 kDexNoIndex 0 false 0 0 0]> (methods w)) w).

(** [mirror::Method::CreateFromArtMethod] and
    [mirror::Constructor::CreateFromArtMethod]. *)
Definition CreateFromArtMethod (is_constructor : bool) (method : ptr) : M ptr := fun w =>
  let object := fresh_addr (mirror_objects w) in
  Ok object
     (set_mirror_objects
        (<[object := mkAbstractMethod is_constructor method false]> (mirror_objects w)) w).
Definition SetAccessible (object : ptr) (v : bool) : M unit := fun w =>
  match mirror_objects w !! object with
  | Some o =>
      Ok tt (set_mirror_objects
               (<[object := mkAbstractMethod (is_constructor_object o) (art_method_ o) v]>
                  (mirror_objects w)) w)
  | None => Abort (BadPointer object) w
  end.

(** [AddGlobalRef] / [NewGlobalRef]: the new global reference is the
    index of the object in the table of globals. *)
Definition AddGlobalRef (object : ptr) : M Z := fun w =>
  Ok (Z.of_nat (length (global_refs w)))
     (set_global_refs (global_refs w ++ [object]) w).

(** [linear_alloc->Alloc(self, sizeof(XposedHookInfo))]. *)
Definition AllocXposedHookInfo : M ptr := fun w =>
  let hook_info := fresh_addr (hook_infos w) in
  Ok hook_info (set_hook_infos (<[hook_info := mkXposedHookInfo 0 0 0]> (hook_infos w)) w).
Definition store_hook_info (p : ptr) (info : XposedHookInfo) : M unit :=
  _ ← load_hook_info p;
  modify (fun w => set_hook_infos (<[p := info]> (hook_infos w)) w).

Definition kRemoveFlags : Z :=
  Z.lor (Z.lor (Z.lor (Z.lor kAccNative kAccSynchronized) kAccAbstract) kAccDefault)
        kAccDefaultConflict.

(** [self] is [soa.Self()].  The scoped objects [sts], [sjs], [gcs], [ssa]
    and [mu] are entered where they are declared and left, in the reverse
    order, when the function returns. *)
Definition EnableXposedHook (self this : ptr) (additional_info' : ptr) : M unit :=
  m ← load_method this;
  if IsXposedHookedMethod m then mret tt
  else if IsXposedOriginalMethod m then
    ThrowIllegalArgumentException self
      ("Cannot hook the method backup: " +:+ PrettyMethod this)
  else
    backup_method ← CreateRuntimeMethod;
    CopyFrom backup_method this;;
    backup_flags ← GetAccessFlags backup_method;
    SetAccessFlags backup_method (Z.lor backup_flags kAccXposedOriginalMethod);;
    m' ← load_method this;
    reflected_method' ← CreateFromArtMethod (IsConstructor m') backup_method;
    SetAccessible reflected_method' true;;
    hook_info ← AllocXposedHookInfo;
    reflected_ref ← AddGlobalRef reflected_method';
    additional_ref ← AddGlobalRef additional_info';
    store_hook_info hook_info (mkXposedHookInfo reflected_ref additional_ref backup_method);;
    emit (EvThreadSuspension self);;
    update_thread self (set_state kSuspended);;
    emit EvJitSuspend;;
    emit EvGcCriticalSectionEnter;;
    emit EvSuspendAll;;
    emit (EvInvalidateCallersForMethod this);;
    jit ← gets jit_;
    match jit with
    | Some _ => MoveObsoleteMethod this backup_method
    | None => mret tt
    end;;
    SetEntryPointFromJni this hook_info;;
    SetEntryPointFromQuickCompiledCode this GetQuickProxyInvokeHandler;;
    SetCodeItemOffset this 0;;
    flags ← GetAccessFlags this;
    SetAccessFlags this
      (Z.lor (Z.land flags (uint32_not kRemoveFlags)) kAccXposedHookedMethod);;
    emit EvLockThreadList;;
    ForEach StackReplaceMethodAndInstallInstrumentation this;;
    emit EvUnlockThreadList;;
    emit EvResumeAll;;
    emit EvGcCriticalSectionExit;;
    emit EvJitResume;;
    update_thread self (set_state kRunnable);;
    emit (EvThreadResumption self).

End ArtMethodOperations.

(** ** Specifications used in the statements *)

Section Specifications.

Context `{!Modifiers, !EntryPoints, !Build, !DexFiles, !Collaborators}.

(** A handler applies to an exception of class [exception_type] thrown in
    [this]: it is a catch-all, or its type resolves to a class assignable
    from [exception_type]. *)
Definition handler_applies (this exception_type : ptr) (handler : Z * Z) : bool :=
  (fst handler =? kDexNoIndex16)
  || (negb (ResolveType this (fst handler) =? nullptr)
      && IsAssignableFrom (ResolveType this (fst handler)) exception_type).

(** A handler is unresolved: it is typed and its type does not resolve. *)
Definition handler_unresolved (this : ptr) (handler : Z * Z) : bool :=
  negb (fst handler =? kDexNoIndex16) && (ResolveType this (fst handler) =? nullptr).

(** The handlers the scan visits before it stops: those before the first
    one that applies. *)
Fixpoint visited_before_match (this exception_type : ptr) (it : list (Z * Z))
    : list (Z * Z) :=
  match it with
  | [] => []
  | handler :: rest =>
      if handler_applies this exception_type handler then []
      else handler :: visited_before_match this exception_type rest
  end.

(** The address of the first handler, in table order, that applies. *)
Definition first_applicable (this exception_type : ptr) (it : list (Z * Z))
    : option Z :=
  snd <$> List.find (handler_applies this exception_type) it.

(** The warnings logged for the unresolved handlers among [visited]. *)
Definition unresolved_warnings (this : ptr) (visited : list (Z * Z)) : list Event :=
  map (fun handler =>
         EvLogWarning "Unresolved exception class when finding catch block: "
                      (fst handler))
      (List.filter (handler_unresolved this) visited).

(** The calling thread after the scan has visited [visited]: an unresolved
    handler costs it its long-jump context. *)
Definition thread_after_scan (this : ptr) (visited : list (Z * Z)) (t : Thread)
    : Thread :=
  if existsb (handler_unresolved this) visited
  then set_long_jump_context None t
  else t.

(** JIT compilation is in use ([Runtime::UseJitCompilation]). *)
Definition jit_compilation_in_use (w : World) : bool :=
  match jit_ w with
  | Some j => use_jit_compilation_ j
  | None => false
  end.

(** A usage error reported to the caller: the call returns with the
    methods as they were and an exception pending on some thread. *)
Definition reports_usage_error (w : World) (o : Outcome unit) : Prop :=
  exists w', o = Ok tt w' /\ methods w' = methods w
    /\ exists self t e, threads w' !! self = Some t /\ exception_ t = Some e.

(** The call returned to its caller (it did not abort the process). *)
Definition returns_to_caller {A} (o : Outcome A) : Prop :=
  exists a w, o = Ok a w.

(** The thread [self] of [w'] has the exception [e] pending, and nothing
    else of [w] has changed. *)
Definition only_throws (self : ptr) (e : Throwable) (w w' : World) : Prop :=
  exists t, threads w !! self = Some t /\
    w' = set_threads (<[self := set_exception (Some e) t]> (threads w)) w.

(** No backup is hooked: the state of the hooks that [EnableXposedHook]
    maintains. *)
Definition backups_not_hooked (w : World) : Prop :=
  forall p m, methods w !! p = Some m ->
    IsXposedOriginalMethod m = true -> IsXposedHookedMethod m = false.

(** The stack of a thread once the frames of [search] refer to [replace]. *)
Definition replace_method (search replace : ptr) (stack : list (list ptr))
    : list (list ptr) :=
  map (map (fun frame_method =>
              if decide (frame_method = search) then replace else frame_method))
      stack.

(** The hooked method as [EnableXposedHook] leaves it: its native entry
    point is the hook record at [hook_info]. *)
Definition hooked_descriptor (hook_info : ptr) (m : ArtMethod) : ArtMethod :=
  set_access_flags
    (Z.lor (Z.land (access_flags_ m) (uint32_not kRemoveFlags)) kAccXposedHookedMethod)
    (set_code_item_offset 0
       (set_entry_point_from_quick_compiled_code GetQuickProxyInvokeHandler
          (set_entry_point_from_jni hook_info m))).

(** A thread once its stack has been walked. *)
Definition visit_thread (search replace : ptr) (t : Thread) : Thread :=
  set_managed_stack (replace_method search replace (managed_stack_ t)) t.

(** The calls to the instrumentation for the threads of [list_], in
    order, each with the rewritten stack of its thread. *)
Definition instrumentation_events (search replace : ptr) (thr : gmap Z Thread)
    (list_ : list ptr) : list Event :=
  map (fun thread =>
         EvInstrumentThreadStack thread
           (replace_method search replace
              (default [] (managed_stack_ <$> thr !! thread))))
      list_.

(** [GetOatQuickMethodHeader this pc] gets to the header of the AOT code at
    [oat_entry_point]: no earlier case returns, and the oat file has code
    for the method that is not the generic JNI stub. *)
Definition reaches_aot_code (this : ptr) (pc : Z) (w : World) (m : ArtMethod)
    (oat_entry_point : ptr) : Prop :=
  let existing_entry_point := entry_point_from_quick_compiled_code_ m in
  pc <> GetQuickInstrumentationExitPc
  /\ IsRuntimeMethod m = false
  /\ existing_entry_point <> nullptr
  /\ IsQuickGenericJniStub existing_entry_point = false
  /\ existing_entry_point <> GetQuickProxyInvokeHandler
  /\ negb (IsQuickResolutionStub existing_entry_point)
     && negb (IsQuickToInterpreterBridge existing_entry_point)
     && Contains (FromEntryPoint existing_entry_point) pc = false
  /\ (forall j, jit_ w = Some j ->
        LookupMethodHeader j pc this = None /\ ContainsPc j pc = false)
  /\ oat_methods w !! this = Some oat_entry_point
  /\ oat_entry_point <> nullptr
  /\ IsQuickGenericJniStub oat_entry_point = false.

(** [GetOatQuickMethodHeader this pc] gets to its last resort, the header
    of the existing entry point: no earlier case returns, no oat method is
    found for the method, and its entry point is neither the resolution
    stub nor the instrumentation entry point. *)
Definition reaches_fallback (this : ptr) (pc : Z) (w : World) (m : ArtMethod) : Prop :=
  let existing_entry_point := entry_point_from_quick_compiled_code_ m in
  (kIsDebugBuild = true -> pc <> GetQuickInstrumentationExitPc)
  /\ IsRuntimeMethod m = false
  /\ existing_entry_point <> nullptr
  /\ IsQuickGenericJniStub existing_entry_point = false
  /\ existing_entry_point <> GetQuickProxyInvokeHandler
  /\ negb (IsQuickResolutionStub existing_entry_point)
     && negb (IsQuickToInterpreterBridge existing_entry_point)
     && Contains (FromEntryPoint existing_entry_point) pc = false
  /\ (forall j, jit_ w = Some j ->
        LookupMethodHeader j pc this = None
        /\ (kIsDebugBuild = true -> ContainsPc j pc = false))
  /\ oat_methods w !! this = None
  /\ IsQuickResolutionStub existing_entry_point = false
  /\ existing_entry_point <> GetQuickInstrumentationEntryPoint.

End Specifications.

(** * Further operations of [art_method.cc] *)

(** The parameter types of the prototype of the method with a given dex
    method index, as type indexes; none for a prototype without a
    parameter list ([dex_file.h] supplies them). *)
Class Prototypes := {
  GetProtoParameters : Z -> option (list Z)
}.

Section FurtherOperations.

Context `{!Modifiers, !EntryPoints, !Build, !DexFiles, !Collaborators, !Prototypes}.

(** ** [NumArgRegisters] *)

(** [+] on a [uint32_t]. *)
Definition uint32_add (a b : Z) : Z := (a + b) mod 2 ^ 32.

(** The loop of [NumArgRegisters] over the characters from index 1 on,
    [num_registers] being the count so far. *)
Fixpoint count_arg_registers (chars : list ascii) (num_registers : Z) : Z :=
  match chars with
  | [] => num_registers
  | ch :: rest =>
      count_arg_registers rest
        (if Ascii.eqb ch "D" || Ascii.eqb ch "J"
         then uint32_add num_registers 2
         else uint32_add num_registers 1)
  end.

Definition NumArgRegisters (shorty : string) : M Z :=
  CHECK (1 <=? Z.of_nat (String.length shorty)) "1U <= shorty.length()";;
  mret (count_arg_registers (drop 1 (list_ascii_of_string shorty)) 0).

(** ** [EqualParameters] *)

(** Modelled from the spec: [ClassLinker::ResolveType(type_idx, referrer)]
    gives the class, or fails: [nullptr] with the failure pending on the
    calling thread. *)
Definition ClassLinker_ResolveType (self referrer : ptr) (type_idx : Z) : M ptr :=
  let klass := ResolveType referrer type_idx in
  if klass =? nullptr
  then SetException self (NoClassDefFoundError type_idx);; mret nullptr
  else mret klass.

(** Modelled from the spec: [Thread::AssertPendingException] ([thread.h]
    is outside this file) checks that an exception is pending. *)
Definition AssertPendingException (self : ptr) : M unit :=
  exception ← GetException self;
  CHECK (bool_decide (is_Some exception)) "Pending exception expected.".

(** The loop of [EqualParameters] from index [i] on, over the declared
    parameter types left; [params] is the array of classes passed in. *)
Fixpoint equal_parameters_from (self this : ptr) (params : list ptr) (i : nat)
    (proto_params : list Z) : M bool :=
  match proto_params with
  | [] => mret true
  | type_idx :: rest =>
      type ← ClassLinker_ResolveType self this type_idx;
      if type =? nullptr then
        AssertPendingException self;;
        mret false
      else
        match params !! i with
        | Some param =>
            if negb (type =? param) then mret false
            else equal_parameters_from self this params (S i) rest
        | None => abort (BadPointer nullptr)
        end
  end.

(** [self] is [Thread::Current()]; [params] is [None] for a null handle. *)
Definition EqualParameters (self this : ptr) (params : option (list ptr)) : M bool :=
  m ← load_method this;
  let proto_params := GetProtoParameters (dex_method_index_ m) in
  let count := match proto_params with
               | Some proto_list => length proto_list
               | None => O
               end in
  let param_len := match params with
                   | Some param_list => length param_list
                   | None => O
                   end in
  if negb (Nat.eqb param_len count) then mret false
  else equal_parameters_from self this (default [] params) 0 (default [] proto_params).

(** ** [HasAnyCompiledCode] *)

(** Modelled from the spec: the code cache holds code of the method. *)
Definition ContainsMethod (j : Jit) (method : ptr) : bool :=
  existsb (fun r => fst r =? method) (code_cache_ j).

Definition HasAnyCompiledCode (this : ptr) : M bool :=
  jit ← gets jit_;
  if match jit with
     | Some j => ContainsMethod j this
     | None => false
     end
  then mret true
  else
    m ← load_method this;
    if IgnoreAotCode m then mret false
    else
      oat_quick_code ← GetOatMethodQuickCodeFor this;
      mret (negb (oat_quick_code =? nullptr)).

(** ** Specifications used in the further statements *)

(** The number of registers of one argument kind. *)
Definition registers_of (ch : ascii) : Z :=
  if Ascii.eqb ch "D" || Ascii.eqb ch "J" then 2 else 1.

(** A declared parameter type and the class passed for it agree: the type
    resolves, to that class. *)
Definition parameter_agrees (this : ptr) (pair : Z * ptr) : bool :=
  negb (ResolveType this (fst pair) =? nullptr)
  && (ResolveType this (fst pair) =? snd pair).

(** The method [CopyFrom] leaves for a source [src_method], the JIT being
    [jit]. *)
Definition copied_method (jit : option Jit) (src_method : ArtMethod) : ArtMethod :=
  set_hotness_count 0
    ((if IsNative src_method then id else set_profiling_info nullptr)
       ((if match jit with
            | Some j => use_jit_compilation_ j
                        && ContainsPc j (entry_point_from_quick_compiled_code_ src_method)
            | None => false
            end
         then set_entry_point_from_quick_compiled_code GetQuickToInterpreterBridge
         else id) src_method)).

(** An operation that, when it returns, leaves the managed stack of
    [self] as it found it. *)
Definition keeps_managed_stack {A} (self : ptr) (c : M A) : Prop :=
  forall w r w', c w = Ok r w' ->
    managed_stack_ <$> threads w' !! self = managed_stack_ <$> threads w !! self.

(** An operation that, when it returns, has applied [f] to the managed
    stack of [self]. *)
Definition stack_effect {A} (self : ptr) (f : list (list ptr) -> list (list ptr))
    (c : M A) : Prop :=
  forall w r w', c w = Ok r w' ->
    managed_stack_ <$> threads w' !! self = f <$> (managed_stack_ <$> threads w !! self).

(** A query: however it ends, it leaves the runtime as it found it. *)
Definition read_only {A} (c : M A) : Prop :=
  forall w, (exists r, c w = Ok r w) \/ (exists e, c w = Abort e w).

(** The registers of the argument kinds [chars], without wrap-around: one
    each, and one more for each wide one. *)
Definition total_registers (chars : list ascii) : Z :=
  Z.of_nat (length chars)
  + Z.of_nat (length (List.filter (fun ch => Ascii.eqb ch "D" || Ascii.eqb ch "J") chars)).

(** The outcome of the comparison loop of [EqualParameters] on the pairs
    left to compare. *)
Definition compared (self this : ptr) (w : World) (pairs : list (Z * ptr))
    : Outcome bool :=
  match List.find (fun pair => negb (parameter_agrees this pair)) pairs with
  | None => Ok true w
  | Some (type_idx, _) =>
      if ResolveType this type_idx =? nullptr
      then match threads w !! self with
           | Some t =>
               Ok false
                  (set_threads
                     (<[self := set_exception (Some (NoClassDefFoundError type_idx)) t]>
                        (threads w)) w)
           | None => Abort (BadPointer self) w
           end
      else Ok false w
  end.

(** The method a registration of [native_method] leaves. *)
Definition registered_method (native_method : ptr) (is_fast : bool) (m : ArtMethod)
    : ArtMethod :=
  set_entry_point_from_jni native_method
    (if is_fast then set_access_flags (Z.lor (access_flags_ m) kAccFastNative) m else m).

(** The JIT once the bookkeeping of [old_method] is [new_method]'s. *)
Definition move_obsolete (old_method new_method : ptr) (j : Jit) : Jit :=
  mkJit (use_jit_compilation_ j)
        (map (fun r => if fst r =? old_method then (new_method, snd r) else r)
             (code_cache_ j)).

(** The thread at [p] once [EnableXposedHook], called by [self], has
    hooked [this]: its stack is rewritten if it is on the thread list, and
    the caller is runnable again. *)
Definition thread_after_hook (self this backup : ptr) (list_ : list ptr) (p : ptr)
    (th : Thread) : Thread :=
  (if decide (p = self) then set_state kRunnable else id)
    ((if decide (p ∈ list_) then visit_thread this backup else id) th).

(** The backup [EnableXposedHook] makes of [m]. *)
Definition backup_of (jit : option Jit) (m : ArtMethod) : ArtMethod :=
  set_access_flags (Z.lor (access_flags_ m) kAccXposedOriginalMethod)
    (copied_method jit m).

End FurtherOperations.


(** ** A concrete runtime, for the examples *)

Module Examples.

(** The flag values of an Android 7 tree with the Xposed patches. *)
Definition modifiers : Modifiers := {|
  kAccStatic := 0x0008;
  kAccSynchronized := 0x0020;
  kAccNative := 0x0100;
  kAccAbstract := 0x0400;
  kAccConstructor := 0x00010000;
  kAccFastNative := 0x00080000;
  kAccDefault := 0x00400000;
  kAccDefaultConflict := 0x00800000;
  kAccXposedOriginalMethod := 0x04000000;
  kAccXposedHookedMethod := 0x10000000
|}.

Definition entry_points : EntryPoints := {|
  GetQuickProxyInvokeHandler := 1000;
  GetQuickToInterpreterBridge := 1001;
  GetJniDlsymLookupStub := 1002;
  GetQuickInstrumentationEntryPoint := 1003;
  GetQuickInstrumentationExitPc := 1004;
  IsQuickGenericJniStub := fun p => p =? 1005;
  IsQuickResolutionStub := fun p => p =? 1006;
  IsQuickToInterpreterBridge := fun p => p =? 1001
|}.

Definition debug_build : Build := {| kIsDebugBuild := true |}.
Definition release_build : Build := {| kIsDebugBuild := false |}.

(** One code item, at offset 64: a try range over the first two code units
    with a handler of type 7, a handler of type 9 and a catch-all. *)
Definition code_item : CodeItem :=
  mkCodeItem [13; 0; 18; 0] [mkTryItem 0 2 [(7, 2); (9, 0); (65535, 2)]].

Definition dex_files : DexFiles := {|
  kDexNoIndex := 4294967295;
  kDexNoIndex16 := 65535;
  MOVE_EXCEPTION := 13;
  GetCodeItemAt := fun offset => if offset =? 64 then Some code_item else None
|}.

(** Type 7 does not resolve; every other type [i] resolves to the class at
    [500 + i], assignable from itself only. *)
Definition collaborators : Collaborators := {|
  PrettyMethod := fun method =>
    if method =? 20 then "void Main.idle()"%string else "void Main.run()"%string;
  ThreadSuspensionIsAllowable := fun _ => true;
  ResolveType := fun _ type_idx => if type_idx =? 7 then nullptr else 500 + type_idx;
  IsAssignableFrom := fun klass other => klass =? other;
  IsProxyClass := fun _ => false;
  GetShorty := fun _ => "V"%string;
  code_size_at := fun _ => 16;
  GetImagePointerSize := 8;
  sizeof_pointer := 8;
  IsForcedInterpreterNeededForCalling := fun _ _ => false;
  IsForcedInterpretOnly := false;
  EnterInterpreterFromInvoke := fun _ _ _ _ result => mret result;
  art_quick_invoke_stub := fun _ _ _ _ result _ => mret result;
  art_quick_invoke_static_stub := fun _ _ _ _ result _ => mret result;
  DeoptimizeWithDeoptimizationException := fun _ result => mret result
|}.

(** A public synchronized native method with compiled code at 3000. *)
Definition native_method : ArtMethod :=
  mkArtMethod 77 0x0121 64 5 9 false 0 2000 3000.
(** A method without code. *)
Definition codeless_method : ArtMethod :=
  mkArtMethod 77 0x0001 0 6 0 false 0 0 0.
(** A hooked method, its hook record at 1, and its backup. *)
Definition hooked_method : ArtMethod :=
  mkArtMethod 77 0x10000001 0 5 9 false 0 1 1000.
Definition backup_method : ArtMethod :=
  mkArtMethod 77 0x04000121 64 5 0 false 0 2000 3000.

Definition main_thread : Thread :=
  mkThread kRunnable (Some (JavaThrowable 900)) 100 [[16; 20]; [16]] None.
Definition worker_thread : Thread :=
  mkThread kRunnable None 100 [[20; 16; 20]] (Some 40).

Definition world : World :=
  mkWorld (<[16 := native_method]> (<[20 := codeless_method]> ∅)) ∅ ∅ []
          (<[1 := main_thread]> (<[2 := worker_thread]> ∅)) [1; 2]
          true None ∅ [].

Definition hooked_world : World :=
  mkWorld (<[16 := hooked_method]> (<[17 := backup_method]> ∅))
          (<[1 := mkXposedHookInfo 0 1 17]> ∅) ∅ [300; 99]
          (<[1 := main_thread]> ∅) [1]
          true None ∅ [].

(** [world] with AOT code at 4000 for the method at 16. *)
Definition aot_world : World :=
  mkWorld (methods world) ∅ ∅ [] (threads world) [1; 2] true None (<[16 := 4000]> ∅) [].

End Examples.

(** A runtime with a JIT, and prototypes, for the further examples. *)
Module FurtherExamples.

(** The method index 5 takes the types 9 and 11, the method index 8 the
    types 9 and 7; the other prototypes have no parameter list. *)
Definition prototypes : Prototypes := {|
  GetProtoParameters := fun method_idx =>
    if method_idx =? 5 then Some [9; 11]
    else if method_idx =? 8 then Some [9; 7]
    else None
|}.

(** A method, at 24 in [unresolved_world], whose second parameter type
    does not resolve. *)
Definition unresolved_method : ArtMethod :=
  mkArtMethod 77 0x0001 0 8 0 false 0 0 0.
Definition unresolved_world : World :=
  mkWorld (<[24 := unresolved_method]> (methods Examples.world)) ∅ ∅ []
          (threads Examples.world) [1; 2] true None ∅ [].

(** [Examples.world] with a JIT that compiles and holds the code at 3000
    for the method at 16. *)
Definition jit_world : World :=
  mkWorld (methods Examples.world) ∅ ∅ [] (threads Examples.world) [1; 2] true
          (Some (mkJit true [(16, mkHeader 3000 16)])) ∅ [].

(** [Examples.hooked_world] with the two threads of [Examples.world], both
    on the thread list. *)
Definition hooked_world_two_threads : World :=
  mkWorld (methods Examples.hooked_world) (hook_infos Examples.hooked_world) ∅ [300; 99]
          (threads Examples.world) [1; 2] true None ∅ [].

End FurtherExamples.

(** * Proofs *)

(** ** Running the monad *)

Lemma run_bind {A B} (c : M A) (f : A -> M B) w :
  (c ≫= f) w = match c w with Ok a w' => f a w' | Abort e w' => Abort e w' end.
Proof. reflexivity. Qed.

Lemma run_ret {A} (a : A) w : (mret a : M A) w = Ok a w.
Proof. reflexivity. Qed.

Lemma run_gets {A} (f : World -> A) w : gets f w = Ok (f w) w.
Proof. reflexivity. Qed.

Lemma run_modify f w : modify f w = Ok tt (f w).
Proof. reflexivity. Qed.

Lemma run_emit e w : emit e w = Ok tt (set_trace (trace w ++ [e]) w).
Proof. reflexivity. Qed.

Lemma run_abort {A} e w : abort (A:=A) e w = Abort e w.
Proof. reflexivity. Qed.

Lemma run_CHECK_true what w : CHECK true what w = Ok tt w.
Proof. reflexivity. Qed.

Lemma run_CHECK_false what w : CHECK false what w = Abort (CheckFailed what) w.
Proof. reflexivity. Qed.

Lemma run_load_method p m w : methods w !! p = Some m -> load_method p w = Ok m w.
Proof. intros E. unfold load_method. by rewrite E. Qed.

Lemma run_load_thread p t w : threads w !! p = Some t -> load_thread p w = Ok t w.
Proof. intros E. unfold load_thread. by rewrite E. Qed.

Lemma run_load_hook_info p h w :
  hook_infos w !! p = Some h -> load_hook_info p w = Ok h w.
Proof. intros E. unfold load_hook_info. by rewrite E. Qed.

Lemma run_update_thread p f t w :
  threads w !! p = Some t ->
  update_thread p f w = Ok tt (set_threads (<[p := f t]> (threads w)) w).
Proof. intros E. unfold update_thread. by rewrite run_bind, (run_load_thread _ _ _ E). Qed.

Lemma run_update_method p f m w :
  methods w !! p = Some m ->
  update_method p f w = Ok tt (set_methods (<[p := f m]> (methods w)) w).
Proof. intros E. unfold update_method. by rewrite run_bind, (run_load_method _ _ _ E). Qed.

Lemma run_DCHECK_true `{!Build} what w : DCHECK true what w = Ok tt w.
Proof. unfold DCHECK. by destruct kIsDebugBuild. Qed.

Lemma set_managed_stack_id t : set_managed_stack (managed_stack_ t) t = t.
Proof. by destruct t. Qed.

Lemma world_eta w :
  mkWorld (methods w) (hook_infos w) (mirror_objects w) (global_refs w) (threads w)
          (thread_list_ w) (started_ w) (jit_ w) (oat_methods w) (trace w) = w.
Proof. by destruct w. Qed.

(** Simplification of the fields of an updated [World]. *)
Ltac wsimpl :=
  unfold set_methods, set_hook_infos, set_mirror_objects, set_global_refs, set_threads,
    set_jit, set_trace;
  cbn [methods hook_infos mirror_objects global_refs threads thread_list_ started_ jit_
       oat_methods trace];
  rewrite ?world_eta.

(** A lookup in a heap after some inserts. *)
Ltac map_lookup :=
  wsimpl;
  repeat first
    [ apply lookup_insert_eq
    | rewrite lookup_insert_ne by (first [assumption | congruence | lia]) ];
  eassumption.

(** One step of the operation that runs next. *)
Ltac mstep :=
  first
    [ rewrite run_bind
    | rewrite run_ret
    | rewrite run_gets
    | rewrite run_modify
    | rewrite run_emit
    | rewrite run_abort
    | rewrite run_CHECK_true
    | rewrite run_CHECK_false
    | rewrite run_DCHECK_true
    | erewrite run_load_method by map_lookup
    | erewrite run_load_thread by map_lookup
    | erewrite run_load_hook_info by map_lookup
    | erewrite run_update_method by map_lookup
    | erewrite run_update_thread by map_lookup ];
  cbv beta iota; wsimpl.

Ltac mrun := repeat mstep.

(** Case analysis on the condition that decides the next step. *)
Ltac branch :=
  match goal with
  | |- context [(if ?b then _ else _) _] => destruct b eqn:?
  | |- context [match ?x with Some _ => _ | None => _ end] => destruct x eqn:?
  end; mrun.

Section Proofs.

Context `{!Modifiers, !EntryPoints, !Build, !DexFiles, !Collaborators}.

(** ** Access flags *)

Lemma land_one_bit f n :
  0 <= n -> Z.land f (2 ^ n) <> 0 -> Z.land f (2 ^ n) = 2 ^ n.
Proof.
  intros Hn Hne. destruct (Z.testbit f n) eqn:Hb.
  - apply Z.bits_inj'. intros i Hi.
    rewrite Z.land_spec, Z.pow2_bits_eqb by done.
    destruct (Z.eqb_spec n i) as [<-|]; [by rewrite Hb | by rewrite andb_false_r].
  - exfalso. apply Hne. apply Z.bits_inj'. intros i Hi.
    rewrite Z.land_spec, Z.pow2_bits_eqb, Z.bits_0 by done.
    destruct (Z.eqb_spec n i) as [<-|]; [by rewrite Hb | by rewrite andb_false_r].
Qed.

Lemma land_lor_absorb a b : Z.land (Z.lor a b) b = b.
Proof.
  apply Z.bits_inj'. intros i _. rewrite Z.land_spec, Z.lor_spec.
  by destruct (Z.testbit a i), (Z.testbit b i).
Qed.

Lemma IsFastNative_after_register m :
  ModifiersOk -> IsNative m = true ->
  IsFastNative (set_access_flags (Z.lor (access_flags_ m) kAccFastNative) m) = true.
Proof.
  intros [(n & Hn & Hnat) _ _ _ _ _ _ _ _] Hm.
  unfold IsNative, has_flag in Hm. unfold IsFastNative. cbn [access_flags_ set_access_flags].
  apply negb_true_iff, Z.eqb_neq in Hm. rewrite Hnat in Hm |- *.
  apply land_one_bit in Hm; [|lia].
  apply Z.eqb_eq. rewrite Z.land_lor_distr_l, Z.land_lor_distr_r, Z.land_lor_distr_r.
  rewrite Hm, Z.land_diag.
  apply Z.bits_inj'. intros i _. rewrite !Z.lor_spec, !Z.land_spec.
  by destruct (Z.testbit (access_flags_ m) i), (Z.testbit kAccFastNative i),
       (Z.testbit (2 ^ n) i).
Qed.

Lemma not_hooked_after_register m :
  ModifiersOk -> IsXposedHookedMethod m = false ->
  IsXposedHookedMethod (set_access_flags (Z.lor (access_flags_ m) kAccFastNative) m)
  = false.
Proof.
  intros Hok Hm. unfold IsXposedHookedMethod, has_flag in *.
  cbn [access_flags_ set_access_flags].
  apply negb_false_iff, Z.eqb_eq in Hm. apply negb_false_iff, Z.eqb_eq.
  rewrite Z.land_lor_distr_l, Hm, (Z.land_comm kAccFastNative).
  by rewrite (hooked_not_fast_native).
Qed.

(** ** [Invoke] *)

(** C7: when the stack-overflow check of [Invoke] fails, the call returns
    with [result] as it was, and the only change to the runtime is the
    pending [StackOverflowError] of the calling thread: no fragment is
    pushed on its managed stack, nothing is logged. *)
Theorem Invoke_stack_overflow self this args args_size result shorty frame_address w t :
  threads w !! self = Some t ->
  frame_address < stack_end_ t ->
  exists w',
    Invoke self this args args_size result shorty frame_address w = Ok result w'
    /\ only_throws self StackOverflowError w w'
    /\ (forall t', threads w' !! self = Some t' -> managed_stack_ t' = managed_stack_ t)
    /\ trace w' = trace w.
Proof.
  intros Ht Hlt. unfold Invoke. mrun.
  destruct (Z.ltb_spec frame_address (stack_end_ t)) as [_|]; [|lia].
  unfold ThrowStackOverflowError, SetException. mrun.
  eexists; split; [reflexivity|]. split; [by exists t|]. wsimpl. split; [|done].
  intros t'. rewrite lookup_insert_eq. by intros [= <-].
Qed.

(** C6: with the runtime started, interpretation not forced and a null
    compiled-code entry point, [Invoke] (past its stack check, and in a
    debug build with its checked preconditions met: suspension allowable,
    the thread runnable, the shorty the method's, the image pointer size
    the native one) returns normally with 0 in the [result] cell (there is
    nothing to write when [result] is null); the only trace left in the
    runtime is the log line that names the method: no exception is raised
    and the fragment pushed is popped again. *)
Theorem Invoke_null_code self this args args_size result shorty frame_address w t m :
  threads w !! self = Some t ->
  methods w !! this = Some m ->
  stack_end_ t <= frame_address ->
  (kIsDebugBuild = true ->
     ThreadSuspensionIsAllowable self = true
     /\ state_ t = kRunnable /\ GetShorty this = shorty
     /\ GetImagePointerSize = sizeof_pointer) ->
  started_ w = true ->
  IsForcedInterpreterNeededForCalling self this = false ->
  entry_point_from_quick_compiled_code_ m = nullptr ->
  Invoke self this args args_size result shorty frame_address w
  = Ok (match result with Some _ => Some 0 | None => None end)
       (set_trace
          (trace w ++ [EvLogInfo ("Not invoking '" +:+ PrettyMethod this +:+ "' code=null")])
          w).
Proof.
  intros Ht Hm Hge Hdbg Hstarted Hforced Hnull. unfold Invoke. mrun.
  destruct (Z.ltb_spec frame_address (stack_end_ t)) as [|_]; [lia|].
  assert (Hpre : (if kIsDebugBuild then
       AssertThreadSuspensionIsAllowable self;;
       CHECK (match state_ t with kRunnable => true | _ => false end)
             "kRunnable == self->GetState()";;
       CHECK (bool_decide (GetShorty this = shorty))
             "GetInterfaceMethodIfProxy(sizeof(void*))->GetShorty() == shorty"
     else mret tt) w = Ok tt w).
  { destruct kIsDebugBuild; [|done].
    destruct Hdbg as (Ha & -> & Hs & _); [done|].
    unfold AssertThreadSuspensionIsAllowable.
    by rewrite Ha, bool_decide_eq_true_2. }
  mstep. rewrite Hpre. unfold PushManagedStackFragment, PopManagedStackFragment.
  mrun. rewrite Hstarted, Hforced, Hnull.
  change (nullptr =? nullptr) with true. cbn [negb orb].
  assert (HD : DCHECK (GetImagePointerSize =? sizeof_pointer)
                 "GetImagePointerSize() == sizeof(void*)"
               = DCHECK true "GetImagePointerSize() == sizeof(void*)").
  { unfold DCHECK. destruct kIsDebugBuild; [|done].
    destruct Hdbg as (_ & _ & _ & ->); [done|]. by rewrite Z.eqb_refl. }
  rewrite HD. mrun.
  cbn [set_managed_stack managed_stack_ tail].
  rewrite insert_insert_eq.
  change (set_managed_stack _ (set_managed_stack _ t))
    with (set_managed_stack (managed_stack_ t) t).
  rewrite set_managed_stack_id, (insert_id _ _ _ Ht). by destruct w.
Qed.

(** ** [EnableXposedHook]: the rejections *)

Lemma EnableXposedHook_hooked self this additional_info' w m :
  methods w !! this = Some m ->
  IsXposedHookedMethod m = true ->
  EnableXposedHook self this additional_info' w = Ok tt w.
Proof. intros Hm Hh. unfold EnableXposedHook. mrun. rewrite Hh. by mrun. Qed.

Lemma EnableXposedHook_backup self this additional_info' w m t :
  methods w !! this = Some m ->
  IsXposedHookedMethod m = false ->
  IsXposedOriginalMethod m = true ->
  threads w !! self = Some t ->
  EnableXposedHook self this additional_info' w
  = Ok tt (set_threads
             (<[self := set_exception
                          (Some (IllegalArgumentException
                                   ("Cannot hook the method backup: "
                                    +:+ PrettyMethod this)))
                          t]> (threads w)) w).
Proof.
  intros Hm Hh Ho Ht. unfold EnableXposedHook. mrun. rewrite Hh, Ho.
  unfold ThrowIllegalArgumentException, SetException. by mrun.
Qed.

(** C2: [EnableXposedHook] on a method that is already hooked returns
    with the runtime exactly as it was, hook record and payload included.
    On a method flagged as a backup it returns with the methods, the hook
    records and the trace as they were, so nothing of the method is
    changed; and, the backup not being hooked (the test for a hooked
    method comes first; see [EnableXposedHook_keeps_backups_not_hooked]),
    it has thrown [IllegalArgumentException] to the calling thread, which
    is the only change. *)
Theorem EnableXposedHook_rejections self this additional_info' w m :
  methods w !! this = Some m ->
  (IsXposedHookedMethod m = true ->
     EnableXposedHook self this additional_info' w = Ok tt w)
  /\ (IsXposedOriginalMethod m = true ->
      forall t, threads w !! self = Some t ->
      exists w',
        EnableXposedHook self this additional_info' w = Ok tt w'
        /\ methods w' = methods w /\ hook_infos w' = hook_infos w
        /\ trace w' = trace w
        /\ (IsXposedHookedMethod m = false ->
            exists msg, only_throws self (IllegalArgumentException msg) w w')).
Proof.
  intros Hm. split.
  - intros Hh. by eapply EnableXposedHook_hooked.
  - intros Ho t Ht. destruct (IsXposedHookedMethod m) eqn:Hh.
    + exists w. split; [by eapply EnableXposedHook_hooked|]. by repeat split.
    + eexists. split; [by eapply EnableXposedHook_backup|].
      repeat (split; [done|]). intros _. eexists. by exists t.
Qed.

(** ** [RegisterNative] and [UnregisterNative] *)

Lemma RegisterNative_unfold depth this native_method is_fast :
  RegisterNative depth this native_method is_fast =
  (m ← load_method this;
   if IsXposedHookedMethod m then
     original ← GetXposedOriginalMethod this;
     match depth with
     | O => abort RedirectionLimit
     | S depth' => RegisterNative depth' original native_method is_fast
     end
   else
     CHECK (IsNative m) "IsNative()";;
     CHECK (negb (IsFastNative m)) "!IsFastNative()";;
     CHECK (negb (native_method =? nullptr)) "native_method != nullptr";;
     (if is_fast then
        flags ← GetAccessFlags this;
        SetAccessFlags this (Z.lor flags kAccFastNative)
      else mret tt);;
     SetEntryPointFromJni this native_method).
Proof. by destruct depth. Qed.

Lemma UnregisterNative_unfold depth this :
  UnregisterNative depth this =
  (m ← load_method this;
   if IsXposedHookedMethod m then
     original ← GetXposedOriginalMethod this;
     match depth with
     | O => abort RedirectionLimit
     | S depth' => UnregisterNative depth' original
     end
   else
     CHECK (IsNative m && negb (IsFastNative m)) "IsNative() && !IsFastNative()";;
     RegisterNative depth this GetJniDlsymLookupStub false).
Proof. by destruct depth. Qed.

Lemma UnregisterNative_fast_native depth this w m :
  methods w !! this = Some m ->
  IsXposedHookedMethod m = false -> IsFastNative m = true ->
  UnregisterNative depth this w
  = Abort (CheckFailed "IsNative() && !IsFastNative()") w.
Proof.
  intros Hm Hh Hf. rewrite UnregisterNative_unfold. mrun.
  rewrite Hh, Hf, andb_false_r. by mrun.
Qed.

(** C10: [RegisterNative] with [is_fast] on a native method that is not
    hooked sets its fast-native flag and its native entry point; whenever
    a method that is not hooked has the fast-native flag,
    [UnregisterNative] fails its [CHECK], so it does after such a
    registration: the process aborts and the lookup stub is not
    restored. *)
Theorem RegisterNative_fast_blocks_UnregisterNative depth this native_method w m :
  ModifiersOk ->
  methods w !! this = Some m ->
  IsXposedHookedMethod m = false ->
  IsNative m = true -> IsFastNative m = false ->
  native_method <> nullptr ->
  exists w' m',
    RegisterNative depth this native_method true w = Ok tt w'
    /\ methods w' !! this = Some m'
    /\ IsFastNative m' = true
    /\ entry_point_from_jni_ m' = native_method
    /\ (forall depth' w'' m'',
          methods w'' !! this = Some m'' ->
          IsXposedHookedMethod m'' = false -> IsFastNative m'' = true ->
          UnregisterNative depth' this w''
          = Abort (CheckFailed "IsNative() && !IsFastNative()") w'')
    /\ (forall depth',
          UnregisterNative depth' this w'
          = Abort (CheckFailed "IsNative() && !IsFastNative()") w').
Proof.
  intros Hok Hm Hh Hn Hf Hp.
  rewrite RegisterNative_unfold. mrun. rewrite Hh, Hn, Hf.
  destruct (Z.eqb_spec native_method nullptr) as [|_]; [done|].
  cbn [negb]. unfold GetAccessFlags, SetAccessFlags, SetEntryPointFromJni. mrun.
  eexists _, _. split; [reflexivity|]. wsimpl.
  split; [apply lookup_insert_eq|].
  assert (Hfast : IsFastNative
            (set_entry_point_from_jni native_method
               (set_access_flags (Z.lor (access_flags_ m) kAccFastNative) m)) = true)
    by (by apply (IsFastNative_after_register m)).
  split; [done|]. split; [done|].
  split; [intros; by eapply UnregisterNative_fast_native|].
  intros depth'. eapply UnregisterNative_fast_native; [apply lookup_insert_eq| |done].
  by apply (not_hooked_after_register m).
Qed.

(** ** [InvalidateCompiledCode] *)

(** C8, as the code has it: on a hooked method [InvalidateCompiledCode]
    fails its [CHECK], which aborts the process with the runtime as it
    was; on a method that is not hooked it sets the ignore-AOT mark and
    then, in that state, has the JIT code cache invalidate the method's
    code when JIT compilation is in use, and sets the compiled-code entry
    point to the interpreter bridge otherwise. *)
Theorem InvalidateCompiledCode_spec this w m :
  methods w !! this = Some m ->
  (IsXposedHookedMethod m = true ->
     InvalidateCompiledCode this w = Abort (CheckFailed "!IsXposedHookedMethod()") w)
  /\ (IsXposedHookedMethod m = false ->
      exists w1,
        w1 = set_methods (<[this := set_ignore_aot_code true m]> (methods w)) w
        /\ InvalidateCompiledCode this w
           = (if jit_compilation_in_use w
              then InvalidateCompiledCodeFor this w1
              else SetEntryPointFromQuickCompiledCode this GetQuickToInterpreterBridge w1)
        /\ InvalidateCompiledCode this w
           = Ok tt
               (if jit_compilation_in_use w
                then set_trace (trace w ++ [EvInvalidateCompiledCodeFor this]) w1
                else set_methods
                       (<[this := set_entry_point_from_quick_compiled_code
                                    GetQuickToInterpreterBridge
                                    (set_ignore_aot_code true m)]> (methods w)) w)).
Proof.
  intros Hm. split; intros Hh.
  - unfold InvalidateCompiledCode. mrun. rewrite Hh. by mrun.
  - eexists. split; [reflexivity|].
    assert (Hrun : InvalidateCompiledCode this w
      = (if jit_compilation_in_use w
         then InvalidateCompiledCodeFor this
         else SetEntryPointFromQuickCompiledCode this GetQuickToInterpreterBridge)
          (set_methods (<[this := set_ignore_aot_code true m]> (methods w)) w)).
    { unfold InvalidateCompiledCode. mrun. rewrite Hh. mrun.
      unfold IgnoreAotCode, SetIgnoreAotCode, UseJitCompilation.
      destruct (ignore_aot_code_ m) eqn:Hi; cbn [negb]; mrun.
      - replace (set_ignore_aot_code true m) with m by (by destruct m; cbn in Hi; subst).
        rewrite (insert_id _ _ _ Hm), world_eta.
        unfold jit_compilation_in_use. by destruct (jit_ w) as [[[] ?]|].
      - unfold jit_compilation_in_use. wsimpl. by destruct (jit_ w) as [[[] ?]|]. }
    split; [by rewrite Hrun; destruct (jit_compilation_in_use w)|].
    rewrite Hrun. destruct (jit_compilation_in_use w).
    + unfold InvalidateCompiledCodeFor. by mrun.
    + unfold SetEntryPointFromQuickCompiledCode. mrun. wsimpl.
      by rewrite insert_insert_eq.
Qed.

(** ** [FindCatchBlock] *)

Lemma clear_after_throw e t :
  exception_ t = None ->
  set_long_jump_context None (set_exception None (set_exception (Some e) t))
  = set_long_jump_context None t.
Proof. destruct t; cbn; by intros ->. Qed.

Lemma thread_after_scan_context this visited t :
  thread_after_scan this visited (set_long_jump_context None t)
  = set_long_jump_context None t.
Proof. unfold thread_after_scan. by destruct (existsb _ _), t. Qed.

(** The loop, run from a state with no exception pending: it returns the
    first handler that applies, having logged the unresolved handlers
    before it and cleared the exceptions their resolution raised. *)
Lemma scan_handlers_run self this exception_type it :
  forall w t found_dex_pc,
    threads w !! self = Some t -> exception_ t = None ->
    scan_handlers self this exception_type it found_dex_pc w
    = Ok (default found_dex_pc (first_applicable this exception_type it))
         (set_trace
            (trace w ++ unresolved_warnings this
                          (visited_before_match this exception_type it))
            (set_threads
               (<[self := thread_after_scan this
                            (visited_before_match this exception_type it) t]>
                  (threads w)) w)).
Proof.
  induction it as [|[iter_type_idx handler_address] rest IH]; intros w t found Ht He.
  - cbn. unfold thread_after_scan, unresolved_warnings. cbn.
    wsimpl; by rewrite app_nil_r, (insert_id _ _ _ Ht), ?world_eta.
  - cbn [scan_handlers visited_before_match].
    unfold first_applicable, handler_applies. cbn [List.find fst snd].
    fold (handler_applies this exception_type).
    fold (first_applicable this exception_type rest).
    destruct (iter_type_idx =? kDexNoIndex16) eqn:Hall.
    { cbn. unfold thread_after_scan, unresolved_warnings. cbn.
      wsimpl; by rewrite app_nil_r, (insert_id _ _ _ Ht), ?world_eta. }
    cbn [orb]. unfold GetClassFromTypeIndex.
    destruct (ResolveType this iter_type_idx =? nullptr) eqn:Hres; cbn [negb andb].
    + unfold SetException, ClearException, DeleteLongJumpContext. mrun.
      change (nullptr =? nullptr) with true. mrun.
      rewrite !insert_insert_eq, (clear_after_throw _ _ He).
      erewrite IH; [|map_lookup|by destruct t].
      wsimpl. unfold unresolved_warnings, thread_after_scan, handler_unresolved.
      cbn [List.filter existsb fst map]. rewrite Hall, Hres. cbn [negb andb orb map].
      fold (handler_unresolved this). fold (thread_after_scan this
        (visited_before_match this exception_type rest) (set_long_jump_context None t)).
      rewrite thread_after_scan_context, insert_insert_eq, <- app_assoc. done.
    + mrun. rewrite Hres.
      destruct (IsAssignableFrom (ResolveType this iter_type_idx) exception_type).
      * cbn. unfold thread_after_scan, unresolved_warnings. cbn.
        wsimpl; by rewrite app_nil_r, (insert_id _ _ _ Ht), ?world_eta.
      * rewrite (IH _ _ _ Ht He).
        unfold unresolved_warnings, thread_after_scan, handler_unresolved.
        cbn [List.filter existsb fst map]. by rewrite Hall, Hres.
Qed.


Lemma thread_after_scan_restore this visited t :
  set_exception (exception_ t) (thread_after_scan this visited (set_exception None t))
  = thread_after_scan this visited t.
Proof. unfold thread_after_scan. by destruct (existsb _ _), t. Qed.

Lemma exception_after_scan this visited t :
  exception_ (thread_after_scan this visited t) = exception_ t.
Proof. unfold thread_after_scan. by destruct (existsb _ _), t. Qed.

(** The whole of [FindCatchBlock]. *)
Lemma FindCatchBlock_run self this exception_type dex_pc out w m code_item t :
  methods w !! this = Some m ->
  GetCodeItemAt (dex_code_item_offset_ m) = Some code_item ->
  threads w !! self = Some t ->
  let it := CatchHandlerIterator code_item dex_pc in
  let found := default kDexNoIndex (first_applicable this exception_type it) in
  let visited := visited_before_match this exception_type it in
  let after t0 :=
    set_trace (trace w ++ unresolved_warnings this visited)
      (set_threads (<[self := thread_after_scan this visited t0]> (threads w)) w) in
  FindCatchBlock self this exception_type dex_pc out w
  = if found =? kDexNoIndex then Ok (found, out) (after t)
    else match insns_ code_item !! Z.to_nat found with
         | Some first_catch_instr =>
             Ok (found, negb (Opcode first_catch_instr =? MOVE_EXCEPTION)) (after t)
         | None => Abort (BadPointer found) (after (set_exception None t))
         end.
Proof.
  intros Hm Hci Ht it found visited after. unfold FindCatchBlock. mrun. rewrite Hci.
  unfold GetException, ClearException. mrun.
  erewrite scan_handlers_run; [|map_lookup|by destruct t].
  fold it found visited. wsimpl. rewrite insert_insert_eq.
  assert (Hend : forall (r : Z * bool),
    ((match exception_ t with
      | Some e => SetException self e
      | None => mret tt
      end);; mret r) (after (set_exception None t)) = Ok r (after t)).
  { intros r. unfold after, SetException.
    destruct (exception_ t) as [e|] eqn:He; mrun.
    - rewrite insert_insert_eq. rewrite <- He, thread_after_scan_restore. done.
    - by replace (set_exception None t) with t by (destruct t; cbn in He; by subst). }
  fold (after (set_exception None t)).
  destruct (found =? kDexNoIndex); cbn [negb]; mrun.
  - apply Hend.
  - destruct (insns_ code_item !! Z.to_nat found); mrun; [apply Hend|done].
Qed.

(** C5: [FindCatchBlock] returns the address of the first handler, in
    table order, among those covering [dex_pc], that is a catch-all or
    whose type resolves to a class assignable from the exception's class
    (the no-handler sentinel when there is none).  The handlers after it
    are not visited.  Each unresolved handler before it is skipped with
    a warning logged and its pending error cleared: the call does not
    abort, and the exception pending when it returns is the one that was
    pending when it was called. *)
Theorem FindCatchBlock_scan self this exception_type dex_pc out w m code_item t :
  methods w !! this = Some m ->
  GetCodeItemAt (dex_code_item_offset_ m) = Some code_item ->
  threads w !! self = Some t ->
  (forall handler, handler ∈ CatchHandlerIterator code_item dex_pc ->
     is_Some (insns_ code_item !! Z.to_nat (snd handler))) ->
  let it := CatchHandlerIterator code_item dex_pc in
  exists out' w' t',
    FindCatchBlock self this exception_type dex_pc out w
    = Ok (default kDexNoIndex (first_applicable this exception_type it), out') w'
    /\ threads w' !! self = Some t' /\ exception_ t' = exception_ t
    /\ trace w'
       = trace w ++ unresolved_warnings this
                     (visited_before_match this exception_type it)
    /\ methods w' = methods w.
Proof.
  intros Hm Hci Ht Hrange it.
  rewrite (FindCatchBlock_run _ _ _ _ _ _ _ _ _ Hm Hci Ht). fold it.
  set (after := set_trace _ _).
  assert (Hafter : threads after !! self
                   = Some (thread_after_scan this
                             (visited_before_match this exception_type it) t)
                   /\ trace after = trace w ++ unresolved_warnings this
                         (visited_before_match this exception_type it)
                   /\ methods after = methods w).
  { unfold after. wsimpl. by rewrite lookup_insert_eq. }
  destruct Hafter as (Ha1 & Ha2 & Ha3).
  unfold first_applicable.
  destruct (List.find _ it) as [handler|] eqn:Hfind;
    cbn [fmap option_fmap option_map default from_option id].
  - apply find_some in Hfind as [Hin _].
    destruct (Hrange handler) as [instr Hinstr]; [by apply list_elem_of_In|].
    rewrite Hinstr.
    destruct (_ =? kDexNoIndex); eexists _, _, _;
      (split; [reflexivity|]); (split; [exact Ha1|]); by rewrite exception_after_scan.
  - rewrite Z.eqb_refl. eexists _, _, _.
    split; [reflexivity|]. split; [exact Ha1|]. by rewrite exception_after_scan.
Qed.



(** C9: [FindCatchBlock] writes [has_no_move_exception] exactly when it
    has found a handler, and then with whether the first instruction at
    the handler is not [MOVE_EXCEPTION]: the call returns the address of
    the first handler that applies together with that bit; and when no
    handler applies it returns the sentinel and the out-parameter keeps
    the value the caller passed in. *)
Theorem FindCatchBlock_out_parameter
    self this exception_type dex_pc out w m code_item t :
  methods w !! this = Some m ->
  GetCodeItemAt (dex_code_item_offset_ m) = Some code_item ->
  threads w !! self = Some t ->
  (forall handler, handler ∈ CatchHandlerIterator code_item dex_pc ->
     is_Some (insns_ code_item !! Z.to_nat (snd handler))) ->
  let it := CatchHandlerIterator code_item dex_pc in
  exists found_dex_pc out' w',
    FindCatchBlock self this exception_type dex_pc out w = Ok (found_dex_pc, out') w'
    /\ found_dex_pc = default kDexNoIndex (first_applicable this exception_type it)
    /\ (found_dex_pc = kDexNoIndex -> out' = out)
    /\ (found_dex_pc <> kDexNoIndex ->
        exists first_catch_instr,
          insns_ code_item !! Z.to_nat found_dex_pc = Some first_catch_instr
          /\ out' = negb (Opcode first_catch_instr =? MOVE_EXCEPTION)).
Proof.
  intros Hm Hci Ht Hrange it.
  rewrite (FindCatchBlock_run _ _ _ _ _ _ _ _ _ Hm Hci Ht). fold it.
  assert (Hinstr : first_applicable this exception_type it = None
                   \/ exists found instr,
                        first_applicable this exception_type it = Some found
                        /\ insns_ code_item !! Z.to_nat found = Some instr).
  { unfold first_applicable. destruct (List.find _ it) as [handler|] eqn:Hfind; [|by left].
    right. apply find_some in Hfind as [Hin _].
    destruct (Hrange handler) as [instr Hinstr]; [by apply list_elem_of_In|].
    by exists (snd handler), instr. }
  destruct Hinstr as [->|(found & instr & -> & Hinstr)];
    cbn [default from_option id].
  - rewrite Z.eqb_refl. eexists _, _, _. split; [reflexivity|]. by repeat split.
  - rewrite Hinstr.
    destruct (Z.eqb_spec found kDexNoIndex) as [Heq|Hne]; eexists _, _, _;
      (split; [reflexivity|]); (split; [done|]); split; try done.
    intros _. by exists instr.
Qed.

(** ** [GetOatQuickMethodHeader] *)

Lemma run_DCHECK_ok b what w :
  (kIsDebugBuild = true -> b = true) -> DCHECK b what w = Ok tt w.
Proof. unfold DCHECK. destruct kIsDebugBuild; [|done]. by intros ->. Qed.

Lemma LookupMethodHeader_Contains j pc method h :
  LookupMethodHeader j pc method = Some h -> Contains h pc = true.
Proof.
  unfold LookupMethodHeader. destruct (List.find _ _) as [r|] eqn:Hfind; [|done].
  intros [= <-]. apply find_some in Hfind as [_ Hr]. by apply andb_prop in Hr as [_ ?].
Qed.


(** C4, as the code has it: for a non-zero [pc], a header returned by
    [GetOatQuickMethodHeader] contains [pc] when it is the header of the
    current entry point found on the fast path or a header of the JIT code
    cache: a returned header that does not contain [pc] is the last
    resort or the AOT header of a release build.  When no oat method is
    found for the method and its entry point is neither the resolution
    stub nor the instrumentation entry point, the header of the existing
    entry point is returned, with no check that it contains [pc].  The
    header of the AOT code is checked by a [DCHECK] only: one that does
    not contain [pc] aborts a debug build and is returned by a release
    build. *)
Theorem GetOatQuickMethodHeader_contains this pc w m :
  methods w !! this = Some m ->
  pc <> 0 ->
  (forall h w',
     GetOatQuickMethodHeader this pc w = Ok (Some h) w' ->
     Contains h pc = true
     \/ (oat_methods w !! this = None
         /\ IsQuickResolutionStub (entry_point_from_quick_compiled_code_ m) = false
         /\ entry_point_from_quick_compiled_code_ m <> GetQuickInstrumentationEntryPoint
         /\ h = FromEntryPoint (entry_point_from_quick_compiled_code_ m))
     \/ (kIsDebugBuild = false
         /\ exists oat_entry_point,
              oat_methods w !! this = Some oat_entry_point
              /\ h = FromEntryPoint oat_entry_point))
  /\ (reaches_fallback this pc w m ->
      GetOatQuickMethodHeader this pc w
      = Ok (Some (FromEntryPoint (entry_point_from_quick_compiled_code_ m))) w)
  /\ (forall oat_entry_point,
       reaches_aot_code this pc w m oat_entry_point ->
       GetOatQuickMethodHeader this pc w
       = if kIsDebugBuild && negb (Contains (FromEntryPoint oat_entry_point) pc)
         then Abort (CheckFailed "method_header->Contains(pc)") w
         else Ok (Some (FromEntryPoint oat_entry_point)) w).
Proof.
  intros Hm Hpc. split; [intros h w'|split]; cycle 1.
  { intros (Hexit & Hrt & Hnull & Hjni & Hproxy & Hfast & Hjit & Hoat & Hres & Hinstr).
    apply Z.eqb_neq in Hnull, Hproxy, Hinstr.
    assert (Hlookup : match jit_ w with
                      | Some j => LookupMethodHeader j pc this
                      | None => None
                      end = None).
    { destruct (jit_ w) as [j|]; [|done]. by destruct (Hjit j). }
    assert (Hcache : match jit_ w with
                     | Some j => DCHECK (negb (ContainsPc j pc))
                                        "!code_cache->ContainsPc(pc)"
                     | None => mret tt
                     end w = Ok tt w).
    { destruct (jit_ w) as [j|]; [|done].
      destruct (Hjit j) as [_ Hc]; [done|].
      apply run_DCHECK_ok. intros Hd. by rewrite Hc. }
    unfold GetOatQuickMethodHeader, FindOatMethodFor. mstep.
    rewrite run_DCHECK_ok by (intros Hd; apply negb_true_iff, Z.eqb_neq, Hexit, Hd).
    repeat (mrun;
            rewrite ?Hrt, ?Hnull, ?Hjni, ?Hproxy, ?Hfast, ?Hlookup, ?Hcache,
              ?Hoat, ?Hres, ?Hinstr;
            cbn [negb orb andb]).
    done. }
  { intros oat (Hexit & Hrt & Hnull & Hjni & Hproxy & Hfast & Hjit & Hoat & Hoatnull
                & Hoatjni).
    apply Z.eqb_neq in Hexit, Hnull, Hproxy, Hoatnull, Hpc.
    assert (Hlookup : match jit_ w with
                      | Some j => LookupMethodHeader j pc this
                      | None => None
                      end = None).
    { destruct (jit_ w) as [j|]; [|done]. by destruct (Hjit j). }
    assert (Hcache : match jit_ w with
                     | Some j => DCHECK (negb (ContainsPc j pc))
                                        "!code_cache->ContainsPc(pc)"
                     | None => mret tt
                     end w = Ok tt w).
    { destruct (jit_ w) as [j|]; [|done].
      destruct (Hjit j) as [_ ->]; [done|]. apply run_DCHECK_true. }
    unfold GetOatQuickMethodHeader, FindOatMethodFor.
    repeat (mrun;
            rewrite ?Hexit, ?Hrt, ?Hnull, ?Hjni, ?Hproxy, ?Hfast, ?Hlookup, ?Hcache,
              ?Hoat, ?Hoatnull, ?Hoatjni, ?Hpc;
            cbn [negb orb andb]).
    unfold DCHECK.
    destruct kIsDebugBuild, (Contains (FromEntryPoint oat) pc); by mrun. }
  unfold GetOatQuickMethodHeader, DCHECK, CHECK, FindOatMethodFor. mrun.
  repeat branch.
  all: try discriminate.
  all: intros [= <- <-].
  all: try (left;
            first [ assumption
                  | by eapply LookupMethodHeader_Contains
                  | match goal with
                    | Hc : _ && Contains _ _ = true |- _ =>
                        by apply andb_prop in Hc as [_ ?]
                    end ]).
  all: try (right; left; repeat split; first [done | by apply Z.eqb_neq]).
  all: try (right; right; split; [done|]; by eexists).
  all: try (exfalso; apply Hpc; by apply Z.eqb_eq).
  all: left; destruct (jit_ w); [by eapply LookupMethodHeader_Contains|done].
Qed.

(** ** The stack walk of [EnableXposedHook] *)

Lemma VisitFrame_replace_method search replace stack :
  map (map (VisitFrame search replace)) stack = replace_method search replace stack.
Proof.
  unfold replace_method. apply map_ext. intros fragment. apply map_ext.
  intros frame_method. unfold VisitFrame.
  destruct (Z.eqb_spec frame_method search); by case_decide.
Qed.

Lemma replace_method_idemp search replace stack :
  replace_method search replace (replace_method search replace stack)
  = replace_method search replace stack.
Proof.
  unfold replace_method. rewrite map_map. apply map_ext. intros fragment.
  rewrite map_map. apply map_ext. intros frame_method.
  repeat case_decide; congruence.
Qed.

Lemma visit_thread_idemp search replace t :
  visit_thread search replace (visit_thread search replace t)
  = visit_thread search replace t.
Proof.
  unfold visit_thread. destruct t as [st ex se ms lj].
  cbn [set_managed_stack managed_stack_ state_ exception_ stack_end_ long_jump_context_].
  by rewrite replace_method_idemp.
Qed.

Lemma instrumentation_events_ext search replace thr thr' list_ :
  (forall thread, thread ∈ list_ ->
     replace_method search replace (default [] (managed_stack_ <$> thr !! thread))
     = replace_method search replace (default [] (managed_stack_ <$> thr' !! thread))) ->
  instrumentation_events search replace thr list_
  = instrumentation_events search replace thr' list_.
Proof.
  intros Hext. unfold instrumentation_events. apply map_ext_in.
  intros thread Hin. f_equal. apply Hext. by apply list_elem_of_In.
Qed.

Lemma GetXposedOriginalMethod_run this w m info :
  methods w !! this = Some m ->
  (kIsDebugBuild = true -> IsXposedHookedMethod m = true) ->
  hook_infos w !! entry_point_from_jni_ m = Some info ->
  GetXposedOriginalMethod this w = Ok (original_method info) w.
Proof.
  intros Hm Hh Hi. unfold GetXposedOriginalMethod, GetXposedHookInfo. mrun.
  rewrite run_DCHECK_ok by done. by mrun.
Qed.

Lemma StackReplaceMethodAndInstallInstrumentation_run search m info thread w t :
  methods w !! search = Some m ->
  (kIsDebugBuild = true -> IsXposedHookedMethod m = true) ->
  hook_infos w !! entry_point_from_jni_ m = Some info ->
  threads w !! thread = Some t ->
  StackReplaceMethodAndInstallInstrumentation thread search w
  = Ok tt (set_trace
             (trace w ++ [EvInstrumentThreadStack thread
                            (replace_method search (original_method info)
                               (managed_stack_ t))])
             (set_threads
                (<[thread := visit_thread search (original_method info) t]> (threads w))
                w)).
Proof.
  intros Hm Hh Hi Ht. unfold StackReplaceMethodAndInstallInstrumentation.
  mstep. rewrite (GetXposedOriginalMethod_run _ _ _ _ Hm Hh Hi).
  unfold WalkStack, InstrumentThreadStack. mrun.
  cbn [managed_stack_ set_managed_stack]. by rewrite VisitFrame_replace_method.
Qed.

(** [ForEach] over the threads left to visit: every thread of the list has
    its stack rewritten, and the instrumentation sees the rewritten
    stack. *)
Lemma for_each_run search m info list_ :
  forall w,
    methods w !! search = Some m ->
    (kIsDebugBuild = true -> IsXposedHookedMethod m = true) ->
    hook_infos w !! entry_point_from_jni_ m = Some info ->
    (forall thread, thread ∈ list_ -> is_Some (threads w !! thread)) ->
    exists thr',
      for_each StackReplaceMethodAndInstallInstrumentation search list_ w
      = Ok tt (set_trace
                 (trace w ++ instrumentation_events search (original_method info)
                               (threads w) list_)
                 (set_threads thr' w))
      /\ forall thread,
           thr' !! thread
           = if decide (thread ∈ list_)
             then visit_thread search (original_method info) <$> threads w !! thread
             else threads w !! thread.
Proof.
  induction list_ as [|thread rest IH]; intros w Hm Hh Hi Hall.
  - exists (threads w). split.
    + cbn. unfold instrumentation_events. cbn. rewrite app_nil_r. by destruct w.
    + intros thread. case_decide as Hin; [by apply elem_of_nil in Hin|done].
  - destruct (Hall thread) as [t Ht]; [by left|].
    cbn [for_each]. mstep.
    rewrite (StackReplaceMethodAndInstallInstrumentation_run _ _ _ _ _ _ Hm Hh Hi Ht).
    cbv beta iota. set (w1 := set_trace _ _).
    destruct (IH w1) as (thr' & Hrun & Hthr'); [done..| |].
    { intros thread' Hin. unfold w1. wsimpl.
      destruct (decide (thread = thread')) as [<-|Hne].
      - rewrite lookup_insert_eq. by eexists.
      - rewrite lookup_insert_ne by done. apply Hall. by right. }
    exists thr'. split.
    + rewrite Hrun. unfold w1. wsimpl. f_equal. f_equal.
      rewrite <- app_assoc. f_equal. cbn [instrumentation_events map app].
      rewrite Ht. cbn [fmap option_fmap option_map default from_option id]. f_equal.
      apply instrumentation_events_ext. intros thread' _.
      destruct (decide (thread = thread')) as [<-|Hne].
      * rewrite lookup_insert_eq, Ht. unfold visit_thread.
        cbn [fmap option_fmap option_map default from_option id managed_stack_
             set_managed_stack].
        by rewrite replace_method_idemp.
      * by rewrite lookup_insert_ne.
    + intros thread'. rewrite Hthr'. unfold w1. wsimpl.
      destruct (decide (thread = thread')) as [<-|Hne].
      * rewrite lookup_insert_eq, Ht, (decide_True (P := thread ∈ thread :: rest))
          by (by left).
        cbn. case_decide; [by rewrite visit_thread_idemp|done].
      * rewrite lookup_insert_ne by done.
        destruct (decide (thread' ∈ rest)) as [Hin|Hnin].
        -- by rewrite decide_True by (by right).
        -- rewrite decide_False; [done|]. intros [?|?]%elem_of_cons; congruence.
Qed.


(** ** [EnableXposedHook]: the installation *)

Lemma fresh_addr_fresh {V} (heap : gmap Z V) : heap !! fresh_addr heap = None.
Proof.
  unfold fresh_addr.
  assert (Hle : forall k, is_Some (heap !! k) ->
            k <= map_fold (fun k _ acc => Z.max k acc) 0 heap).
  { apply (map_fold_weak_ind (fun acc heap => forall k, is_Some (heap !! k) -> k <= acc)).
    - intros k [? Hk]. by rewrite lookup_empty in Hk.
    - intros i x heap' acc Hi IH k Hk.
      destruct (decide (i = k)) as [<-|Hne]; [lia|].
      rewrite lookup_insert_ne in Hk by done. specialize (IH k Hk). lia. }
  destruct (heap !! _) eqn:Hk; [|done].
  specialize (Hle _ (mk_is_Some _ _ Hk)). lia.
Qed.

Lemma fresh_addr_ne {V} (heap : gmap Z V) p v :
  heap !! p = Some v -> fresh_addr heap <> p.
Proof. intros Hp <-. by rewrite fresh_addr_fresh in Hp. Qed.


Lemma CopyFrom_run this src w m_src m_this :
  methods w !! src = Some m_src ->
  methods w !! this = Some m_this ->
  this <> src ->
  exists copy,
    CopyFrom this src w = Ok tt (set_methods (<[this := copy]> (methods w)) w)
    /\ access_flags_ copy = access_flags_ m_src
    /\ declaring_class_ copy = declaring_class_ m_src
    /\ dex_method_index_ copy = dex_method_index_ m_src
    /\ dex_code_item_offset_ copy = dex_code_item_offset_ m_src
    /\ entry_point_from_jni_ copy = entry_point_from_jni_ m_src
    /\ hotness_count_ copy = 0.
Proof.
  intros Hsrc Hthis Hne.
  unfold CopyFrom, UseJitCompilation, SetEntryPointFromQuickCompiledCode, SetProfilingInfo.
  mrun. repeat branch.
  all: rewrite ?insert_insert_eq; wsimpl; eexists; (split; [reflexivity|]); done.
Qed.


Lemma hooked_descriptor_hooked hook_info m :
  kAccXposedHookedMethod <> 0 ->
  IsXposedHookedMethod (hooked_descriptor hook_info m) = true.
Proof.
  intros Hne. unfold IsXposedHookedMethod, has_flag, hooked_descriptor.
  cbn [access_flags_ set_access_flags].
  rewrite land_lor_absorb. by apply negb_true_iff, Z.eqb_neq.
Qed.

(** A successful [EnableXposedHook], step by step. *)
Lemma EnableXposedHook_run self this additional_info' w m t :
  kAccXposedHookedMethod <> 0 ->
  methods w !! this = Some m ->
  IsXposedHookedMethod m = false ->
  IsXposedOriginalMethod m = false ->
  threads w !! self = Some t ->
  (forall thread, thread ∈ thread_list_ w -> is_Some (threads w !! thread)) ->
  let backup := fresh_addr (methods w) in
  let hook_info := fresh_addr (hook_infos w) in
  exists w' copy,
    EnableXposedHook self this additional_info' w = Ok tt w'
    /\ access_flags_ copy = access_flags_ m
    /\ methods w'
       = <[this := hooked_descriptor hook_info m]>
           (<[backup := set_access_flags
                          (Z.lor (access_flags_ m) kAccXposedOriginalMethod) copy]>
              (methods w))
    /\ hook_infos w'
       = <[hook_info := mkXposedHookInfo (Z.of_nat (length (global_refs w)))
                          (Z.of_nat (S (length (global_refs w)))) backup]>
           (hook_infos w)
    /\ global_refs w'
       = global_refs w ++ [fresh_addr (mirror_objects w); additional_info']
    /\ (forall thread th,
          thread ∈ thread_list_ w -> threads w !! thread = Some th ->
          exists th', threads w' !! thread = Some th'
            /\ managed_stack_ th' = replace_method this backup (managed_stack_ th))
    /\ trace w'
       = trace w
         ++ [EvThreadSuspension self; EvJitSuspend; EvGcCriticalSectionEnter;
             EvSuspendAll; EvInvalidateCallersForMethod this]
         ++ (if jit_ w is Some _ then [EvMoveObsoleteMethod this backup] else [])
         ++ [EvLockThreadList]
         ++ instrumentation_events this backup (threads w) (thread_list_ w)
         ++ [EvUnlockThreadList; EvResumeAll; EvGcCriticalSectionExit; EvJitResume;
             EvThreadResumption self].
Proof.
  intros Hnz Hm Hh Ho Ht Hall backup hook_info.
  assert (Hne : backup <> this) by (by eapply fresh_addr_ne).
  unfold EnableXposedHook. mrun. rewrite Hh, Ho. mstep.
  unfold CreateRuntimeMethod. mrun. fold backup.
  edestruct (CopyFrom_run backup this) as (copy & Hcopy & Hflags & _);
    [..|rewrite Hcopy]; [map_lookup|map_lookup|done|].
  unfold GetAccessFlags, SetAccessFlags. mrun. rewrite Hflags.
  unfold CreateFromArtMethod, SetAccessible, AllocXposedHookInfo, AddGlobalRef.
  mrun. rewrite lookup_insert_eq. mrun. fold hook_info.
  unfold store_hook_info. mrun. wsimpl. rewrite !insert_insert_eq, length_app.
  cbn [length is_constructor_object art_method_]. rewrite Nat.add_1_r.
  set (info := mkXposedHookInfo _ _ _).
  assert (Hrest : forall w0,
    methods w0 !! this = Some m ->
    hook_infos w0 !! hook_info = Some info ->
    threads w0 = <[self := set_state kSuspended t]> (threads w) ->
    thread_list_ w0 = thread_list_ w ->
    exists thr',
      (SetEntryPointFromJni this hook_info;;
       SetEntryPointFromQuickCompiledCode this GetQuickProxyInvokeHandler;;
       SetCodeItemOffset this 0;;
       flags ← GetAccessFlags this;
       SetAccessFlags this
         (Z.lor (Z.land flags (uint32_not kRemoveFlags)) kAccXposedHookedMethod);;
       emit EvLockThreadList;;
       ForEach StackReplaceMethodAndInstallInstrumentation this;;
       emit EvUnlockThreadList;;
       emit EvResumeAll;;
       emit EvGcCriticalSectionExit;;
       emit EvJitResume;;
       update_thread self (set_state kRunnable);;
       emit (EvThreadResumption self)) w0
      = Ok tt
          (set_trace
             (trace w0 ++ [EvLockThreadList]
              ++ instrumentation_events this backup (threads w) (thread_list_ w)
              ++ [EvUnlockThreadList; EvResumeAll; EvGcCriticalSectionExit; EvJitResume;
                  EvThreadResumption self])
             (set_threads thr'
                (set_methods (<[this := hooked_descriptor hook_info m]> (methods w0)) w0)))
      /\ forall thread th,
           thread ∈ thread_list_ w -> threads w !! thread = Some th ->
           exists th', thr' !! thread = Some th'
             /\ managed_stack_ th' = replace_method this backup (managed_stack_ th)).
  { intros w0 Hm0 Hi0 Hthr0 Hlist0.
    unfold SetEntryPointFromJni, SetEntryPointFromQuickCompiledCode, SetCodeItemOffset,
      GetAccessFlags, SetAccessFlags, ForEach.
    mrun. rewrite !insert_insert_eq.
    cbn [access_flags_ set_entry_point_from_jni set_entry_point_from_quick_compiled_code
         set_code_item_offset].
    change (set_access_flags _ _) with (hooked_descriptor hook_info m).
    set (w1 := mkWorld _ _ _ _ _ _ _ _ _ _).
    destruct (for_each_run this (hooked_descriptor hook_info m) info (thread_list_ w0) w1)
      as (thr' & Hrun & Hthr').
    { unfold w1. wsimpl. apply lookup_insert_eq. }
    { intros _. by apply hooked_descriptor_hooked. }
    { exact Hi0. }
    { intros thread Hin. unfold w1. wsimpl. rewrite Hthr0.
      destruct (decide (self = thread)) as [<-|Hns].
      - rewrite lookup_insert_eq. by eexists.
      - rewrite lookup_insert_ne by done. apply Hall. by rewrite <- Hlist0. }
    rewrite Hrun. cbv beta iota. unfold w1 in *. clear w1. wsimpl. wsimpl.
    cbn [threads] in Hthr'. rewrite Hthr0, Hlist0 in Hthr'.
    assert (Hself : is_Some (thr' !! self)).
    { rewrite Hthr', lookup_insert_eq. by case_decide. }
    destruct Hself as [ts Hts].
    mrun.
    exists (<[self := set_state kRunnable ts]> thr'). split.
    - f_equal. f_equal. rewrite <- !app_assoc. cbn [app]. do 2 f_equal.
      change (original_method info) with backup. rewrite Hthr0, Hlist0. f_equal.
      apply instrumentation_events_ext. intros thread _.
      destruct (decide (self = thread)) as [<-|Hns].
      + by rewrite lookup_insert_eq, Ht.
      + by rewrite lookup_insert_ne.
    - intros thread th Hin Hth.
      specialize (Hthr' thread). rewrite decide_True in Hthr' by done.
      change (original_method info) with backup in Hthr'.
      destruct (decide (self = thread)) as [<-|Hns].
      + rewrite lookup_insert_eq. eexists. split; [done|].
        rewrite lookup_insert_eq, Hts in Hthr'. cbn in Hthr'.
        injection Hthr' as ->. rewrite Ht in Hth. by injection Hth as <-.
      + rewrite lookup_insert_ne by done. rewrite lookup_insert_ne, Hth in Hthr' by done.
        eexists. split; [exact Hthr'|]. done. }
  destruct (jit_ w) as [j|] eqn:Hjit; [unfold MoveObsoleteMethod|]; mrun.
  all: match goal with
       | |- context [match ?k ?w0 with Ok _ _ => _ | Abort _ _ => _ end] =>
           destruct (Hrest w0) as (thr' & Hrun & Hstacks);
             [wsimpl; rewrite lookup_insert_ne by done; exact Hm
             |wsimpl; apply lookup_insert_eq
             |done|done|]
       end.
  all: eexists _, copy; split; [exact Hrun|]; wsimpl.
  all: split; [exact Hflags|].
  all: split; [done|]; split; [done|]; split; [by rewrite <- app_assoc|].
  all: split; [exact Hstacks|].
  all: by rewrite <- !app_assoc.
Qed.

Lemma removed_flag_cleared flags flag :
  Z.land kRemoveFlags flag = flag ->
  Z.land kAccXposedHookedMethod flag = 0 ->
  Z.land (Z.lor (Z.land flags (uint32_not kRemoveFlags)) kAccXposedHookedMethod) flag = 0.
Proof.
  intros Hin Hout. apply Z.bits_inj'. intros i Hi.
  apply (f_equal (fun z => Z.testbit z i)) in Hin, Hout.
  unfold uint32_not.
  rewrite !Z.land_spec in *. rewrite Z.lor_spec, !Z.land_spec, Z.lnot_spec by done.
  rewrite Z.bits_0 in *.
  destruct (Z.testbit flag i); [|by rewrite andb_false_r].
  rewrite andb_true_r in *. rewrite Hin, Hout. cbn. by rewrite andb_false_r.
Qed.

Lemma hooked_descriptor_flags hook_info m flag :
  Z.land kRemoveFlags flag = flag ->
  Z.land kAccXposedHookedMethod flag = 0 ->
  has_flag (hooked_descriptor hook_info m) flag = false.
Proof.
  intros Hin Hout. unfold has_flag, hooked_descriptor.
  cbn [access_flags_ set_access_flags].
  by rewrite removed_flag_cleared.
Qed.

Lemma kRemoveFlags_members :
  Z.land kRemoveFlags kAccNative = kAccNative
  /\ Z.land kRemoveFlags kAccSynchronized = kAccSynchronized
  /\ Z.land kRemoveFlags kAccAbstract = kAccAbstract
  /\ Z.land kRemoveFlags kAccDefault = kAccDefault
  /\ Z.land kRemoveFlags kAccDefaultConflict = kAccDefaultConflict.
Proof.
  unfold kRemoveFlags. repeat split; apply Z.bits_inj'; intros i _;
    rewrite Z.land_spec, !Z.lor_spec;
    by destruct (Z.testbit kAccNative i), (Z.testbit kAccSynchronized i),
         (Z.testbit kAccAbstract i), (Z.testbit kAccDefault i),
         (Z.testbit kAccDefaultConflict i).
Qed.

Lemma hooked_descriptor_not_original hook_info m :
  ModifiersOk ->
  IsXposedOriginalMethod m = false ->
  IsXposedOriginalMethod (hooked_descriptor hook_info m) = false.
Proof.
  intros Hok Ho. unfold IsXposedOriginalMethod, has_flag, hooked_descriptor in *.
  cbn [access_flags_ set_access_flags].
  apply negb_false_iff, Z.eqb_eq in Ho. apply negb_false_iff, Z.eqb_eq.
  rewrite Z.land_lor_distr_l, hooked_not_original, Z.lor_0_r by done.
  by rewrite <- Z.land_assoc, (Z.land_comm (uint32_not _)), Z.land_assoc, Ho.
Qed.

Lemma backup_not_hooked m copy :
  ModifiersOk ->
  IsXposedHookedMethod m = false ->
  IsXposedHookedMethod
    (set_access_flags (Z.lor (access_flags_ m) kAccXposedOriginalMethod) copy) = false.
Proof.
  intros Hok Hh. unfold IsXposedHookedMethod, has_flag in *.
  cbn [access_flags_ set_access_flags].
  apply negb_false_iff, Z.eqb_eq in Hh. apply negb_false_iff, Z.eqb_eq.
  rewrite Z.land_lor_distr_l, Hh, (Z.land_comm kAccXposedOriginalMethod).
  by rewrite hooked_not_original.
Qed.

(** However [EnableXposedHook] returns, it leaves no backup hooked if there
    was none: the backup it makes is a copy of a method that is not hooked,
    and the method it hooks is not a backup. *)
Lemma EnableXposedHook_keeps_backups_not_hooked self this additional_info' w w' m t :
  ModifiersOk ->
  methods w !! this = Some m ->
  threads w !! self = Some t ->
  (forall thread, thread ∈ thread_list_ w -> is_Some (threads w !! thread)) ->
  backups_not_hooked w ->
  EnableXposedHook self this additional_info' w = Ok tt w' ->
  backups_not_hooked w'.
Proof.
  intros Hok Hm Ht Hall Hinv Hrun.
  destruct (IsXposedHookedMethod m) eqn:Hh.
  { rewrite (EnableXposedHook_hooked _ _ _ _ _ Hm Hh) in Hrun. by injection Hrun as <-. }
  destruct (IsXposedOriginalMethod m) eqn:Ho.
  { rewrite (EnableXposedHook_backup _ _ _ _ _ _ Hm Hh Ho Ht) in Hrun.
    by injection Hrun as <-. }
  destruct (EnableXposedHook_run self this additional_info' w m t)
    as (w'' & copy & Hrun' & _ & Hmethods & _); [apply Hok|done..|].
  rewrite Hrun' in Hrun. injection Hrun as <-.
  intros p m0 Hp Hbackup. rewrite Hmethods in Hp.
  destruct (decide (this = p)) as [<-|Hne1].
  { rewrite lookup_insert_eq in Hp. injection Hp as <-.
    by rewrite hooked_descriptor_not_original in Hbackup. }
  rewrite lookup_insert_ne in Hp by done.
  destruct (decide (fresh_addr (methods w) = p)) as [<-|Hne2].
  { rewrite lookup_insert_eq in Hp. injection Hp as <-. by apply backup_not_hooked. }
  rewrite lookup_insert_ne in Hp by done. by eapply Hinv.
Qed.

(** C1: [EnableXposedHook] on a method that is neither hooked nor a
    backup succeeds, and afterwards the method's native entry point is the
    address of a hook record (which holds the payload and the backup, a new
    method), its compiled-code entry point is the proxy invoke handler,
    its code-item offset is 0, its native, synchronized, abstract, default
    and default-conflict flags are clear and its hooked-method flag is
    set. *)
Theorem EnableXposedHook_installs self this additional_info' w m t :
  ModifiersOk ->
  methods w !! this = Some m ->
  IsXposedHookedMethod m = false ->
  IsXposedOriginalMethod m = false ->
  threads w !! self = Some t ->
  (forall thread, thread ∈ thread_list_ w -> is_Some (threads w !! thread)) ->
  exists w' m' hook_record,
    EnableXposedHook self this additional_info' w = Ok tt w'
    /\ methods w' !! this = Some m'
    /\ hook_infos w' !! entry_point_from_jni_ m' = Some hook_record
    /\ global_refs w' !! Z.to_nat (additional_info hook_record) = Some additional_info'
    /\ methods w !! original_method hook_record = None
    /\ is_Some (methods w' !! original_method hook_record)
    /\ entry_point_from_quick_compiled_code_ m' = GetQuickProxyInvokeHandler
    /\ dex_code_item_offset_ m' = 0
    /\ IsNative m' = false
    /\ IsSynchronized m' = false
    /\ IsAbstract m' = false
    /\ IsDefault m' = false
    /\ IsDefaultConflicting m' = false
    /\ IsXposedHookedMethod m' = true.
Proof.
  intros Hok Hm Hh Ho Ht Hall.
  destruct (EnableXposedHook_run self this additional_info' w m t)
    as (w' & copy & Hrun & _ & Hmethods & Hinfos & Hrefs & _ & _);
    [apply Hok|done..|].
  destruct kRemoveFlags_members as (Hn & Hs & Ha & Hd & Hc).
  assert (Hne : fresh_addr (methods w) <> this) by (by eapply fresh_addr_ne).
  exists w', (hooked_descriptor (fresh_addr (hook_infos w)) m). eexists.
  split; [exact Hrun|].
  split; [rewrite Hmethods; apply lookup_insert_eq|].
  split; [rewrite Hinfos; apply lookup_insert_eq|].
  cbn [additional_info original_method].
  split.
  { rewrite Hrefs, Nat2Z.id.
    rewrite lookup_app_r by lia. by rewrite Nat.sub_succ_l, Nat.sub_diag by lia. }
  split; [apply fresh_addr_fresh|].
  split.
  { rewrite Hmethods, lookup_insert_ne, lookup_insert_eq by done. by eexists. }
  split; [done|]. split; [done|].
  split; [apply hooked_descriptor_flags; [done|apply Hok]|].
  split; [apply hooked_descriptor_flags; [done|apply Hok]|].
  split; [apply hooked_descriptor_flags; [done|apply Hok]|].
  split; [apply hooked_descriptor_flags; [done|apply Hok]|].
  split; [apply hooked_descriptor_flags; [done|apply Hok]|].
  apply hooked_descriptor_hooked, Hok.
Qed.

(** C3: during a successful [EnableXposedHook], for every thread of the
    thread list, every frame of its stack that refers to the hooked method
    is made to refer to the backup and the other frames are left as they
    are; the instrumentation is then reinstalled on each thread's stack,
    as rewritten; and all of it happens after all threads are suspended
    and before they are resumed. *)
Theorem EnableXposedHook_rewrites_frames self this additional_info' w m t :
  ModifiersOk ->
  methods w !! this = Some m ->
  IsXposedHookedMethod m = false ->
  IsXposedOriginalMethod m = false ->
  threads w !! self = Some t ->
  (forall thread, thread ∈ thread_list_ w -> is_Some (threads w !! thread)) ->
  exists w' backup before,
    EnableXposedHook self this additional_info' w = Ok tt w'
    /\ backup = fresh_addr (methods w)
    /\ GetXposedOriginalMethod this w' = Ok backup w'
    /\ (forall thread th,
          thread ∈ thread_list_ w -> threads w !! thread = Some th ->
          exists th', threads w' !! thread = Some th'
            /\ managed_stack_ th' = replace_method this backup (managed_stack_ th))
    /\ trace w'
       = trace w ++ before
         ++ instrumentation_events this backup (threads w) (thread_list_ w)
         ++ [EvUnlockThreadList; EvResumeAll; EvGcCriticalSectionExit; EvJitResume;
             EvThreadResumption self]
    /\ In EvSuspendAll before /\ ~ In EvResumeAll before.
Proof.
  intros Hok Hm Hh Ho Ht Hall.
  destruct (EnableXposedHook_run self this additional_info' w m t)
    as (w' & copy & Hrun & _ & Hmethods & Hinfos & _ & Hstacks & Htrace);
    [apply Hok|done..|].
  exists w', (fresh_addr (methods w)),
    ([EvThreadSuspension self; EvJitSuspend; EvGcCriticalSectionEnter; EvSuspendAll;
      EvInvalidateCallersForMethod this]
     ++ (if jit_ w is Some _
         then [EvMoveObsoleteMethod this (fresh_addr (methods w))] else [])
     ++ [EvLockThreadList]).
  split; [exact Hrun|]. split; [done|]. split.
  { erewrite GetXposedOriginalMethod_run; cycle 1.
    - rewrite Hmethods. apply lookup_insert_eq.
    - intros _. apply hooked_descriptor_hooked, Hok.
    - rewrite Hinfos. apply lookup_insert_eq.
    - done. }
  split; [exact Hstacks|].
  split.
  { rewrite Htrace. by rewrite <- !app_assoc. }
  split.
  - apply in_or_app. left. cbn. tauto.
  - intros Hin. apply in_app_or in Hin as [Hin|Hin].
    + cbn in Hin. intuition discriminate.
    + apply in_app_or in Hin as [Hin|Hin].
      * destruct (jit_ w); cbn in Hin; intuition discriminate.
      * cbn in Hin. intuition discriminate.
Qed.

End Proofs.

(** * Further proofs *)

(** ** Queries, step by step *)

Section ReadOnly.

Context `{!Build}.

Lemma read_only_ret {A} (a : A) : read_only (mret a).
Proof. intros w. left. by exists a. Qed.

Lemma read_only_bind {A B} (c : M A) (k : A -> M B) :
  read_only c -> (forall a, read_only (k a)) -> read_only (c ≫= k).
Proof.
  intros Hc Hk w. rewrite run_bind.
  destruct (Hc w) as [[a ->]|[e ->]]; [apply Hk|right; by exists e].
Qed.

Lemma read_only_gets {A} (f : World -> A) : read_only (gets f).
Proof. intros w. left. by eexists. Qed.

Lemma read_only_abort {A} e : read_only (abort (A:=A) e).
Proof. intros w. right. by eexists. Qed.

Lemma read_only_CHECK b what : read_only (CHECK b what).
Proof. destruct b; [apply read_only_ret|apply read_only_abort]. Qed.

Lemma read_only_DCHECK b what : read_only (DCHECK b what).
Proof.
  unfold DCHECK. destruct kIsDebugBuild; [apply read_only_CHECK|apply read_only_ret].
Qed.

Lemma read_only_load_method p : read_only (load_method p).
Proof.
  intros w. unfold load_method. destruct (methods w !! p); [left|right]; by eexists.
Qed.

Lemma read_only_load_thread p : read_only (load_thread p).
Proof.
  intros w. unfold load_thread. destruct (threads w !! p); [left|right]; by eexists.
Qed.

Lemma read_only_load_hook_info p : read_only (load_hook_info p).
Proof.
  intros w. unfold load_hook_info.
  destruct (hook_infos w !! p); [left|right]; by eexists.
Qed.

End ReadOnly.

(** A query is read-only when its steps are. *)
Ltac read_only_steps :=
  repeat first
    [ apply read_only_ret
    | apply read_only_gets
    | apply read_only_abort
    | apply read_only_CHECK
    | apply read_only_DCHECK
    | apply read_only_load_method
    | apply read_only_load_thread
    | apply read_only_load_hook_info
    | apply read_only_bind; [|intros ?]
    | match goal with
      | |- read_only (if ?b then _ else _) => destruct b
      | |- read_only (match ?x with Some _ => _ | None => _ end) => destruct x
      end ].

(** ** Effects on the managed stack *)

Section StackEffect.

Context `{!Build}.
Variable self : ptr.

Lemma stack_effect_keeps {A} (c : M A) :
  stack_effect self id c <-> keeps_managed_stack self c.
Proof.
  unfold stack_effect, keeps_managed_stack.
  split; intros Hc w r w' Hrun; specialize (Hc w r w' Hrun);
    by rewrite option_fmap_id in *.
Qed.

Lemma stack_effect_ext {A} f g (c : M A) :
  (forall stack, f stack = g stack) -> stack_effect self f c -> stack_effect self g c.
Proof.
  intros Hfg Hc w r w' Hrun. rewrite (Hc w r w' Hrun).
  destruct (threads w !! self); cbn; by rewrite ?Hfg.
Qed.

Lemma stack_effect_bind {A B} f g (c : M A) (k : A -> M B) :
  stack_effect self f c -> (forall a, stack_effect self g (k a)) ->
  stack_effect self (g ∘ f) (c ≫= k).
Proof.
  intros Hc Hk w r w'. rewrite run_bind.
  destruct (c w) as [a w1|] eqn:Hrun; [|done]. intros Hrun'.
  rewrite (Hk a w1 r w' Hrun'), (Hc w a w1 Hrun).
  by destruct (threads w !! self).
Qed.

Lemma stack_effect_bind_l {A B} g (c : M A) (k : A -> M B) :
  stack_effect self id c -> (forall a, stack_effect self g (k a)) ->
  stack_effect self g (c ≫= k).
Proof.
  intros Hc Hk. apply (stack_effect_ext (g ∘ id)); [done|].
  by apply stack_effect_bind.
Qed.

Lemma stack_effect_bind_r {A B} f (c : M A) (k : A -> M B) :
  stack_effect self f c -> (forall a, stack_effect self id (k a)) ->
  stack_effect self f (c ≫= k).
Proof.
  intros Hc Hk. apply (stack_effect_ext (id ∘ f)); [done|].
  by apply stack_effect_bind.
Qed.

Lemma stack_effect_ret {A} (a : A) : stack_effect self id (mret a).
Proof. intros w r w' [= _ <-]. by rewrite option_fmap_id. Qed.

Lemma stack_effect_gets {A} (f : World -> A) : stack_effect self id (gets f).
Proof. intros w r w' [= _ <-]. by rewrite option_fmap_id. Qed.

Lemma stack_effect_abort {A} f e : stack_effect self f (abort (A:=A) e).
Proof. by intros w r w'. Qed.

Lemma stack_effect_CHECK b what : stack_effect self id (CHECK b what).
Proof. destruct b; [apply stack_effect_ret|apply stack_effect_abort]. Qed.

Lemma stack_effect_DCHECK b what : stack_effect self id (DCHECK b what).
Proof.
  unfold DCHECK. destruct kIsDebugBuild; [apply stack_effect_CHECK|apply stack_effect_ret].
Qed.

Lemma stack_effect_emit e : stack_effect self id (emit e).
Proof. intros w r w' [= _ <-]. wsimpl. by rewrite option_fmap_id. Qed.

Lemma stack_effect_load_method p : stack_effect self id (load_method p).
Proof.
  intros w r w'. unfold load_method. destruct (methods w !! p); [|done].
  intros [= _ <-]. by rewrite option_fmap_id.
Qed.

Lemma stack_effect_load_thread p : stack_effect self id (load_thread p).
Proof.
  intros w r w'. unfold load_thread. destruct (threads w !! p); [|done].
  intros [= _ <-]. by rewrite option_fmap_id.
Qed.

Lemma stack_effect_update_thread f g :
  (forall t, managed_stack_ (g t) = f (managed_stack_ t)) ->
  stack_effect self f (update_thread self g).
Proof.
  intros Hg w r w'. unfold update_thread, load_thread. rewrite run_bind.
  destruct (threads w !! self) as [t|] eqn:Ht; [|done].
  rewrite run_modify. intros [= _ <-]. wsimpl.
  rewrite lookup_insert_eq. cbn. by rewrite Hg.
Qed.

End StackEffect.

Section FurtherProofs.

Context `{!Modifiers, !EntryPoints, !Build, !DexFiles, !Collaborators, !Prototypes}.

(** ** [NumArgRegisters] *)

Lemma total_registers_cons ch chars :
  total_registers (ch :: chars) = registers_of ch + total_registers chars.
Proof.
  unfold total_registers, registers_of. cbn [List.filter length].
  destruct (Ascii.eqb ch "D" || Ascii.eqb ch "J"); cbn [length]; lia.
Qed.

Lemma total_registers_bounds chars :
  Z.of_nat (length chars) <= total_registers chars <= 2 * Z.of_nat (length chars).
Proof.
  unfold total_registers.
  pose proof (List.filter_length_le (fun ch => Ascii.eqb ch "D" || Ascii.eqb ch "J") chars).
  lia.
Qed.

Lemma total_registers_app chars chars' :
  total_registers (chars ++ chars') = total_registers chars + total_registers chars'.
Proof.
  unfold total_registers. rewrite List.filter_app, !length_app. lia.
Qed.

Lemma count_arg_registers_total chars :
  forall num_registers,
    0 <= num_registers ->
    num_registers + 2 * Z.of_nat (length chars) < 2 ^ 32 ->
    count_arg_registers chars num_registers = num_registers + total_registers chars.
Proof.
  induction chars as [|ch chars IH]; intros n Hn Hbound.
  - unfold total_registers. cbn. lia.
  - cbn [count_arg_registers]. rewrite total_registers_cons. unfold registers_of.
    cbn [length] in Hbound. unfold uint32_add.
    destruct (Ascii.eqb ch "D" || Ascii.eqb ch "J").
    + rewrite Z.mod_small by lia. rewrite IH by lia. lia.
    + rewrite Z.mod_small by lia. rewrite IH by lia. lia.
Qed.

Lemma length_list_ascii_of_string s :
  length (list_ascii_of_string s) = String.length s.
Proof. induction s as [|c s IH]; cbn; congruence. Qed.

Lemma NumArgRegisters_run ret args w :
  2 * Z.of_nat (String.length args) < 2 ^ 32 ->
  NumArgRegisters (String ret args) w
  = Ok (total_registers (list_ascii_of_string args)) w.
Proof.
  intros Hbound. unfold NumArgRegisters.
  replace (1 <=? Z.of_nat (String.length (String ret args))) with true
    by (symmetry; apply Z.leb_le; cbn [String.length]; lia).
  mrun. cbn [list_ascii_of_string drop]. rewrite drop_0.
  rewrite count_arg_registers_total; [done|lia|].
  rewrite length_list_ascii_of_string. lia.
Qed.

(** X1: [NumArgRegisters] fails its [CHECK] on the empty shorty; on a
    shorty of fewer than 2^31 argument kinds it returns the number of
    kinds after the first one (the return kind) plus the number of [D]
    and [J] among them, which lies between that number of kinds and its
    double. *)
Theorem NumArgRegisters_counts shorty w :
  (shorty = EmptyString ->
     NumArgRegisters shorty w = Abort (CheckFailed "1U <= shorty.length()") w)
  /\ (forall ret args,
        shorty = String ret args ->
        2 * Z.of_nat (String.length args) < 2 ^ 32 ->
        let chars := list_ascii_of_string args in
        let wide := List.filter (fun ch => Ascii.eqb ch "D" || Ascii.eqb ch "J") chars in
        exists num_registers,
          NumArgRegisters shorty w = Ok num_registers w
          /\ num_registers = Z.of_nat (length chars) + Z.of_nat (length wide)
          /\ Z.of_nat (String.length args) <= num_registers
             <= 2 * Z.of_nat (String.length args)).
Proof.
  split.
  - intros ->. reflexivity.
  - intros ret args -> Hbound chars wide. eexists.
    split; [by apply NumArgRegisters_run|]. split; [done|].
    pose proof (total_registers_bounds chars) as Hb.
    unfold chars in Hb. rewrite length_list_ascii_of_string in Hb. exact Hb.
Qed.

(** X2: the registers of a shorty are those of its parts: the return kind
    does not count, and the arguments [args ++ args'] take the registers
    of [args] plus those of [args'], whatever return kinds these are
    given. *)
Theorem NumArgRegisters_append ret ret' ret'' args args' w :
  2 * Z.of_nat (String.length (args ++ args')) < 2 ^ 32 ->
  exists n n',
    NumArgRegisters (String ret args) w = Ok n w
    /\ NumArgRegisters (String ret' args') w = Ok n' w
    /\ NumArgRegisters (String ret'' (args ++ args')) w = Ok (n + n') w.
Proof.
  intros Hbound.
  assert (Hlen : forall s s', String.length (s ++ s')
                              = (String.length s + String.length s')%nat).
  { clear. intros s s'. induction s as [|c s IH]; [done|].
    change (String c s +:+ s') with (String c (s +:+ s')).
    cbn [String.length]. by rewrite IH. }
  assert (Hchars : forall s s', list_ascii_of_string (s ++ s')
                   = (list_ascii_of_string s ++ list_ascii_of_string s')%list).
  { clear. intros s s'. induction s as [|c s IH]; [done|].
    change (String c s +:+ s') with (String c (s +:+ s')).
    cbn [list_ascii_of_string app]. by rewrite IH. }
  pose proof (Hlen args args') as Hl. rewrite Hl in Hbound.
  eexists _, _. rewrite !NumArgRegisters_run by (rewrite ?Hl; lia).
  split; [done|]. split; [done|]. by rewrite Hchars, total_registers_app.
Qed.

(** ** [EqualParameters] *)

Lemma equal_parameters_from_run self this params proto_params :
  forall i w,
    length (drop i params) = length proto_params ->
    is_Some (threads w !! self) ->
    equal_parameters_from self this params i proto_params w
    = compared self this w (zip proto_params (drop i params)).
Proof.
  induction proto_params as [|type_idx rest IH]; intros i w Hlen [t Ht].
  - reflexivity.
  - destruct (drop i params) as [|param suffix] eqn:Hdrop; [done|].
    assert (Hi : params !! i = Some param).
    { rewrite <- (Nat.add_0_r i), <- lookup_drop, Hdrop. done. }
    assert (Hsuffix : drop (S i) params = suffix).
    { rewrite (drop_S _ _ _ Hi) in Hdrop. by injection Hdrop. }
    cbn [equal_parameters_from zip zip_with]. unfold compared, parameter_agrees.
    cbn [List.find fst snd]. unfold ClassLinker_ResolveType, AssertPendingException,
      SetException, GetException.
    destruct (ResolveType this type_idx =? nullptr) eqn:Hres; cbn [negb andb].
    + mrun. change (nullptr =? nullptr) with true. mrun.
      by rewrite ?Hres, Ht.
    + mrun. rewrite Hres, Hi.
      destruct (ResolveType this type_idx =? param) eqn:Heq; cbn [negb]; mrun.
      * rewrite IH; [|by rewrite Hsuffix; injection Hlen|by eexists].
        by rewrite Hsuffix.
      * by rewrite ?Hres.
Qed.

(** X3: [EqualParameters] returns whether the classes passed are as many
    as the declared parameter types and each type resolves to the class
    passed at its position.  It stops at the first position that
    disagrees: if the type there does not resolve, the failure is pending
    on the calling thread when the call returns, and that is the only
    change; in every other case the runtime is as it was. *)
Theorem EqualParameters_compares self this params w m t :
  methods w !! this = Some m ->
  threads w !! self = Some t ->
  let proto_list := default [] (GetProtoParameters (dex_method_index_ m)) in
  let param_list := default [] params in
  let pairs := zip proto_list param_list in
  let first_disagreement :=
    if Nat.eqb (length param_list) (length proto_list)
    then List.find (fun pair => negb (parameter_agrees this pair)) pairs
    else None in
  exists w',
    EqualParameters self this params w
    = Ok (Nat.eqb (length param_list) (length proto_list)
          && forallb (parameter_agrees this) pairs) w'
    /\ match first_disagreement with
       | Some (type_idx, _) =>
           if ResolveType this type_idx =? nullptr
           then only_throws self (NoClassDefFoundError type_idx) w w'
           else w' = w
       | None => w' = w
       end.
Proof.
  intros Hm Ht proto_list param_list pairs first_disagreement.
  unfold first_disagreement, EqualParameters. mrun.
  assert (Hcount : match GetProtoParameters (dex_method_index_ m) with
                   | Some l => length l
                   | None => O
                   end = length proto_list).
  { unfold proto_list. by destruct (GetProtoParameters _). }
  assert (Hparams : match params with
                    | Some l => length l
                    | None => O
                    end = length param_list).
  { unfold param_list. by destruct params. }
  rewrite Hcount, Hparams. fold proto_list param_list.
  destruct (Nat.eqb_spec (length param_list) (length proto_list)) as [Hlen|Hlen];
    cbn [negb andb]; mrun.
  2: { by exists w. }
  rewrite equal_parameters_from_run by (rewrite ?drop_0; eauto).
  rewrite drop_0. fold pairs. unfold compared.
  destruct (List.find _ pairs) as [[type_idx param]|] eqn:Hfind.
  - assert (Hall : forallb (parameter_agrees this) pairs = false).
    { apply find_some in Hfind as [Hin Hbad]. apply not_true_is_false.
      intros Hall. rewrite forallb_forall in Hall.
      rewrite (Hall _ Hin) in Hbad. done. }
    rewrite Hall. destruct (ResolveType this type_idx =? nullptr).
    + rewrite Ht. eexists. split; [reflexivity|]. by exists t.
    + by exists w.
  - assert (Hall : forallb (parameter_agrees this) pairs = true).
    { apply forallb_forall. intros pair Hin.
      pose proof (find_none _ _ Hfind pair Hin) as Hok.
      by apply negb_false_iff in Hok. }
    rewrite Hall. by exists w.
Qed.

(** X4: for a method that declares no parameters (no parameter list, or
    an empty one), [EqualParameters] returns [true] for a null or empty
    array of classes and [false] for any other, with the runtime as it
    was. *)
Theorem EqualParameters_no_parameters self this params w m :
  methods w !! this = Some m ->
  default [] (GetProtoParameters (dex_method_index_ m)) = [] ->
  EqualParameters self this params w
  = Ok (match default [] params with [] => true | _ => false end) w.
Proof.
  intros Hm Hnone. unfold EqualParameters. mrun.
  destruct (GetProtoParameters (dex_method_index_ m)) as [proto_list|];
    cbn [default from_option id] in Hnone |- *; subst;
    destruct params as [[|param rest]|]; reflexivity.
Qed.

(** ** [CopyFrom] *)

Lemma CopyFrom_copied this src w m_src m_this :
  methods w !! src = Some m_src ->
  methods w !! this = Some m_this ->
  this <> src ->
  CopyFrom this src w
  = Ok tt (set_methods (<[this := copied_method (jit_ w) m_src]> (methods w)) w).
Proof.
  intros Hsrc Hthis Hne.
  unfold CopyFrom, UseJitCompilation, SetEntryPointFromQuickCompiledCode, SetProfilingInfo,
    copied_method.
  mrun. destruct m_src as [dc af co mi hc ia pi ej eq].
  cbn [set_declaring_class declaring_class_ access_flags_ dex_code_item_offset_
       dex_method_index_ hotness_count_ ignore_aot_code_ profiling_info_
       entry_point_from_jni_ entry_point_from_quick_compiled_code_].
  destruct (jit_ w) as [[[] cache]|];
    cbn [use_jit_compilation_ andb]; mrun;
    repeat (cbn [set_declaring_class declaring_class_ access_flags_
                 dex_code_item_offset_ dex_method_index_ hotness_count_
                 ignore_aot_code_ profiling_info_ entry_point_from_jni_
                 entry_point_from_quick_compiled_code_];
            match goal with
            | |- context [ContainsPc ?j ?p] => destruct (ContainsPc j p)
            | |- context [IsNative ?x] => destruct (IsNative x)
            end; cbn [negb andb]; mrun);
    rewrite ?insert_insert_eq; reflexivity.
Qed.

(** X5: [CopyFrom] rewrites the target only: the source and every other
    method stay as they are.  The copy has the source's declaring class,
    access flags, code-item offset, method index, ignore-AOT mark and
    native entry point; its hotness count is 0; its profiling info is
    null unless the source is native; and its compiled-code entry point is
    the source's or the interpreter bridge. *)
Theorem CopyFrom_copies this src w m_src m_this :
  methods w !! src = Some m_src ->
  methods w !! this = Some m_this ->
  this <> src ->
  exists w' copy,
    CopyFrom this src w = Ok tt w'
    /\ w' = set_methods (<[this := copy]> (methods w)) w
    /\ methods w' !! src = Some m_src
    /\ (forall p, p <> this -> methods w' !! p = methods w !! p)
    /\ declaring_class_ copy = declaring_class_ m_src
    /\ access_flags_ copy = access_flags_ m_src
    /\ dex_code_item_offset_ copy = dex_code_item_offset_ m_src
    /\ dex_method_index_ copy = dex_method_index_ m_src
    /\ ignore_aot_code_ copy = ignore_aot_code_ m_src
    /\ entry_point_from_jni_ copy = entry_point_from_jni_ m_src
    /\ hotness_count_ copy = 0
    /\ profiling_info_ copy
       = (if IsNative m_src then profiling_info_ m_src else nullptr)
    /\ (entry_point_from_quick_compiled_code_ copy
        = entry_point_from_quick_compiled_code_ m_src
        \/ entry_point_from_quick_compiled_code_ copy = GetQuickToInterpreterBridge).
Proof.
  intros Hsrc Hthis Hne. eexists _, (copied_method (jit_ w) m_src).
  split; [by eapply CopyFrom_copied|]. split; [done|]. wsimpl.
  split; [by rewrite lookup_insert_ne|].
  split; [intros p Hp; by rewrite lookup_insert_ne|].
  unfold copied_method.
  destruct (IsNative m_src), (match jit_ w with Some _ => _ | None => _ end);
    cbn; tauto.
Qed.

(** X6: when JIT compilation is in use and the interpreter bridge is not
    code of the cache, the copy [CopyFrom] makes never has its entry point
    in the JIT code cache, whatever the source's entry point is. *)
Theorem CopyFrom_not_in_code_cache this src w m_src m_this j :
  methods w !! src = Some m_src ->
  methods w !! this = Some m_this ->
  this <> src ->
  jit_ w = Some j ->
  use_jit_compilation_ j = true ->
  ContainsPc j GetQuickToInterpreterBridge = false ->
  exists w' copy,
    CopyFrom this src w = Ok tt w'
    /\ methods w' !! this = Some copy
    /\ jit_ w' = Some j
    /\ ContainsPc j (entry_point_from_quick_compiled_code_ copy) = false.
Proof.
  intros Hsrc Hthis Hne Hjit Huse Hbridge. eexists _, (copied_method (jit_ w) m_src).
  split; [by eapply CopyFrom_copied|]. wsimpl.
  split; [apply lookup_insert_eq|]. split; [done|].
  unfold copied_method. rewrite Hjit, Huse. cbn [andb].
  destruct (ContainsPc j (entry_point_from_quick_compiled_code_ m_src)) eqn:Hc;
    destruct (IsNative m_src); cbn; done.
Qed.

(** ** [RegisterNative] and [UnregisterNative], further *)

Lemma RegisterNative_direct depth this native_method is_fast w m :
  methods w !! this = Some m ->
  IsXposedHookedMethod m = false ->
  IsNative m = true -> IsFastNative m = false ->
  native_method <> nullptr ->
  RegisterNative depth this native_method is_fast w
  = Ok tt (set_methods
             (<[this := registered_method native_method is_fast m]> (methods w)) w).
Proof.
  intros Hm Hh Hn Hf Hp. rewrite RegisterNative_unfold. mrun. rewrite Hh, Hn, Hf.
  destruct (Z.eqb_spec native_method nullptr) as [|_]; [done|].
  cbn [negb]. unfold GetAccessFlags, SetAccessFlags, SetEntryPointFromJni, registered_method.
  destruct is_fast; mrun; by rewrite ?insert_insert_eq.
Qed.

Lemma registered_method_slow native_method m :
  IsXposedHookedMethod (registered_method native_method false m) = IsXposedHookedMethod m
  /\ IsNative (registered_method native_method false m) = IsNative m
  /\ IsFastNative (registered_method native_method false m) = IsFastNative m.
Proof. by destruct m. Qed.

Lemma RegisterNative_redirected depth this native_method is_fast w m info :
  methods w !! this = Some m ->
  IsXposedHookedMethod m = true ->
  hook_infos w !! entry_point_from_jni_ m = Some info ->
  RegisterNative (S depth) this native_method is_fast w
  = RegisterNative depth (original_method info) native_method is_fast w.
Proof.
  intros Hm Hh Hi. cbn [RegisterNative]. mrun. rewrite Hh. mstep.
  by rewrite (GetXposedOriginalMethod_run _ _ _ _ Hm (fun _ => Hh) Hi).
Qed.

Lemma UnregisterNative_redirected depth this w m info :
  methods w !! this = Some m ->
  IsXposedHookedMethod m = true ->
  hook_infos w !! entry_point_from_jni_ m = Some info ->
  UnregisterNative (S depth) this w = UnregisterNative depth (original_method info) w.
Proof.
  intros Hm Hh Hi. cbn [UnregisterNative]. mrun. rewrite Hh. mstep.
  by rewrite (GetXposedOriginalMethod_run _ _ _ _ Hm (fun _ => Hh) Hi).
Qed.

(** X7: a registration on a hooked method is carried out on its backup:
    the backup gets the native entry point (and the fast-native flag), the
    hooked method keeps its hook record, and nothing else changes. *)
Theorem RegisterNative_hooked_registers_backup
    depth this native_method is_fast w m info backup :
  methods w !! this = Some m ->
  IsXposedHookedMethod m = true ->
  hook_infos w !! entry_point_from_jni_ m = Some info ->
  methods w !! original_method info = Some backup ->
  IsXposedHookedMethod backup = false ->
  IsNative backup = true -> IsFastNative backup = false ->
  native_method <> nullptr ->
  exists w',
    RegisterNative (S depth) this native_method is_fast w = Ok tt w'
    /\ w' = set_methods
              (<[original_method info := registered_method native_method is_fast backup]>
                 (methods w)) w
    /\ methods w' !! this = Some m
    /\ GetXposedHookInfo this w' = Ok info w'.
Proof.
  intros Hm Hh Hi Hb Hbh Hbn Hbf Hp.
  assert (Hne : original_method info <> this) by congruence.
  eexists. split.
  { erewrite RegisterNative_redirected by done. by apply RegisterNative_direct. }
  split; [done|]. wsimpl. split; [by rewrite lookup_insert_ne|].
  unfold GetXposedHookInfo. mrun. rewrite Hh, run_DCHECK_true. by mrun.
Qed.

(** X8: registering a native method (not as fast native) and then
    unregistering it leaves exactly what unregistering alone leaves: the
    method with the lookup stub as its native entry point. *)
Theorem RegisterNative_UnregisterNative depth depth' this native_method w m :
  methods w !! this = Some m ->
  IsXposedHookedMethod m = false ->
  IsNative m = true -> IsFastNative m = false ->
  native_method <> nullptr ->
  GetJniDlsymLookupStub <> nullptr ->
  (RegisterNative depth this native_method false;; UnregisterNative depth' this) w
  = Ok tt (set_methods
             (<[this := set_entry_point_from_jni GetJniDlsymLookupStub m]> (methods w)) w)
  /\ UnregisterNative depth' this w
     = Ok tt (set_methods
                (<[this := set_entry_point_from_jni GetJniDlsymLookupStub m]> (methods w)) w).
Proof.
  intros Hm Hh Hn Hf Hp Hstub.
  assert (Hun : forall w0 m0,
    methods w0 !! this = Some m0 ->
    IsXposedHookedMethod m0 = false -> IsNative m0 = true -> IsFastNative m0 = false ->
    UnregisterNative depth' this w0
    = Ok tt (set_methods
               (<[this := set_entry_point_from_jni GetJniDlsymLookupStub m0]> (methods w0))
               w0)).
  { intros w0 m0 Hm0 Hh0 Hn0 Hf0. rewrite UnregisterNative_unfold. mrun.
    rewrite Hh0, Hn0, Hf0. mrun. by erewrite RegisterNative_direct by done. }
  split; [|by apply Hun].
  mstep. rewrite (RegisterNative_direct _ _ _ _ _ _ Hm Hh Hn Hf Hp). cbv beta iota.
  destruct (registered_method_slow native_method m) as (Hh' & Hn' & Hf').
  erewrite Hun; [|map_lookup|congruence..]. wsimpl.
  rewrite insert_insert_eq. by destruct m.
Qed.

Lemma load_method_abort p w e w' : load_method p w = Abort e w' -> w' = w.
Proof. unfold load_method. destruct (methods w !! p); congruence. Qed.

Lemma GetXposedOriginalMethod_outcome this w :
  (exists original, GetXposedOriginalMethod this w = Ok original w)
  \/ (exists e, GetXposedOriginalMethod this w = Abort e w).
Proof.
  unfold GetXposedOriginalMethod, GetXposedHookInfo, DCHECK, CHECK, load_method,
    load_hook_info.
  rewrite !run_bind. destruct (methods w !! this) as [m|]; [|right; by eexists].
  destruct (hook_infos w !! entry_point_from_jni_ m) as [info|] eqn:Hi;
    destruct kIsDebugBuild, (IsXposedHookedMethod m); cbn;
    rewrite ?run_bind, ?run_ret, ?run_abort; cbv beta iota; rewrite ?Hi;
    first [left; by eexists | right; by eexists].
Qed.

Lemma RegisterNative_abort depth :
  forall this native_method is_fast w e w',
    RegisterNative depth this native_method is_fast w = Abort e w' -> w' = w.
Proof.
  induction depth as [|depth IH]; intros this native_method is_fast w e w';
    rewrite RegisterNative_unfold, run_bind; unfold load_method at 1;
    (destruct (methods w !! this) as [m|] eqn:Hm; [|congruence]);
    (destruct (IsXposedHookedMethod m);
     [rewrite run_bind;
      destruct (GetXposedOriginalMethod_outcome this w) as [[o ->]|[e0 ->]];
      [|congruence]
     |]).
  - rewrite run_abort. congruence.
  - destruct (IsNative m), (IsFastNative m), (native_method =? nullptr), is_fast;
      unfold GetAccessFlags, SetAccessFlags, SetEntryPointFromJni; mrun; congruence.
  - apply IH.
  - destruct (IsNative m), (IsFastNative m), (native_method =? nullptr), is_fast;
      unfold GetAccessFlags, SetAccessFlags, SetEntryPointFromJni; mrun; congruence.
Qed.

(** X9: [RegisterNative] and [UnregisterNative] fail as a whole: when one
    of them aborts, on a failed check, a dangling pointer or too long a
    chain of backups, the runtime is as it was before the call. *)
Theorem RegisterNative_abort_unchanged depth this native_method is_fast w e w' :
  (RegisterNative depth this native_method is_fast w = Abort e w' -> w' = w)
  /\ (UnregisterNative depth this w = Abort e w' -> w' = w).
Proof.
  split; [apply RegisterNative_abort|].
  revert this. induction depth as [|depth IH]; intros this;
    rewrite UnregisterNative_unfold, run_bind; unfold load_method at 1;
    (destruct (methods w !! this) as [m|] eqn:Hm; [|congruence]);
    (destruct (IsXposedHookedMethod m);
     [rewrite run_bind;
      destruct (GetXposedOriginalMethod_outcome this w) as [[o ->]|[e0 ->]];
      [|congruence]
     |]).
  - rewrite run_abort. congruence.
  - destruct (IsNative m && negb (IsFastNative m)); mrun;
      [apply RegisterNative_abort|congruence].
  - apply IH.
  - destruct (IsNative m && negb (IsFastNative m)); mrun;
      [apply RegisterNative_abort|congruence].
Qed.

(** ** The queries of [art_method.cc] *)

(** X10: [GetOatQuickMethodHeader] is a query: whether it returns a header,
    returns none or fails a check, the runtime is as it was. *)
Theorem GetOatQuickMethodHeader_read_only this pc :
  read_only (GetOatQuickMethodHeader this pc).
Proof.
  unfold GetOatQuickMethodHeader, FindOatMethodFor. read_only_steps.
Qed.

(** X11: [HasAnyCompiledCode] is a query as well. *)
Theorem HasAnyCompiledCode_read_only this : read_only (HasAnyCompiledCode this).
Proof.
  unfold HasAnyCompiledCode, GetOatMethodQuickCodeFor. read_only_steps.
Qed.

(** ** [InvalidateCompiledCode] and [HasAnyCompiledCode] *)

Lemma InvalidateCompiledCode_run this w m :
  methods w !! this = Some m ->
  IsXposedHookedMethod m = false ->
  InvalidateCompiledCode this w
  = Ok tt
      (if jit_compilation_in_use w
       then set_trace (trace w ++ [EvInvalidateCompiledCodeFor this])
              (set_methods (<[this := set_ignore_aot_code true m]> (methods w)) w)
       else set_methods
              (<[this := set_entry_point_from_quick_compiled_code
                           GetQuickToInterpreterBridge
                           (set_ignore_aot_code true m)]> (methods w)) w).
Proof.
  intros Hm Hh. unfold InvalidateCompiledCode. mrun. rewrite Hh. mrun.
  unfold IgnoreAotCode, SetIgnoreAotCode, UseJitCompilation, jit_compilation_in_use,
    InvalidateCompiledCodeFor, SetEntryPointFromQuickCompiledCode.
  destruct (ignore_aot_code_ m) eqn:Hi; cbn [negb]; mrun.
  - replace (set_ignore_aot_code true m) with m by (by destruct m; cbn in Hi; subst).
    destruct (jit_ w) as [[[] ?]|] eqn:Hjit; cbn [use_jit_compilation_]; mrun;
      rewrite ?(insert_id _ _ _ Hm), ?world_eta, ?Hjit; try done.
  - destruct (jit_ w) as [[[] ?]|] eqn:Hjit; cbn [use_jit_compilation_]; mrun;
      by rewrite ?insert_insert_eq, ?Hjit.
Qed.

(** X12: after [InvalidateCompiledCode], [HasAnyCompiledCode] no longer
    counts the method's AOT code: it answers whether the JIT code cache
    holds code of the method, whatever the oat files hold. *)
Theorem HasAnyCompiledCode_after_InvalidateCompiledCode this w w1 :
  InvalidateCompiledCode this w = Ok tt w1 ->
  HasAnyCompiledCode this w1
  = Ok (match jit_ w with
        | Some j => ContainsMethod j this
        | None => false
        end) w1.
Proof.
  intros Hrun.
  destruct (methods w !! this) as [m|] eqn:Hm;
    [|by unfold InvalidateCompiledCode in Hrun; rewrite run_bind in Hrun;
         unfold load_method in Hrun; rewrite Hm in Hrun].
  destruct (IsXposedHookedMethod m) eqn:Hh.
  { revert Hrun. unfold InvalidateCompiledCode. mrun. rewrite Hh. by mrun. }
  rewrite (InvalidateCompiledCode_run _ _ _ Hm Hh) in Hrun. injection Hrun as <-.
  unfold HasAnyCompiledCode, jit_compilation_in_use, IgnoreAotCode.
  destruct (jit_ w) as [[[] cache]|] eqn:Hjit; cbn [use_jit_compilation_]; mrun;
    rewrite ?Hjit; try destruct (ContainsMethod _ _); by mrun.
Qed.

(** X13: [InvalidateCompiledCode] twice: when JIT compilation is not in
    use the second call leaves the whole runtime as the first left it;
    when it is in use, the second call only repeats the request to the
    code cache, and leaves the rest of the runtime as the first left
    it. *)
Theorem InvalidateCompiledCode_twice this w w1 :
  InvalidateCompiledCode this w = Ok tt w1 ->
  InvalidateCompiledCode this w1
  = Ok tt (if jit_compilation_in_use w
           then set_trace (trace w1 ++ [EvInvalidateCompiledCodeFor this]) w1
           else w1).
Proof.
  intros Hrun.
  destruct (methods w !! this) as [m|] eqn:Hm;
    [|by unfold InvalidateCompiledCode in Hrun; rewrite run_bind in Hrun;
         unfold load_method in Hrun; rewrite Hm in Hrun].
  destruct (IsXposedHookedMethod m) eqn:Hh.
  { revert Hrun. unfold InvalidateCompiledCode. mrun. rewrite Hh. by mrun. }
  rewrite (InvalidateCompiledCode_run _ _ _ Hm Hh) in Hrun. injection Hrun as <-.
  destruct (jit_compilation_in_use w) eqn:Hj;
    (erewrite InvalidateCompiledCode_run;
       [|wsimpl; apply lookup_insert_eq|by destruct m]);
    unfold jit_compilation_in_use in *; wsimpl; rewrite Hj; wsimpl;
    rewrite insert_insert_eq; by destruct m.
Qed.

(** ** [Invoke] and the managed stack *)

(** X14: whenever [Invoke] returns, the managed stack of the calling thread
    is as it was at the call: the fragment pushed for the transition is
    popped on each path, the interpreter, the invoke stubs and the
    deoptimization leaving the stack as they find it. *)
Theorem Invoke_keeps_managed_stack self this args args_size result shorty frame_address :
  (forall receiver args',
     keeps_managed_stack self
       (EnterInterpreterFromInvoke self this receiver args' result)) ->
  keeps_managed_stack self
    (art_quick_invoke_stub this args args_size self result shorty) ->
  keeps_managed_stack self
    (art_quick_invoke_static_stub this args args_size self result shorty) ->
  (forall r, keeps_managed_stack self (DeoptimizeWithDeoptimizationException self r)) ->
  keeps_managed_stack self
    (Invoke self this args args_size result shorty frame_address).
Proof.
  intros Hinterp Hstub Hstatic Hdeopt. apply stack_effect_keeps.
  assert (Hinterp' := fun receiver args' =>
            proj2 (stack_effect_keeps self _) (Hinterp receiver args')).
  assert (Hdeopt' := fun r => proj2 (stack_effect_keeps self _) (Hdeopt r)).
  apply stack_effect_keeps in Hstub, Hstatic.
  unfold Invoke. apply stack_effect_bind_l; [apply stack_effect_load_thread|intros t].
  destruct (frame_address <? stack_end_ t).
  { apply stack_effect_bind_l; [|intros; apply stack_effect_ret].
    by apply stack_effect_update_thread. }
  apply stack_effect_bind_l.
  { destruct kIsDebugBuild; [|apply stack_effect_ret].
    apply stack_effect_bind_l; [apply stack_effect_CHECK|intros _].
    apply stack_effect_bind_l; [|intros ?]; apply stack_effect_CHECK. }
  intros _. apply (stack_effect_ext self (tail ∘ cons [])); [done|].
  apply stack_effect_bind; [by apply stack_effect_update_thread|intros _].
  apply stack_effect_bind_l; [apply stack_effect_load_method|intros m].
  apply stack_effect_bind_l; [apply stack_effect_gets|intros started].
  apply stack_effect_bind_l.
  2:{ intros r. apply stack_effect_bind_r; [|intros; apply stack_effect_ret].
      by apply stack_effect_update_thread. }
  destruct (negb started || _).
  { destruct (IsStatic m); [apply Hinterp'|].
    destruct args; [apply stack_effect_abort|apply Hinterp']. }
  apply stack_effect_bind_l; [apply stack_effect_DCHECK|intros _].
  destruct (negb _).
  2:{ apply stack_effect_bind_l; [apply stack_effect_emit|intros; apply stack_effect_ret]. }
  apply stack_effect_bind_l.
  { destruct (kIsDebugBuild && _); [|apply stack_effect_ret].
    apply stack_effect_bind_l; [apply stack_effect_gets|intros use_jit].
    apply stack_effect_bind_l; [apply stack_effect_CHECK|intros _].
    apply stack_effect_bind_l; [apply stack_effect_gets|intros code].
    apply stack_effect_CHECK. }
  intros _. apply stack_effect_bind_l.
  { by destruct (negb (IsStatic m)). }
  intros r. apply stack_effect_bind_l.
  { apply stack_effect_bind_l; [apply stack_effect_load_thread|intros ?].
    apply stack_effect_ret. }
  intros [[]|]; first [apply Hdeopt' | apply stack_effect_ret].
Qed.

(** ** [FindCatchBlock]: what the scan costs *)

Lemma unresolved_warnings_none this visited :
  existsb (handler_unresolved this) visited = false ->
  unresolved_warnings this visited = [].
Proof.
  unfold unresolved_warnings. induction visited as [|handler visited IH]; [done|].
  cbn [existsb List.filter]. intros [Hh Hrest]%orb_false_iff.
  rewrite Hh. by apply IH.
Qed.

(** X15: [FindCatchBlock] changes the runtime only when it visits an
    unresolved handler: otherwise the runtime is exactly as it was when it
    returns; and when it does visit one, the calling thread has lost its
    long-jump context, its state, stack and the other threads being as
    they were. *)
Theorem FindCatchBlock_long_jump_context
    self this exception_type dex_pc out w m code_item t :
  methods w !! this = Some m ->
  GetCodeItemAt (dex_code_item_offset_ m) = Some code_item ->
  threads w !! self = Some t ->
  (forall handler, handler ∈ CatchHandlerIterator code_item dex_pc ->
     is_Some (insns_ code_item !! Z.to_nat (snd handler))) ->
  let visited :=
    visited_before_match this exception_type (CatchHandlerIterator code_item dex_pc) in
  exists r w' t',
    FindCatchBlock self this exception_type dex_pc out w = Ok r w'
    /\ threads w' !! self = Some t'
    /\ (existsb (handler_unresolved this) visited = false -> w' = w)
    /\ long_jump_context_ t'
       = (if existsb (handler_unresolved this) visited
          then None else long_jump_context_ t)
    /\ state_ t' = state_ t
    /\ managed_stack_ t' = managed_stack_ t
    /\ stack_end_ t' = stack_end_ t
    /\ (forall p, p <> self -> threads w' !! p = threads w !! p).
Proof.
  intros Hm Hci Ht Hrange visited.
  rewrite (FindCatchBlock_run _ _ _ _ _ _ _ _ _ Hm Hci Ht).
  fold visited. set (after := set_trace _ _).
  assert (Hafter :
    threads after !! self = Some (thread_after_scan this visited t)
    /\ (existsb (handler_unresolved this) visited = false -> after = w)
    /\ (forall p, p <> self -> threads after !! p = threads w !! p)).
  { unfold after. wsimpl. split; [apply lookup_insert_eq|]. split.
    - intros Hnone. unfold thread_after_scan.
      rewrite Hnone, unresolved_warnings_none, app_nil_r, insert_id by done.
      apply world_eta.
    - intros p Hp. by rewrite lookup_insert_ne. }
  destruct Hafter as (Ha1 & Ha2 & Ha3).
  assert (Hthread :
    long_jump_context_ (thread_after_scan this visited t)
    = (if existsb (handler_unresolved this) visited then None else long_jump_context_ t)
    /\ state_ (thread_after_scan this visited t) = state_ t
    /\ managed_stack_ (thread_after_scan this visited t) = managed_stack_ t
    /\ stack_end_ (thread_after_scan this visited t) = stack_end_ t).
  { unfold thread_after_scan. by destruct (existsb _ _), t as [st ex se ms lj]. }
  unfold first_applicable.
  destruct (List.find _ _) as [handler|] eqn:Hfind;
    cbn [fmap option_fmap option_map default from_option id].
  - apply find_some in Hfind as [Hin _].
    destruct (Hrange handler) as [instr Hinstr]; [by apply list_elem_of_In|].
    rewrite Hinstr.
    destruct (_ =? kDexNoIndex); eexists _, _, _;
      (split; [reflexivity|]); (split; [exact Ha1|]); (split; [exact Ha2|]);
      by destruct Hthread as (? & ? & ? & ?).
  - rewrite Z.eqb_refl. eexists _, _, _.
    split; [reflexivity|]. split; [exact Ha1|]. split; [exact Ha2|].
    by destruct Hthread as (? & ? & ? & ?).
Qed.

Lemma copied_method_flags jit m : access_flags_ (copied_method jit m) = access_flags_ m.
Proof.
  unfold copied_method.
  by destruct (IsNative m), (match jit with Some _ => _ | None => _ end), m.
Qed.

(** ** [EnableXposedHook]: the whole state *)

Lemma EnableXposedHook_state self this additional_info' w m t :
  kAccXposedHookedMethod <> 0 ->
  methods w !! this = Some m ->
  IsXposedHookedMethod m = false ->
  IsXposedOriginalMethod m = false ->
  threads w !! self = Some t ->
  (forall thread, thread ∈ thread_list_ w -> is_Some (threads w !! thread)) ->
  let backup := fresh_addr (methods w) in
  let hook_info := fresh_addr (hook_infos w) in
  let reflected := fresh_addr (mirror_objects w) in
  exists w',
    EnableXposedHook self this additional_info' w = Ok tt w'
    /\ methods w'
       = <[this := hooked_descriptor hook_info m]>
           (<[backup := backup_of (jit_ w) m]> (methods w))
    /\ hook_infos w'
       = <[hook_info := mkXposedHookInfo (Z.of_nat (length (global_refs w)))
                          (Z.of_nat (S (length (global_refs w)))) backup]>
           (hook_infos w)
    /\ mirror_objects w'
       = <[reflected := mkAbstractMethod (IsConstructor m) backup true]>
           (mirror_objects w)
    /\ global_refs w' = global_refs w ++ [reflected; additional_info']
    /\ (forall p,
          threads w' !! p
          = thread_after_hook self this backup (thread_list_ w) p <$> threads w !! p)
    /\ thread_list_ w' = thread_list_ w
    /\ started_ w' = started_ w
    /\ jit_ w' = move_obsolete this backup <$> jit_ w
    /\ oat_methods w' = oat_methods w.
Proof.
  intros Hnz Hm Hh Ho Ht Hall backup hook_info reflected.
  assert (Hne : backup <> this) by (by eapply fresh_addr_ne).
  unfold EnableXposedHook. mrun. rewrite Hh, Ho. mstep.
  unfold CreateRuntimeMethod. mrun. fold backup.
  erewrite (CopyFrom_copied backup this); [|map_lookup|map_lookup|done].
  cbv beta iota. wsimpl.
  unfold GetAccessFlags, SetAccessFlags. mrun. rewrite copied_method_flags.
  change (set_access_flags _ (copied_method _ _)) with (backup_of (jit_ w) m).
  unfold CreateFromArtMethod, SetAccessible, AllocXposedHookInfo, AddGlobalRef.
  mrun. rewrite lookup_insert_eq. mrun. fold hook_info. fold reflected.
  unfold store_hook_info. mrun. wsimpl. rewrite !insert_insert_eq, length_app.
  cbn [length is_constructor_object art_method_]. rewrite Nat.add_1_r.
  set (info := mkXposedHookInfo _ _ _).
  assert (Hrest : forall w0,
    methods w0 !! this = Some m ->
    hook_infos w0 !! hook_info = Some info ->
    threads w0 = <[self := set_state kSuspended t]> (threads w) ->
    thread_list_ w0 = thread_list_ w ->
    exists thr' tr',
      (SetEntryPointFromJni this hook_info;;
       SetEntryPointFromQuickCompiledCode this GetQuickProxyInvokeHandler;;
       SetCodeItemOffset this 0;;
       flags ← GetAccessFlags this;
       SetAccessFlags this
         (Z.lor (Z.land flags (uint32_not kRemoveFlags)) kAccXposedHookedMethod);;
       emit EvLockThreadList;;
       ForEach StackReplaceMethodAndInstallInstrumentation this;;
       emit EvUnlockThreadList;;
       emit EvResumeAll;;
       emit EvGcCriticalSectionExit;;
       emit EvJitResume;;
       update_thread self (set_state kRunnable);;
       emit (EvThreadResumption self)) w0
      = Ok tt
          (set_trace tr'
             (set_threads thr'
                (set_methods (<[this := hooked_descriptor hook_info m]> (methods w0)) w0)))
      /\ forall p,
           thr' !! p
           = thread_after_hook self this backup (thread_list_ w) p <$> threads w !! p).
  { intros w0 Hm0 Hi0 Hthr0 Hlist0.
    unfold SetEntryPointFromJni, SetEntryPointFromQuickCompiledCode, SetCodeItemOffset,
      GetAccessFlags, SetAccessFlags, ForEach.
    mrun. rewrite !insert_insert_eq.
    cbn [access_flags_ set_entry_point_from_jni set_entry_point_from_quick_compiled_code
         set_code_item_offset].
    change (set_access_flags _ _) with (hooked_descriptor hook_info m).
    set (w1 := mkWorld _ _ _ _ _ _ _ _ _ _).
    destruct (for_each_run this (hooked_descriptor hook_info m) info (thread_list_ w0) w1)
      as (thr' & Hrun & Hthr').
    { unfold w1. wsimpl. apply lookup_insert_eq. }
    { intros _. by apply hooked_descriptor_hooked. }
    { exact Hi0. }
    { intros thread Hin. unfold w1. wsimpl. rewrite Hthr0.
      destruct (decide (self = thread)) as [<-|Hns].
      - rewrite lookup_insert_eq. by eexists.
      - rewrite lookup_insert_ne by done. apply Hall. by rewrite <- Hlist0. }
    rewrite Hrun. cbv beta iota. unfold w1 in *. clear w1. wsimpl. wsimpl.
    cbn [threads] in Hthr'. rewrite Hthr0, Hlist0 in Hthr'.
    change (original_method info) with backup in Hthr'.
    assert (Hself : is_Some (thr' !! self)).
    { rewrite Hthr', lookup_insert_eq. by case_decide. }
    destruct Hself as [ts Hts].
    mrun.
    exists (<[self := set_state kRunnable ts]> thr'). eexists. split; [reflexivity|].
    intros p. unfold thread_after_hook.
    destruct (decide (p = self)) as [->|Hns].
    - rewrite lookup_insert_eq, Ht. rewrite Hthr', lookup_insert_eq in Hts.
      destruct (decide (self ∈ thread_list_ w)); injection Hts as <-; by destruct t.
    - rewrite lookup_insert_ne, Hthr', lookup_insert_ne by done.
      by destruct (decide (p ∈ thread_list_ w)), (threads w !! p). }
  destruct (jit_ w) as [j|] eqn:Hjit; [unfold MoveObsoleteMethod|]; mrun.
  all: match goal with
       | |- context [match ?k ?w0 with Ok _ _ => _ | Abort _ _ => _ end] =>
           destruct (Hrest w0) as (thr' & tr' & Hrun & Hthreads);
             [wsimpl; rewrite lookup_insert_ne by done; exact Hm
             |wsimpl; apply lookup_insert_eq
             |done|done|]
       end.
  all: eexists; split; [exact Hrun|]; wsimpl.
  all: rewrite <- ?app_assoc, ?Hjit; by repeat split.
Qed.

(** X16: hooking a method twice: once [EnableXposedHook] has hooked a
    method, a further call for it, by any thread and with any payload,
    changes nothing. *)
Theorem EnableXposedHook_twice self this additional_info' w m t :
  ModifiersOk ->
  methods w !! this = Some m ->
  IsXposedHookedMethod m = false ->
  IsXposedOriginalMethod m = false ->
  threads w !! self = Some t ->
  (forall thread, thread ∈ thread_list_ w -> is_Some (threads w !! thread)) ->
  exists w',
    EnableXposedHook self this additional_info' w = Ok tt w'
    /\ forall self' additional_info'',
         EnableXposedHook self' this additional_info'' w' = Ok tt w'.
Proof.
  intros Hok Hm Hh Ho Ht Hall.
  destruct (EnableXposedHook_state self this additional_info' w m t)
    as (w' & Hrun & Hmethods & _); [apply Hok|done..|].
  exists w'. split; [done|]. intros self' additional_info''.
  eapply EnableXposedHook_hooked.
  - rewrite Hmethods. apply lookup_insert_eq.
  - apply hooked_descriptor_hooked, Hok.
Qed.

(** X17: the backup [EnableXposedHook] makes is the method as it was, up to
    the backup flag: same declaring class, method index, code-item offset,
    native entry point and ignore-AOT mark, the backup flag added to the
    access flags, hotness count 0; and the same compiled-code entry point
    unless JIT compilation is in use and that entry point is in the code
    cache, when it is the interpreter bridge. *)
Theorem EnableXposedHook_backup_copy self this additional_info' w m t :
  ModifiersOk ->
  methods w !! this = Some m ->
  IsXposedHookedMethod m = false ->
  IsXposedOriginalMethod m = false ->
  threads w !! self = Some t ->
  (forall thread, thread ∈ thread_list_ w -> is_Some (threads w !! thread)) ->
  exists w' backup,
    EnableXposedHook self this additional_info' w = Ok tt w'
    /\ GetXposedOriginalMethod this w' = Ok (fresh_addr (methods w)) w'
    /\ methods w' !! fresh_addr (methods w) = Some backup
    /\ declaring_class_ backup = declaring_class_ m
    /\ dex_method_index_ backup = dex_method_index_ m
    /\ dex_code_item_offset_ backup = dex_code_item_offset_ m
    /\ entry_point_from_jni_ backup = entry_point_from_jni_ m
    /\ ignore_aot_code_ backup = ignore_aot_code_ m
    /\ access_flags_ backup = Z.lor (access_flags_ m) kAccXposedOriginalMethod
    /\ hotness_count_ backup = 0
    /\ entry_point_from_quick_compiled_code_ backup
       = (if match jit_ w with
             | Some j => use_jit_compilation_ j
                         && ContainsPc j (entry_point_from_quick_compiled_code_ m)
             | None => false
             end
          then GetQuickToInterpreterBridge
          else entry_point_from_quick_compiled_code_ m).
Proof.
  intros Hok Hm Hh Ho Ht Hall.
  destruct (EnableXposedHook_state self this additional_info' w m t)
    as (w' & Hrun & Hmethods & Hinfos & _); [apply Hok|done..|].
  assert (Hne : fresh_addr (methods w) <> this) by (by eapply fresh_addr_ne).
  exists w', (backup_of (jit_ w) m). split; [done|]. split.
  { eapply eq_trans; [eapply GetXposedOriginalMethod_run|].
    - rewrite Hmethods. apply lookup_insert_eq.
    - intros _. apply hooked_descriptor_hooked, Hok.
    - rewrite Hinfos. apply lookup_insert_eq.
    - done. }
  split; [rewrite Hmethods, lookup_insert_ne by done; apply lookup_insert_eq|].
  unfold backup_of, copied_method.
  destruct (IsNative m), (match jit_ w with Some _ => _ | None => _ end);
    by destruct m.
Qed.

(** X18: the backup cannot be hooked in its turn: [EnableXposedHook] on
    the backup it has made throws [IllegalArgumentException], with the
    message that names the backup, to the caller, and changes nothing
    else. *)
Theorem EnableXposedHook_backup_rejected self this additional_info' w m t :
  ModifiersOk ->
  kAccXposedOriginalMethod <> 0 ->
  methods w !! this = Some m ->
  IsXposedHookedMethod m = false ->
  IsXposedOriginalMethod m = false ->
  threads w !! self = Some t ->
  (forall thread, thread ∈ thread_list_ w -> is_Some (threads w !! thread)) ->
  exists w' w'',
    EnableXposedHook self this additional_info' w = Ok tt w'
    /\ EnableXposedHook self (fresh_addr (methods w)) additional_info' w' = Ok tt w''
    /\ only_throws self
         (IllegalArgumentException
            ("Cannot hook the method backup: " +:+ PrettyMethod (fresh_addr (methods w))))
         w' w''.
Proof.
  intros Hok Hnz Hm Hh Ho Ht Hall.
  destruct (EnableXposedHook_state self this additional_info' w m t)
    as (w' & Hrun & Hmethods & _ & _ & _ & Hthreads & _); [apply Hok|done..|].
  assert (Hne : fresh_addr (methods w) <> this) by (by eapply fresh_addr_ne).
  specialize (Hthreads self). rewrite Ht in Hthreads. cbn in Hthreads.
  exists w'. eexists. split; [done|]. split.
  - eapply EnableXposedHook_backup; [|..|exact Hthreads].
    + rewrite Hmethods, lookup_insert_ne by done. apply lookup_insert_eq.
    + by apply backup_not_hooked.
    + unfold backup_of, IsXposedOriginalMethod, has_flag.
      cbn [access_flags_ set_access_flags]. rewrite land_lor_absorb.
      by apply negb_true_iff, Z.eqb_neq.
  - by eexists.
Qed.

(** X19: what [EnableXposedHook] leaves alone: every method but the hooked
    one and the new backup, every hook record but the new one, the oat
    files, the thread list and whether the runtime is started; and of
    every thread its pending exception, stack end and long-jump context,
    its state unless it is the caller (runnable when the call returns),
    and its managed stack unless it is on the thread list. *)
Theorem EnableXposedHook_frame self this additional_info' w m t :
  ModifiersOk ->
  methods w !! this = Some m ->
  IsXposedHookedMethod m = false ->
  IsXposedOriginalMethod m = false ->
  threads w !! self = Some t ->
  (forall thread, thread ∈ thread_list_ w -> is_Some (threads w !! thread)) ->
  exists w',
    EnableXposedHook self this additional_info' w = Ok tt w'
    /\ (forall p, p <> this -> p <> fresh_addr (methods w) ->
          methods w' !! p = methods w !! p)
    /\ (forall p, p <> fresh_addr (hook_infos w) -> hook_infos w' !! p = hook_infos w !! p)
    /\ oat_methods w' = oat_methods w
    /\ thread_list_ w' = thread_list_ w
    /\ started_ w' = started_ w
    /\ (forall p, threads w !! p = None -> threads w' !! p = None)
    /\ (forall p th, threads w !! p = Some th ->
          exists th', threads w' !! p = Some th'
            /\ exception_ th' = exception_ th
            /\ stack_end_ th' = stack_end_ th
            /\ long_jump_context_ th' = long_jump_context_ th
            /\ state_ th' = (if decide (p = self) then kRunnable else state_ th)
            /\ (p ∉ thread_list_ w -> managed_stack_ th' = managed_stack_ th)).
Proof.
  intros Hok Hm Hh Ho Ht Hall.
  destruct (EnableXposedHook_state self this additional_info' w m t)
    as (w' & Hrun & Hmethods & Hinfos & _ & _ & Hthreads & Hlist & Hstarted & _ & Hoat);
    [apply Hok|done..|].
  exists w'. split; [done|].
  split; [intros p Hp1 Hp2; by rewrite Hmethods, !lookup_insert_ne|].
  split; [intros p Hp; by rewrite Hinfos, lookup_insert_ne|].
  do 3 (split; [done|]).
  split; [intros p Hp; by rewrite Hthreads, Hp|].
  intros p th Hp. rewrite Hthreads, Hp. eexists. split; [reflexivity|].
  unfold thread_after_hook, visit_thread.
  destruct (decide (p = self)), (decide (p ∈ thread_list_ w)), th as [st ex se ms lj];
    by repeat split.
Qed.

Lemma hooked_descriptor_keeps_flag hook_info m flag :
  0 <= flag < 2 ^ 32 ->
  Z.land kRemoveFlags flag = 0 ->
  Z.land kAccXposedHookedMethod flag = 0 ->
  has_flag (hooked_descriptor hook_info m) flag = has_flag m flag.
Proof.
  intros Hrange Hremoved Hhooked. unfold has_flag, hooked_descriptor.
  cbn [access_flags_ set_access_flags]. do 2 f_equal.
  assert (Hones : Z.land flag (Z.ones 32) = flag)
    by (rewrite Z.land_ones by lia; apply Z.mod_small; lia).
  apply Z.bits_inj'. intros i Hi.
  apply (f_equal (fun z => Z.testbit z i)) in Hremoved, Hhooked, Hones.
  unfold uint32_not.
  rewrite !Z.land_spec in *. rewrite Z.lor_spec, !Z.land_spec, Z.lnot_spec by done.
  rewrite Z.bits_0 in *.
  destruct (Z.testbit flag i); [|by rewrite !andb_false_r].
  rewrite andb_true_r in *. cbn in Hones. rewrite Hremoved, Hhooked, Hones. cbn.
  by rewrite !andb_true_r, orb_false_r.
Qed.

(** X20: hooking keeps every other access flag: a flag within the 32 bits
    of the access flags that is none of the removed ones and not the
    hooked-method flag is set on the hooked method exactly when it was set
    before. *)
Theorem EnableXposedHook_keeps_flags self this additional_info' w m t flag :
  ModifiersOk ->
  methods w !! this = Some m ->
  IsXposedHookedMethod m = false ->
  IsXposedOriginalMethod m = false ->
  threads w !! self = Some t ->
  (forall thread, thread ∈ thread_list_ w -> is_Some (threads w !! thread)) ->
  0 <= flag < 2 ^ 32 ->
  Z.land kRemoveFlags flag = 0 ->
  Z.land kAccXposedHookedMethod flag = 0 ->
  exists w' m',
    EnableXposedHook self this additional_info' w = Ok tt w'
    /\ methods w' !! this = Some m'
    /\ has_flag m' flag = has_flag m flag.
Proof.
  intros Hok Hm Hh Ho Ht Hall Hrange Hremoved Hhooked.
  destruct (EnableXposedHook_state self this additional_info' w m t)
    as (w' & Hrun & Hmethods & _); [apply Hok|done..|].
  exists w'. eexists. split; [done|].
  split; [rewrite Hmethods; apply lookup_insert_eq|].
  by apply hooked_descriptor_keeps_flag.
Qed.

Lemma replace_method_no_frame search replace stack :
  replace <> search ->
  Forall (Forall (fun frame_method => frame_method <> search))
         (replace_method search replace stack)
  /\ map length (replace_method search replace stack) = map length stack.
Proof.
  intros Hne. unfold replace_method. split.
  - induction stack as [|fragment stack IH]; cbn [map]; constructor; [|done].
    induction fragment as [|frame_method fragment IHf]; cbn [map]; constructor; [|done].
    by case_decide.
  - rewrite map_map. apply map_ext. intros fragment. apply length_map.
Qed.

(** X21: once a method is hooked, no thread of the thread list has a frame
    that refers to it, and the stacks have the shape they had: as many
    fragments, of as many frames. *)
Theorem EnableXposedHook_no_frame_left self this additional_info' w m t :
  ModifiersOk ->
  methods w !! this = Some m ->
  IsXposedHookedMethod m = false ->
  IsXposedOriginalMethod m = false ->
  threads w !! self = Some t ->
  (forall thread, thread ∈ thread_list_ w -> is_Some (threads w !! thread)) ->
  exists w',
    EnableXposedHook self this additional_info' w = Ok tt w'
    /\ forall thread th,
         thread ∈ thread_list_ w -> threads w !! thread = Some th ->
         exists th', threads w' !! thread = Some th'
           /\ Forall (Forall (fun frame_method => frame_method <> this))
                     (managed_stack_ th')
           /\ map length (managed_stack_ th') = map length (managed_stack_ th).
Proof.
  intros Hok Hm Hh Ho Ht Hall.
  destruct (EnableXposedHook_state self this additional_info' w m t)
    as (w' & Hrun & _ & _ & _ & _ & Hthreads & _); [apply Hok|done..|].
  assert (Hne : fresh_addr (methods w) <> this) by (by eapply fresh_addr_ne).
  exists w'. split; [done|]. intros thread th Hin Hth.
  rewrite Hthreads, Hth. eexists. split; [reflexivity|].
  unfold thread_after_hook.
  destruct (decide (thread ∈ thread_list_ w)) as [_|]; [|done].
  assert (Hstack : forall f : Thread -> Thread,
            (f = set_state kRunnable \/ f = id) ->
            managed_stack_ (f (visit_thread this (fresh_addr (methods w)) th))
            = replace_method this (fresh_addr (methods w)) (managed_stack_ th)).
  { intros f [->| ->]; destruct th as [st ex se ms lj]; reflexivity. }
  rewrite Hstack by (case_decide; auto).
  by apply replace_method_no_frame.
Qed.

Lemma move_obsolete_cache old_method new_method j :
  new_method <> old_method ->
  ContainsMethod (move_obsolete old_method new_method j) old_method = false
  /\ (forall pc, ContainsPc (move_obsolete old_method new_method j) pc = ContainsPc j pc)
  /\ (ContainsMethod j old_method = true ->
      ContainsMethod (move_obsolete old_method new_method j) new_method = true).
Proof.
  intros Hne. unfold ContainsMethod, ContainsPc, move_obsolete. cbn [code_cache_].
  induction (code_cache_ j) as [|[method header] cache (IH1 & IH2 & IH3)]; [done|].
  cbn [map existsb fst snd].
  destruct (Z.eqb_spec method old_method) as [->|Hm]; cbn [fst snd].
  - destruct (Z.eqb_spec new_method old_method) as [|_]; [done|].
    rewrite Z.eqb_refl, IH1. cbn [orb]. split; [done|]. split; [|done].
    intros pc. by rewrite IH2.
  - destruct (Z.eqb_spec method old_method) as [|_]; [done|].
    rewrite IH1. cbn [orb]. split; [done|]. split.
    + intros pc. by rewrite IH2.
    + intros Hin. rewrite (IH3 Hin). apply orb_true_r.
Qed.

(** X22: hooking hands the JIT's code over to the backup: afterwards the
    code cache has no code of the hooked method, it covers the pcs it
    covered, and if it had code of the method then [HasAnyCompiledCode]
    holds of the backup. *)
Theorem EnableXposedHook_moves_jit_code self this additional_info' w m t j :
  ModifiersOk ->
  methods w !! this = Some m ->
  IsXposedHookedMethod m = false ->
  IsXposedOriginalMethod m = false ->
  threads w !! self = Some t ->
  (forall thread, thread ∈ thread_list_ w -> is_Some (threads w !! thread)) ->
  jit_ w = Some j ->
  exists w' j',
    EnableXposedHook self this additional_info' w = Ok tt w'
    /\ jit_ w' = Some j'
    /\ use_jit_compilation_ j' = use_jit_compilation_ j
    /\ ContainsMethod j' this = false
    /\ (forall pc, ContainsPc j' pc = ContainsPc j pc)
    /\ (ContainsMethod j this = true ->
        HasAnyCompiledCode (fresh_addr (methods w)) w' = Ok true w').
Proof.
  intros Hok Hm Hh Ho Ht Hall Hj.
  destruct (EnableXposedHook_state self this additional_info' w m t)
    as (w' & Hrun & _ & _ & _ & _ & _ & _ & _ & Hjit & _); [apply Hok|done..|].
  assert (Hne : fresh_addr (methods w) <> this) by (by eapply fresh_addr_ne).
  rewrite Hj in Hjit. cbn in Hjit.
  destruct (move_obsolete_cache this (fresh_addr (methods w)) j Hne) as (Hc1 & Hc2 & Hc3).
  exists w', (move_obsolete this (fresh_addr (methods w)) j).
  split; [done|]. split; [done|]. split; [done|]. split; [done|]. split; [done|].
  intros Hin. unfold HasAnyCompiledCode. mrun. rewrite Hjit, (Hc3 Hin). by mrun.
Qed.

(** X23: a hooked method has no code of its own to report: after
    [EnableXposedHook], [GetOatQuickMethodHeader] on the method returns no
    header, for any pc (in a debug build, any pc its check lets through). *)
Theorem GetOatQuickMethodHeader_after_hook self this additional_info' w m t pc :
  ModifiersOk ->
  methods w !! this = Some m ->
  IsXposedHookedMethod m = false ->
  IsXposedOriginalMethod m = false ->
  threads w !! self = Some t ->
  (forall thread, thread ∈ thread_list_ w -> is_Some (threads w !! thread)) ->
  IsRuntimeMethod m = false ->
  GetQuickProxyInvokeHandler <> nullptr ->
  IsQuickGenericJniStub GetQuickProxyInvokeHandler = false ->
  (kIsDebugBuild = true -> pc <> GetQuickInstrumentationExitPc) ->
  exists w',
    EnableXposedHook self this additional_info' w = Ok tt w'
    /\ GetOatQuickMethodHeader this pc w' = Ok None w'.
Proof.
  intros Hok Hm Hh Ho Ht Hall Hruntime Hhandler Hstub Hpc.
  destruct (EnableXposedHook_state self this additional_info' w m t)
    as (w' & Hrun & Hmethods & _); [apply Hok|done..|].
  exists w'. split; [done|].
  assert (Hthis : methods w' !! this
                  = Some (hooked_descriptor (fresh_addr (hook_infos w)) m))
    by (rewrite Hmethods; apply lookup_insert_eq).
  unfold GetOatQuickMethodHeader. mstep.
  rewrite run_DCHECK_ok
    by (intros Hd; apply negb_true_iff, Z.eqb_neq, Hpc, Hd).
  mrun.
  replace (IsRuntimeMethod (hooked_descriptor _ m)) with false
    by (by rewrite <- Hruntime; destruct m).
  cbn [entry_point_from_quick_compiled_code_ hooked_descriptor set_access_flags
       set_code_item_offset set_entry_point_from_quick_compiled_code].
  destruct (Z.eqb_spec GetQuickProxyInvokeHandler nullptr) as [|_]; [done|].
  cbn [negb]. mrun. rewrite Hstub, Z.eqb_refl. mstep.
  rewrite run_DCHECK_ok; [by mrun|].
  intros _. by rewrite hooked_descriptor_hooked by apply Hok.
Qed.

(** ** The stack walk, on its own *)

(** X24: [StackReplaceMethodAndInstallInstrumentation] is stable: run a
    second time on the same thread it finds nothing to rewrite, and only
    calls the instrumentation again, on the same stack. *)
Theorem StackReplaceMethodAndInstallInstrumentation_twice search m info thread w t :
  methods w !! search = Some m ->
  (kIsDebugBuild = true -> IsXposedHookedMethod m = true) ->
  hook_infos w !! entry_point_from_jni_ m = Some info ->
  threads w !! thread = Some t ->
  exists w1 stack,
    StackReplaceMethodAndInstallInstrumentation thread search w = Ok tt w1
    /\ managed_stack_ <$> threads w1 !! thread = Some stack
    /\ StackReplaceMethodAndInstallInstrumentation thread search w1
       = Ok tt (set_trace (trace w1 ++ [EvInstrumentThreadStack thread stack]) w1).
Proof.
  intros Hm Hh Hi Ht.
  rewrite (StackReplaceMethodAndInstallInstrumentation_run _ _ _ _ _ _ Hm Hh Hi Ht).
  eexists _, _. split; [reflexivity|]. wsimpl.
  split; [by rewrite lookup_insert_eq|].
  erewrite StackReplaceMethodAndInstallInstrumentation_run;
    [|exact Hm|exact Hh|exact Hi|wsimpl; apply lookup_insert_eq].
  wsimpl. rewrite insert_insert_eq, visit_thread_idemp.
  unfold visit_thread at 2. cbn [managed_stack_ set_managed_stack].
  by rewrite replace_method_idemp.
Qed.

(** X25: the walk over the thread list does not depend on the order of
    the list: for two orders of the same threads the walks leave the same
    threads and the same runtime, up to the order of the calls to the
    instrumentation. *)
Theorem for_each_order_independent search m info list_ list' w :
  list_ ≡ₚ list' ->
  methods w !! search = Some m ->
  (kIsDebugBuild = true -> IsXposedHookedMethod m = true) ->
  hook_infos w !! entry_point_from_jni_ m = Some info ->
  (forall thread, thread ∈ list_ -> is_Some (threads w !! thread)) ->
  exists w1 w2,
    for_each StackReplaceMethodAndInstallInstrumentation search list_ w = Ok tt w1
    /\ for_each StackReplaceMethodAndInstallInstrumentation search list' w = Ok tt w2
    /\ threads w2 = threads w1
    /\ trace w2 ≡ₚ trace w1
    /\ w2 = set_trace (trace w2) w1.
Proof.
  intros Hperm Hm Hh Hi Hall.
  destruct (for_each_run search m info list_ w Hm Hh Hi Hall) as (thr1 & Hrun1 & Hthr1).
  destruct (for_each_run search m info list' w Hm Hh Hi) as (thr2 & Hrun2 & Hthr2).
  { intros thread Hin. apply Hall. by rewrite Hperm. }
  assert (Hsame : thr2 = thr1).
  { apply map_eq. intros thread. rewrite Hthr1, Hthr2.
    destruct (decide (thread ∈ list_)) as [Hin|Hnin].
    - by rewrite decide_True by (by rewrite <- Hperm).
    - by rewrite decide_False by (by rewrite <- Hperm). }
  eexists _, _. split; [exact Hrun1|]. split; [exact Hrun2|]. wsimpl.
  split; [done|]. split; [|by rewrite Hsame].
  apply Permutation_app_head. unfold instrumentation_events.
  by apply Permutation_map.
Qed.

End FurtherProofs.

(** * The theorems on the concrete runtime *)

Section Witnesses.

Import Examples.

#[local] Existing Instance modifiers.
#[local] Existing Instance entry_points.
#[local] Existing Instance debug_build.
#[local] Existing Instance dex_files.
#[local] Existing Instance collaborators.

Lemma example_modifiers_ok : ModifiersOk.
Proof.
  split; try reflexivity.
  - exists 8. split; [lia|reflexivity].
  - discriminate.
Qed.

Lemma example_threads_listed thread :
  thread ∈ thread_list_ world -> is_Some (threads world !! thread).
Proof.
  intros Hin. cbn in Hin.
  apply elem_of_cons in Hin as [->|Hin]; [by eexists|].
  apply elem_of_cons in Hin as [->|Hin]; [by eexists|].
  by apply elem_of_nil in Hin.
Qed.

Lemma EnableXposedHook_installs_witness :
  exists w' m',
    EnableXposedHook 1 16 99 world = Ok tt w'
    /\ methods w' !! 16 = Some m'
    /\ entry_point_from_quick_compiled_code_ m' = GetQuickProxyInvokeHandler
    /\ IsNative m' = false
    /\ IsXposedHookedMethod m' = true.
Proof.
  destruct (EnableXposedHook_installs 1 16 99 world native_method main_thread)
    as (w' & m' & record & Hrun & Hm' & _ & _ & _ & _ & Hquick & _ & Hnative & _ & _
        & _ & _ & Hhooked).
  - exact example_modifiers_ok.
  - reflexivity.
  - reflexivity.
  - reflexivity.
  - reflexivity.
  - exact example_threads_listed.
  - exists w', m'. repeat split; assumption.
Defined.

Lemma EnableXposedHook_rejections_witness :
  EnableXposedHook 1 16 99 hooked_world = Ok tt hooked_world
  /\ exists w' msg,
       EnableXposedHook 1 17 99 hooked_world = Ok tt w'
       /\ methods w' = methods hooked_world
       /\ only_throws 1 (IllegalArgumentException msg) hooked_world w'.
Proof.
  split.
  - apply (proj1 (EnableXposedHook_rejections 1 16 99 hooked_world hooked_method
                    eq_refl)).
    reflexivity.
  - edestruct (proj2 (EnableXposedHook_rejections 1 17 99 hooked_world backup_method
                        eq_refl))
      as (w' & Hrun & Hmethods & _ & _ & Hthrows); [reflexivity..|].
    destruct Hthrows as [msg Hthrows]; [reflexivity|].
    exists w', msg. repeat split; eassumption.
Defined.

Lemma EnableXposedHook_rewrites_frames_witness :
  exists w' t',
    EnableXposedHook 1 16 99 world = Ok tt w'
    /\ threads w' !! 2 = Some t'
    /\ managed_stack_ t' = [[20; 21; 20]].
Proof.
  destruct (EnableXposedHook_rewrites_frames 1 16 99 world native_method main_thread)
    as (w' & backup & before & Hrun & Hbackup & _ & Hstacks & _).
  - exact example_modifiers_ok.
  - reflexivity.
  - reflexivity.
  - reflexivity.
  - reflexivity.
  - exact example_threads_listed.
  - destruct (Hstacks 2 worker_thread) as (t' & Ht' & Hstack).
    + apply elem_of_cons. right. apply elem_of_cons. by left.
    + reflexivity.
    + exists w', t'. split; [exact Hrun|]. split; [exact Ht'|].
      rewrite Hstack, Hbackup. reflexivity.
Defined.

Lemma GetOatQuickMethodHeader_contains_witness :
  GetOatQuickMethodHeader 16 4004 aot_world = Ok (Some (mkHeader 4000 16)) aot_world
  /\ Contains (mkHeader 4000 16) 4004 = true
  /\ GetOatQuickMethodHeader 16 5000 world = Ok (Some (mkHeader 3000 16)) world
  /\ Contains (mkHeader 3000 16) 5000 = false.
Proof.
  assert (Hpc : 4004 <> 0) by discriminate.
  assert (Hpc' : 5000 <> 0) by discriminate.
  split; [|split; [reflexivity|split; [|reflexivity]]].
  - rewrite (proj2 (proj2 (GetOatQuickMethodHeader_contains 16 4004 aot_world
                             native_method eq_refl Hpc)) 4000); [reflexivity|].
    unfold reaches_aot_code. repeat split; try discriminate; try reflexivity.
  - rewrite (proj1 (proj2 (GetOatQuickMethodHeader_contains 16 5000 world native_method
                             eq_refl Hpc'))); [reflexivity|].
    unfold reaches_fallback. repeat split; try discriminate; try reflexivity.
Defined.

Lemma FindCatchBlock_scan_witness :
  exists out' w', FindCatchBlock 1 16 509 1 false world = Ok (0, out') w'.
Proof.
  destruct (FindCatchBlock_scan 1 16 509 1 false world native_method code_item
              main_thread)
    as (out' & w' & t' & Hrun & _).
  - reflexivity.
  - reflexivity.
  - reflexivity.
  - intros handler Hin. cbn in Hin.
    repeat (apply elem_of_cons in Hin as [->|Hin]; [by eexists|]).
    by apply elem_of_nil in Hin.
  - exists out', w'. exact Hrun.
Defined.

Lemma FindCatchBlock_out_parameter_witness :
  exists w' w'',
    FindCatchBlock 1 16 509 1 true world = Ok (0, false) w'
    /\ FindCatchBlock 1 16 509 5 true world = Ok (kDexNoIndex, true) w''.
Proof.
  destruct (FindCatchBlock_out_parameter 1 16 509 1 true world native_method
              code_item main_thread)
    as (found & out' & w' & Hrun & -> & _ & Hwrite).
  - reflexivity.
  - reflexivity.
  - reflexivity.
  - intros handler Hin. cbn in Hin.
    repeat (apply elem_of_cons in Hin as [->|Hin]; [by eexists|]).
    by apply elem_of_nil in Hin.
  - destruct Hwrite as (instr & Hinstr & ->); [discriminate|].
    injection Hinstr as <-.
    destruct (FindCatchBlock_out_parameter 1 16 509 5 true world native_method
                code_item main_thread)
      as (found & out'' & w'' & Hrun' & -> & Hkeep & _).
    + reflexivity.
    + reflexivity.
    + reflexivity.
    + intros handler Hin. cbn in Hin. by apply elem_of_nil in Hin.
    + rewrite Hkeep in Hrun' by reflexivity.
      exists w', w''. split; [exact Hrun|exact Hrun'].
Defined.

Lemma Invoke_null_code_witness :
  Invoke 1 20 [] 0 (Some 7) "V" 200 world
  = Ok (Some 0)
       (set_trace
          (trace world ++ [EvLogInfo "Not invoking 'void Main.idle()' code=null"]) world).
Proof.
  change "Not invoking 'void Main.idle()' code=null"%string
    with ("Not invoking '" +:+ PrettyMethod 20 +:+ "' code=null").
  apply (Invoke_null_code 1 20 [] 0 (Some 7) "V" 200 world main_thread codeless_method).
  - reflexivity.
  - reflexivity.
  - cbn. lia.
  - intros _. repeat split; reflexivity.
  - reflexivity.
  - reflexivity.
  - reflexivity.
Defined.

Lemma Invoke_stack_overflow_witness :
  exists w',
    Invoke 1 16 [] 0 (Some 7) "V" 50 world = Ok (Some 7) w'
    /\ only_throws 1 StackOverflowError world w'.
Proof.
  destruct (Invoke_stack_overflow 1 16 [] 0 (Some 7) "V" 50 world main_thread)
    as (w' & Hrun & Hthrows & _).
  - reflexivity.
  - cbn. lia.
  - exists w'. split; assumption.
Defined.

Lemma InvalidateCompiledCode_spec_witness :
  InvalidateCompiledCode 16 hooked_world
  = Abort (CheckFailed "!IsXposedHookedMethod()") hooked_world
  /\ exists w', InvalidateCompiledCode 16 world = Ok tt w'.
Proof.
  split.
  - apply (proj1 (InvalidateCompiledCode_spec 16 hooked_world hooked_method eq_refl)).
    reflexivity.
  - edestruct (proj2 (InvalidateCompiledCode_spec 16 world native_method eq_refl))
      as (w1 & _ & _ & Hrun); [reflexivity|].
    eexists. exact Hrun.
Defined.

Lemma RegisterNative_fast_blocks_UnregisterNative_witness :
  exists w',
    RegisterNative 0 16 7000 true world = Ok tt w'
    /\ UnregisterNative 0 16 w'
       = Abort (CheckFailed "IsNative() && !IsFastNative()") w'.
Proof.
  assert (Hp : 7000 <> nullptr) by discriminate.
  destruct (RegisterNative_fast_blocks_UnregisterNative 0 16 7000 world native_method
              example_modifiers_ok)
    as (w' & m' & Hrun & _ & _ & _ & _ & Hunregister); [reflexivity..|exact Hp|].
  exists w'. split; [exact Hrun|apply Hunregister].
Defined.

(** An exception of the class at 600 thrown at dex pc 1: the handler of
    type 7 does not resolve and is skipped with a warning, the handler of
    type 9 does not apply, the catch-all at 2 does; the instruction there
    is not [MOVE_EXCEPTION]; the pending exception is back in place. *)
Example FindCatchBlock_unresolved_then_catch_all :
  exists w',
    FindCatchBlock 1 16 600 1 false world = Ok (2, true) w'
    /\ trace w'
       = [EvLogWarning "Unresolved exception class when finding catch block: " 7]
    /\ exception_ <$> threads w' !! 1 = Some (Some (JavaThrowable 900)).
Proof. eexists. split; [reflexivity|]. split; reflexivity. Qed.

(** The AOT code at 4000 does not contain the pc 9000: a debug build
    aborts, a release build returns the header all the same. *)
Example GetOatQuickMethodHeader_aot_debug :
  GetOatQuickMethodHeader 16 9000 aot_world
  = Abort (CheckFailed "method_header->Contains(pc)") aot_world.
Proof. reflexivity. Qed.

Example GetOatQuickMethodHeader_aot_release :
  @GetOatQuickMethodHeader modifiers entry_points release_build dex_files collaborators
    16 9000 aot_world
  = Ok (Some (mkHeader 4000 16)) aot_world.
Proof. reflexivity. Qed.

(** With no oat method for it, the method at 16 gets the header of its
    entry point at 3000, which does not contain the pc 5000. *)
Lemma GetOatQuickMethodHeader_fallback_counterexample :
  ~ (forall h w',
       GetOatQuickMethodHeader 16 5000 world = Ok (Some h) w' ->
       Contains h 5000 = true).
Proof.
  intros Hclaim. specialize (Hclaim (mkHeader 3000 16) world eq_refl).
  discriminate Hclaim.
Qed.

(** On the hooked method at 16, [InvalidateCompiledCode] does not report
    an error to its caller: the process aborts. *)
Lemma InvalidateCompiledCode_hooked_counterexample :
  ~ reports_usage_error hooked_world (InvalidateCompiledCode 16 hooked_world).
Proof.
  intros (w' & Hrun & _). vm_compute in Hrun. discriminate Hrun.
Qed.

End Witnesses.

(** * The further theorems on the concrete runtime *)

Section FurtherWitnesses.

Import Examples FurtherExamples.

#[local] Existing Instance modifiers.
#[local] Existing Instance entry_points.
#[local] Existing Instance debug_build.
#[local] Existing Instance dex_files.
#[local] Existing Instance collaborators.
#[local] Existing Instance prototypes.

Lemma example_jit_threads_listed thread :
  thread ∈ thread_list_ jit_world -> is_Some (threads jit_world !! thread).
Proof.
  intros Hin. cbn in Hin.
  apply elem_of_cons in Hin as [->|Hin]; [by eexists|].
  apply elem_of_cons in Hin as [->|Hin]; [by eexists|].
  by apply elem_of_nil in Hin.
Qed.

Lemma NumArgRegisters_counts_witness :
  NumArgRegisters "" world = Abort (CheckFailed "1U <= shorty.length()") world
  /\ NumArgRegisters "VIJD" world = Ok 5 world.
Proof.
  split.
  - apply (proj1 (NumArgRegisters_counts "" world)). reflexivity.
  - destruct (proj2 (NumArgRegisters_counts "VIJD" world) "V"%char "IJD"%string)
      as (n & Hrun & -> & _).
    + reflexivity.
    + cbn. lia.
    + exact Hrun.
Defined.

Lemma NumArgRegisters_append_witness :
  exists n n',
    NumArgRegisters "VIJ" world = Ok n world
    /\ NumArgRegisters "ID" world = Ok n' world
    /\ NumArgRegisters "ZIJD" world = Ok (n + n') world.
Proof.
  apply (NumArgRegisters_append "V" "I" "Z" "IJ" "D" world). reflexivity.
Defined.

Lemma EqualParameters_compares_witness :
  EqualParameters 1 16 (Some [509; 511]) world = Ok true world
  /\ exists w',
       EqualParameters 1 24 (Some [509; 507]) unresolved_world = Ok false w'
       /\ only_throws 1 (NoClassDefFoundError 7) unresolved_world w'.
Proof.
  split.
  - destruct (EqualParameters_compares 1 16 (Some [509; 511]) world native_method
                main_thread) as (w' & Hrun & Hsame).
    + reflexivity.
    + reflexivity.
    + assert (Hw : w' = world) by exact Hsame. rewrite Hw in Hrun. exact Hrun.
  - destruct (EqualParameters_compares 1 24 (Some [509; 507]) unresolved_world
                unresolved_method main_thread) as (w' & Hrun & Hthrown).
    + reflexivity.
    + reflexivity.
    + exists w'. split; [exact Hrun|exact Hthrown].
Defined.

Lemma EqualParameters_no_parameters_witness :
  EqualParameters 1 20 None world = Ok true world.
Proof.
  apply (EqualParameters_no_parameters 1 20 None world codeless_method).
  - reflexivity.
  - reflexivity.
Defined.

Lemma CopyFrom_copies_witness :
  exists w' copy,
    CopyFrom 20 16 world = Ok tt w'
    /\ methods w' !! 16 = Some native_method
    /\ access_flags_ copy = 0x0121
    /\ hotness_count_ copy = 0.
Proof.
  destruct (CopyFrom_copies 20 16 world native_method codeless_method)
    as (w' & copy & Hrun & _ & Hsrc & _ & _ & Hflags & _ & _ & _ & _ & Hhot & _).
  - reflexivity.
  - reflexivity.
  - discriminate.
  - exists w', copy. repeat split; assumption.
Defined.

Lemma CopyFrom_not_in_code_cache_witness :
  exists w' copy,
    CopyFrom 20 16 jit_world = Ok tt w'
    /\ methods w' !! 20 = Some copy
    /\ ContainsPc (mkJit true [(16, mkHeader 3000 16)])
         (entry_point_from_quick_compiled_code_ copy) = false.
Proof.
  destruct (CopyFrom_not_in_code_cache 20 16 jit_world native_method codeless_method
              (mkJit true [(16, mkHeader 3000 16)]))
    as (w' & copy & Hrun & Hcopy & _ & Hcache).
  - reflexivity.
  - reflexivity.
  - discriminate.
  - reflexivity.
  - reflexivity.
  - reflexivity.
  - exists w', copy. repeat split; assumption.
Defined.

Lemma RegisterNative_hooked_registers_backup_witness :
  exists w',
    RegisterNative 1 16 2500 false hooked_world = Ok tt w'
    /\ methods w' !! 16 = Some hooked_method.
Proof.
  destruct (RegisterNative_hooked_registers_backup 0 16 2500 false hooked_world
              hooked_method (mkXposedHookInfo 0 1 17) backup_method)
    as (w' & Hrun & _ & Hthis & _).
  - reflexivity.
  - reflexivity.
  - reflexivity.
  - reflexivity.
  - reflexivity.
  - reflexivity.
  - reflexivity.
  - discriminate.
  - exists w'. split; assumption.
Defined.

Lemma RegisterNative_UnregisterNative_witness :
  (RegisterNative 0 16 2500 false;; UnregisterNative 0 16) world
  = UnregisterNative 0 16 world.
Proof.
  destruct (RegisterNative_UnregisterNative 0 0 16 2500 world native_method)
    as [Hboth Hone].
  - reflexivity.
  - reflexivity.
  - reflexivity.
  - reflexivity.
  - discriminate.
  - discriminate.
  - rewrite Hboth, Hone. reflexivity.
Defined.

Lemma RegisterNative_abort_unchanged_witness :
  exists e w',
    RegisterNative 0 20 2500 false world = Abort e w' /\ w' = world.
Proof.
  eexists _, _. split; [reflexivity|].
  apply (proj1 (RegisterNative_abort_unchanged 0 20 2500 false world
                  (CheckFailed "IsNative()") world)).
  reflexivity.
Defined.

Lemma HasAnyCompiledCode_after_InvalidateCompiledCode_witness :
  exists w1,
    InvalidateCompiledCode 16 jit_world = Ok tt w1
    /\ HasAnyCompiledCode 16 w1 = Ok true w1
    /\ exists w2,
         InvalidateCompiledCode 16 aot_world = Ok tt w2
         /\ HasAnyCompiledCode 16 aot_world = Ok true aot_world
         /\ HasAnyCompiledCode 16 w2 = Ok false w2.
Proof.
  eexists. split; [reflexivity|]. split.
  - apply (HasAnyCompiledCode_after_InvalidateCompiledCode 16 jit_world). reflexivity.
  - eexists. split; [reflexivity|]. split; [reflexivity|].
    apply (HasAnyCompiledCode_after_InvalidateCompiledCode 16 aot_world). reflexivity.
Defined.

Lemma InvalidateCompiledCode_twice_witness :
  (exists w1,
     InvalidateCompiledCode 16 world = Ok tt w1
     /\ InvalidateCompiledCode 16 w1 = Ok tt w1)
  /\ exists w1,
       InvalidateCompiledCode 16 jit_world = Ok tt w1
       /\ InvalidateCompiledCode 16 w1
          = Ok tt (set_trace (trace w1 ++ [EvInvalidateCompiledCodeFor 16]) w1)
       /\ trace w1 = [EvInvalidateCompiledCodeFor 16].
Proof.
  split.
  - eexists. split; [reflexivity|].
    apply (InvalidateCompiledCode_twice 16 world). reflexivity.
  - eexists. split; [reflexivity|]. split; [|reflexivity].
    apply (InvalidateCompiledCode_twice 16 jit_world). reflexivity.
Defined.

Lemma Invoke_keeps_managed_stack_witness :
  exists r w',
    Invoke 1 16 [5] 1 None "V" 200 world = Ok r w'
    /\ managed_stack_ <$> threads w' !! 1 = Some [[16; 20]; [16]].
Proof.
  destruct (Invoke 1 16 [5] 1 None "V" 200 world) as [r w'|e w'] eqn:Hrun;
    [|vm_compute in Hrun; discriminate Hrun].
  exists r, w'. split; [reflexivity|].
  refine (Invoke_keeps_managed_stack 1 16 [5] 1 None "V" 200 _ _ _ _ world r w' Hrun).
  - intros receiver args' w0 r0 w0' [= _ <-]. reflexivity.
  - intros w0 r0 w0' [= _ <-]. reflexivity.
  - intros w0 r0 w0' [= _ <-]. reflexivity.
  - intros r1 w0 r0 w0' [= _ <-]. reflexivity.
Defined.

Lemma FindCatchBlock_long_jump_context_witness :
  exists r w' t',
    FindCatchBlock 2 16 509 1 false world = Ok r w'
    /\ threads w' !! 2 = Some t'
    /\ long_jump_context_ worker_thread = Some 40
    /\ long_jump_context_ t' = None.
Proof.
  destruct (FindCatchBlock_long_jump_context 2 16 509 1 false world native_method
              code_item worker_thread)
    as (r & w' & t' & Hrun & Ht' & _ & Hcontext & _).
  - reflexivity.
  - reflexivity.
  - reflexivity.
  - intros handler Hin. cbn in Hin.
    repeat (apply elem_of_cons in Hin as [->|Hin]; [by eexists|]).
    by apply elem_of_nil in Hin.
  - exists r, w', t'. repeat split; assumption.
Defined.

Lemma EnableXposedHook_twice_witness :
  exists w',
    EnableXposedHook 1 16 99 world = Ok tt w'
    /\ EnableXposedHook 2 16 98 w' = Ok tt w'.
Proof.
  destruct (EnableXposedHook_twice 1 16 99 world native_method main_thread)
    as (w' & Hrun & Hagain).
  - exact example_modifiers_ok.
  - reflexivity.
  - reflexivity.
  - reflexivity.
  - reflexivity.
  - exact example_threads_listed.
  - exists w'. split; [exact Hrun|apply Hagain].
Defined.

Lemma EnableXposedHook_backup_copy_witness :
  exists w' backup,
    EnableXposedHook 1 16 99 world = Ok tt w'
    /\ methods w' !! 21 = Some backup
    /\ access_flags_ backup = 0x04000121
    /\ entry_point_from_quick_compiled_code_ backup = 3000.
Proof.
  destruct (EnableXposedHook_backup_copy 1 16 99 world native_method main_thread)
    as (w' & backup & Hrun & _ & Hbackup & _ & _ & _ & _ & _ & Hflags & _ & Hentry).
  - exact example_modifiers_ok.
  - reflexivity.
  - reflexivity.
  - reflexivity.
  - reflexivity.
  - exact example_threads_listed.
  - exists w', backup. repeat split; assumption.
Defined.

Lemma EnableXposedHook_backup_rejected_witness :
  exists w' w'',
    EnableXposedHook 1 16 99 world = Ok tt w'
    /\ EnableXposedHook 1 21 99 w' = Ok tt w''
    /\ only_throws 1
         (IllegalArgumentException "Cannot hook the method backup: void Main.run()")
         w' w''.
Proof.
  change "Cannot hook the method backup: void Main.run()"%string
    with ("Cannot hook the method backup: " +:+ PrettyMethod 21).
  apply (EnableXposedHook_backup_rejected 1 16 99 world native_method main_thread).
  - exact example_modifiers_ok.
  - discriminate.
  - reflexivity.
  - reflexivity.
  - reflexivity.
  - reflexivity.
  - exact example_threads_listed.
Defined.

Lemma EnableXposedHook_frame_witness :
  exists w',
    EnableXposedHook 1 16 99 world = Ok tt w'
    /\ methods w' !! 20 = Some codeless_method
    /\ exists th', threads w' !! 2 = Some th' /\ long_jump_context_ th' = Some 40.
Proof.
  destruct (EnableXposedHook_frame 1 16 99 world native_method main_thread)
    as (w' & Hrun & Hmethods & _ & _ & _ & _ & _ & Hthreads).
  - exact example_modifiers_ok.
  - reflexivity.
  - reflexivity.
  - reflexivity.
  - reflexivity.
  - exact example_threads_listed.
  - exists w'. split; [exact Hrun|]. split.
    + rewrite Hmethods; [reflexivity|discriminate|discriminate].
    + destruct (Hthreads 2 worker_thread eq_refl) as (th' & Hth' & _ & _ & Hcontext & _).
      exists th'. split; assumption.
Defined.

Lemma EnableXposedHook_keeps_flags_witness :
  exists w' m',
    EnableXposedHook 1 16 99 world = Ok tt w'
    /\ methods w' !! 16 = Some m'
    /\ has_flag m' 1 = true.
Proof.
  destruct (EnableXposedHook_keeps_flags 1 16 99 world native_method main_thread 1)
    as (w' & m' & Hrun & Hm' & Hflag).
  - exact example_modifiers_ok.
  - reflexivity.
  - reflexivity.
  - reflexivity.
  - reflexivity.
  - exact example_threads_listed.
  - lia.
  - reflexivity.
  - reflexivity.
  - exists w', m'. repeat split; assumption.
Defined.

Lemma EnableXposedHook_no_frame_left_witness :
  exists w' th',
    EnableXposedHook 1 16 99 world = Ok tt w'
    /\ threads w' !! 2 = Some th'
    /\ Forall (Forall (fun frame_method => frame_method <> 16)) (managed_stack_ th')
    /\ map length (managed_stack_ th') = [3%nat].
Proof.
  destruct (EnableXposedHook_no_frame_left 1 16 99 world native_method main_thread)
    as (w' & Hrun & Hstacks).
  - exact example_modifiers_ok.
  - reflexivity.
  - reflexivity.
  - reflexivity.
  - reflexivity.
  - exact example_threads_listed.
  - destruct (Hstacks 2 worker_thread) as (th' & Hth' & Hnone & Hshape).
    + apply elem_of_cons. right. apply elem_of_cons. by left.
    + reflexivity.
    + exists w', th'. repeat split; assumption.
Defined.

Lemma EnableXposedHook_moves_jit_code_witness :
  exists w' j',
    EnableXposedHook 1 16 99 jit_world = Ok tt w'
    /\ jit_ w' = Some j'
    /\ ContainsMethod j' 16 = false
    /\ HasAnyCompiledCode 21 w' = Ok true w'.
Proof.
  destruct (EnableXposedHook_moves_jit_code 1 16 99 jit_world native_method main_thread
              (mkJit true [(16, mkHeader 3000 16)]))
    as (w' & j' & Hrun & Hjit & _ & Hnone & _ & Hbackup).
  - exact example_modifiers_ok.
  - reflexivity.
  - reflexivity.
  - reflexivity.
  - reflexivity.
  - exact example_jit_threads_listed.
  - reflexivity.
  - exists w', j'. repeat split; try assumption. apply Hbackup. reflexivity.
Defined.

Lemma GetOatQuickMethodHeader_after_hook_witness :
  exists w',
    EnableXposedHook 1 16 99 world = Ok tt w'
    /\ GetOatQuickMethodHeader 16 3004 world = Ok (Some (mkHeader 3000 16)) world
    /\ GetOatQuickMethodHeader 16 3004 w' = Ok None w'.
Proof.
  destruct (GetOatQuickMethodHeader_after_hook 1 16 99 world native_method main_thread
              3004) as (w' & Hrun & Hnone).
  - exact example_modifiers_ok.
  - reflexivity.
  - reflexivity.
  - reflexivity.
  - reflexivity.
  - exact example_threads_listed.
  - reflexivity.
  - discriminate.
  - reflexivity.
  - discriminate.
  - exists w'. split; [exact Hrun|]. split; [reflexivity|exact Hnone].
Defined.

Lemma StackReplaceMethodAndInstallInstrumentation_twice_witness :
  exists w1,
    StackReplaceMethodAndInstallInstrumentation 1 16 hooked_world = Ok tt w1
    /\ managed_stack_ <$> threads w1 !! 1 = Some [[17; 20]; [17]]
    /\ StackReplaceMethodAndInstallInstrumentation 1 16 w1
       = Ok tt (set_trace (trace w1 ++ [EvInstrumentThreadStack 1 [[17; 20]; [17]]]) w1).
Proof.
  destruct (StackReplaceMethodAndInstallInstrumentation_twice 16 hooked_method
              (mkXposedHookInfo 0 1 17) 1 hooked_world main_thread)
    as (w1 & stack & Hrun & Hstack & Hagain).
  - reflexivity.
  - reflexivity.
  - reflexivity.
  - reflexivity.
  - exists w1. split; [exact Hrun|].
    assert (Hvalue : Some stack = Some [[17; 20]; [17]]).
    { rewrite <- Hstack. injection Hrun as <-. reflexivity. }
    injection Hvalue as ->. split; assumption.
Defined.

Lemma for_each_order_independent_witness :
  exists w1 w2,
    for_each StackReplaceMethodAndInstallInstrumentation 16 [1; 2]
      hooked_world_two_threads = Ok tt w1
    /\ for_each StackReplaceMethodAndInstallInstrumentation 16 [2; 1]
         hooked_world_two_threads = Ok tt w2
    /\ threads w2 = threads w1.
Proof.
  destruct (for_each_order_independent 16 hooked_method (mkXposedHookInfo 0 1 17)
              [1; 2] [2; 1] hooked_world_two_threads)
    as (w1 & w2 & Hrun1 & Hrun2 & Hthreads & _).
  - apply perm_swap.
  - reflexivity.
  - reflexivity.
  - reflexivity.
  - intros thread Hin.
    apply elem_of_cons in Hin as [->|Hin]; [by eexists|].
    apply elem_of_cons in Hin as [->|Hin]; [by eexists|].
    by apply elem_of_nil in Hin.
  - exists w1, w2. repeat split; assumption.
Defined.

End FurtherWitnesses.
